(** * Y-Note / MTN Mobile Money payment API: status normalisation, phone
    normalisation, and the campaign state transition

    A shallow embedding of [src/services/ynote.service.ts] and of the webhook
    route of [src/routes/webhook.routes.ts].  JavaScript values are a small
    inductive type, Firestore collections are finite maps from document id to
    document, and the asynchronous service functions are computations in a
    state-and-exception monad over the store. *)

From Stdlib Require Import ZArith String Ascii List Bool Lia DecimalString.
From Stdlib Require Import DecimalPos.
From stdpp Require Import gmap strings list fin_maps.

#[local] Set Warnings "-register-all".
#[local] Open Scope string_scope.
#[local] Open Scope Z_scope.

(** ** JavaScript strings

    A string is a sequence of bytes (UTF-8).  The service only inspects ASCII
    characters (digits, the literals it compares with), so a non-ASCII
    character is a run of bytes none of which is a digit. *)

Module Js.

Definition isDigit (c : ascii) : bool :=
  let n := nat_of_ascii c in ((48 <=? n) && (n <=? 57))%nat.

(** [s.replace(/\D/g, "")] *)
Fixpoint replaceNonDigits (s : string) : string :=
  match s with
  | EmptyString => EmptyString
  | String c r => if isDigit c then String c (replaceNonDigits r) else replaceNonDigits r
  end.

(** [s.startsWith(p)] *)
Fixpoint startsWith (s p : string) {struct p} : bool :=
  match p with
  | EmptyString => true
  | String a p' =>
      match s with
      | EmptyString => false
      | String b s' => Ascii.eqb a b && startsWith s' p'
      end
  end.

(** [s.substring(n)] *)
Fixpoint substringFrom (n : nat) (s : string) : string :=
  match n, s with
  | O, _ => s
  | S _, EmptyString => EmptyString
  | S k, String _ r => substringFrom k r
  end.

(** [s.substring(0, n)] *)
Fixpoint substringTo (n : nat) (s : string) : string :=
  match n, s with
  | O, _ => EmptyString
  | S _, EmptyString => EmptyString
  | S k, String c r => String c (substringTo k r)
  end.

(** [s.includes(sub)] *)
Fixpoint includes (s sub : string) : bool :=
  startsWith s sub ||
  match s with
  | EmptyString => false
  | String _ r => includes r sub
  end.

(** [arr.includes(x)] on an array of strings *)
Definition arrayIncludes (arr : list string) (x : string) : bool :=
  existsb (String.eqb x) arr.

(** *** Numbers

    A JavaScript number is a double.  The integers up to 2^53 in magnitude
    are doubles; a larger integer stands for the double nearest to it. *)

(** The double nearest to a natural number, ties to the even mantissa;
    [None] beyond the largest double, where the number is [Infinity]. *)
Definition nearestDouble (a : Z) : option Z :=
  if a <? 2 ^ 53 then Some a
  else
    let e := Z.log2 a - 52 in
    let q := Z.shiftr a e in
    let r := a - Z.shiftl q e in
    let half := Z.shiftl 1 (e - 1) in
    let q' :=
      if r <? half then q
      else if half <? r then q + 1
      else if Z.even q then q else q + 1 in
    let d := Z.shiftl q' e in
    if d <? 2 ^ 1024 then Some d else None.

(** The decimal digits of an integer, with its sign. *)
Definition decimal (z : Z) : string := NilZero.string_of_int (Z.to_int z).

Definition roundsTo (c v : Z) : bool :=
  match nearestDouble c with
  | Some d => d =? v
  | None => false
  end.

(** The digits [s] and the exponent [n] of [Number::toString] for a double
    [v] of [m] decimal digits: the least number [k] of digits for which some
    [s] of [k] digits has [s * 10^(n-k)] round to [v], and of these the [s]
    nearest to [v] (the even one of two). *)
Fixpoint shortestDigits (fuel : nat) (k m v : Z) : Z * Z :=
  match fuel with
  | O => (v, m)
  | S fuel' =>
      let unit := 10 ^ (m - k) in
      let s0 := v / unit in
      let c0 := s0 * unit in
      let c1 := c0 + unit in
      let up := if s0 + 1 =? 10 ^ k then (1, m + 1) else (s0 + 1, m) in
      match roundsTo c0 v, roundsTo c1 v with
      | true, true =>
          if v - c0 <? c1 - v then (s0, m)
          else if c1 - v <? v - c0 then up
          else if Z.even s0 then (s0, m) else up
      | true, false => (s0, m)
      | false, true => up
      | false, false => shortestDigits fuel' (k + 1) m v
      end
  end.

Fixpoint zeros (n : nat) : string :=
  match n with
  | O => EmptyString
  | S n' => String "0" (zeros n')
  end.

(** [Number::toString] on a double [v] of 2^53 or more: the shortest digits
    that read back as [v], filled with zeros up to 21 digits, and with an
    exponent beyond. *)
Definition printShortest (v : Z) : string :=
  let m := Z.of_nat (String.length (decimal v)) in
  let '(s, n) := shortestDigits 17 1 m v in
  let digits := decimal s in
  if n <=? 21 then digits +:+ zeros (Z.to_nat n - String.length digits)
  else
    match digits with
    | String d EmptyString => digits +:+ "e+" +:+ decimal (n - 1)
    | String d ds => String d EmptyString +:+ "." +:+ ds +:+ "e+" +:+ decimal (n - 1)
    | EmptyString => EmptyString
    end.

(** [Number.prototype.toString] on an integer: all its digits up to 2^53,
    the shortest digits of the double beyond. *)
Definition numberToString (z : Z) : string :=
  match nearestDouble (Z.abs z) with
  | None => if z <? 0 then "-Infinity" else "Infinity"
  | Some v =>
      if v <? 2 ^ 53 then decimal z
      else (if z <? 0 then "-" else "") +:+ printShortest v
  end.

(** *** Document paths

    [path.split("/")], and the segments of a resource path, which are the
    non-empty ones. *)
Fixpoint splitSlash (s : string) : list string :=
  match s with
  | EmptyString => [EmptyString]
  | String c r =>
      if Ascii.eqb c "/" then EmptyString :: splitSlash r
      else
        match splitSlash r with
        | segment :: segments => String c segment :: segments
        | [] => [String c EmptyString]
        end
  end.

Definition pathSegments (s : string) : list string :=
  List.filter (fun segment => negb (String.eqb segment "")) (splitSlash s).

End Js.

(** ** JavaScript values

    The JSON values a vendor response or a stored document can hold, plus
    [undefined], [NaN] and the infinities (results of [parseInt]) and the
    Firestore timestamp.  Numbers are integers; fractional amounts are
    outside the model, and an integer of 2^53 or more is printed and parsed
    as the double nearest to it.  An object or an array comes from JSON (a request
    body, an answer of the gateway, a stored document) and has no
    [undefined] inside: [undefined] only arises as the value of a field that
    is read and is not there. *)

Inductive Value : Type :=
| VUndef
| VNull
| VBool (b : bool)
| VNum (z : Z)
| VNaN
| VStr (s : string)
| VArr (l : list Value)
| VObj (fields : gmap string Value)
| VTime (millis : Z)
| VInf (negative : bool).

Abbreviation Obj := (gmap string Value).

(** [o.k] for an object [o]: [undefined] when the field is absent. *)
Definition field (o : Obj) (k : string) : Value := default VUndef (o !! k).

(** Truthiness of a value, as [if (v)], [!v] and [v || w] test it. *)
Definition truthy (v : Value) : bool :=
  match v with
  | VUndef | VNull | VNaN => false
  | VBool b => b
  | VNum z => negb (z =? 0)
  | VStr s => negb (String.eqb s "")
  | VArr _ | VObj _ | VTime _ | VInf _ => true
  end.

(** [v === undefined] negated: the values a document can hold. *)
Definition defined (v : Value) : bool :=
  match v with
  | VUndef => false
  | _ => true
  end.

(** [a || b] *)
Definition vor (a b : Value) : Value := if truthy a then a else b.

(** [v === "lit"] *)
Definition strictEqStr (v : Value) (lit : string) : bool :=
  match v with
  | VStr s => String.eqb s lit
  | _ => false
  end.

(** [v === n] for a number literal *)
Definition strictEqNum (v : Value) (n : Z) : bool :=
  match v with
  | VNum z => z =? n
  | _ => false
  end.

(** [ToString(v)], as a template literal or [parseInt] applies it. *)
Fixpoint toStr (v : Value) : string :=
  match v with
  | VUndef => "undefined"
  | VNull => "null"
  | VBool true => "true"
  | VBool false => "false"
  | VNum z => Js.numberToString z
  | VNaN => "NaN"
  | VStr s => s
  | VArr l =>
      (* Array.prototype.join(","): null and undefined elements print empty *)
      let elemStr (x : Value) : string :=
        match x with
        | VUndef | VNull => ""
        | _ => toStr x
        end in
      (fix join (l : list Value) : string :=
         match l with
         | [] => ""
         | [x] => elemStr x
         | x :: r => elemStr x +:+ "," +:+ join r
         end) l
  | VObj _ | VTime _ => "[object Object]"
  | VInf false => "Infinity"
  | VInf true => "-Infinity"
  end.

(** *** [parseInt]

    [parseInt(v)] with no radix: the argument is converted to a string,
    leading white space is skipped, an optional sign and an optional [0x]
    prefix are read, and the longest run of digits of the radix is the
    result, as a double (all the digits count); no digit at all gives
    [NaN]. *)

(** TAB, LF, VT, FF, CR and the space. *)
Definition isSpace (c : ascii) : bool :=
  let n := nat_of_ascii c in ((n =? 32) || ((9 <=? n) && (n <=? 13)))%nat.

(** U+00A0, in UTF-8. *)
Definition isSpace2 (c1 c2 : ascii) : bool :=
  ((nat_of_ascii c1 =? 194) && (nat_of_ascii c2 =? 160))%nat.

(** U+1680, U+2000 to U+200A, U+2028, U+2029, U+202F, U+205F, U+3000 and
    U+FEFF, in UTF-8. *)
Definition isSpace3 (c1 c2 c3 : ascii) : bool :=
  let n1 := nat_of_ascii c1 in
  let n2 := nat_of_ascii c2 in
  let n3 := nat_of_ascii c3 in
  (((n1 =? 225) && (n2 =? 154) && (n3 =? 128))
   || ((n1 =? 226) && (n2 =? 128)
       && (((128 <=? n3) && (n3 <=? 138)) || (n3 =? 168) || (n3 =? 169) || (n3 =? 175)))
   || ((n1 =? 226) && (n2 =? 129) && (n3 =? 159))
   || ((n1 =? 227) && (n2 =? 128) && (n3 =? 128))
   || ((n1 =? 239) && (n2 =? 187) && (n3 =? 191)))%nat.

(** The white space of [StrWhiteSpaceChar] skipped. *)
Fixpoint trimStart (s : string) : string :=
  match s with
  | EmptyString => EmptyString
  | String c1 r1 =>
      if isSpace c1 then trimStart r1
      else
        match r1 with
        | String c2 r2 =>
            if isSpace2 c1 c2 then trimStart r2
            else
              match r2 with
              | String c3 r3 => if isSpace3 c1 c2 c3 then trimStart r3 else s
              | EmptyString => s
              end
        | EmptyString => s
        end
  end.

Definition digitVal (c : ascii) : option Z :=
  let n := Z.of_nat (nat_of_ascii c) in
  if (48 <=? n) && (n <=? 57) then Some (n - 48)
  else if (97 <=? n) && (n <=? 122) then Some (n - 87)
  else if (65 <=? n) && (n <=? 90) then Some (n - 55)
  else None.

Fixpoint parseDigits (radix : Z) (acc : option Z) (s : string) : option Z :=
  match s with
  | EmptyString => acc
  | String c r =>
      match digitVal c with
      | Some d =>
          if d <? radix
          then parseDigits radix (Some (radix * default 0 acc + d)) r
          else acc
      | None => acc
      end
  end.

Definition parseInt (v : Value) : Value :=
  let s := trimStart (toStr v) in
  let '(negative, s) :=
    match s with
    | String "-" r => (true, r)
    | String "+" r => (false, r)
    | _ => (false, s)
    end in
  let '(radix, s) :=
    if Js.startsWith s "0x" || Js.startsWith s "0X"
    then (16, Js.substringFrom 2 s)
    else (10, s) in
  match parseDigits radix None s with
  | None => VNaN
  | Some n =>
      match Js.nearestDouble n with
      | Some d => VNum (if negative then - d else d)
      | None => VInf negative
      end
  end.

(** ** Exceptions

    A thrown [Error] carries its message; an error raised by the HTTP client
    also carries the HTTP status of the response, when there is one
    ([error.response?.status]). *)

Record Error : Type := mkError {
  message : string;
  responseStatus : option Z
}.

Definition newError (msg : string) : Error :=
  {| message := msg; responseStatus := None |}.

Inductive Result (A : Type) : Type :=
| Ok (a : A)
| Err (e : Error).
Arguments Ok {A} a.
Arguments Err {A} e.

Definition rbind {A B} (r : Result A) (k : A -> Result B) : Result B :=
  match r with
  | Ok a => k a
  | Err e => Err e
  end.

Notation "x <-? r ; k" := (rbind r (fun x => k))
  (at level 100, r at next level, right associativity, only parsing).

(** [v.k]: reading a property of [null] or [undefined] throws a [TypeError];
    of an object it is the field, [undefined] when absent; the property names
    the service reads are no built-in property of a string, number, boolean
    or array, so there it is [undefined]. *)
Definition getProp (v : Value) (k : string) : Result Value :=
  match v with
  | VObj fields => Ok (field fields k)
  | VUndef =>
      Err (newError ("Cannot read properties of undefined (reading '" +:+ k +:+ "')"))
  | VNull =>
      Err (newError ("Cannot read properties of null (reading '" +:+ k +:+ "')"))
  | _ => Ok VUndef
  end.

(** [v?.k] *)
Definition getPropOpt (v : Value) (k : string) : Value :=
  match v with
  | VObj fields => field fields k
  | _ => VUndef
  end.

(** ** Phone normaliser and validator *)

(** [formatPhoneNumber], ynote.service.ts l.136-151 *)
Definition formatPhoneNumber (phone : string) : string :=
  let cleaned := Js.replaceNonDigits phone in
  let cleaned :=
    if Js.startsWith cleaned "0" then Js.substringFrom 1 cleaned else cleaned in
  let cleaned :=
    if negb (Js.startsWith cleaned "237") then "237" +:+ cleaned else cleaned in
  cleaned.

Record PhoneValidation : Type := {
  isValid : bool;
  error : option string
}.

Definition mtnPrefixes : list string := ["65"; "67"; "68"].

(** [validateMtnPhoneNumber], ynote.service.ts l.156-184 *)
Definition validateMtnPhoneNumber (phone : string) : PhoneValidation :=
  let cleaned := Js.replaceNonDigits phone in
  if (String.length cleaned <? 9)%nat then
    {| isValid := false; error := Some "Numéro trop court" |}
  else
    let numberToCheck :=
      if Js.startsWith cleaned "237" then Js.substringFrom 3 cleaned else cleaned in
    let numberToCheck :=
      if Js.startsWith numberToCheck "0"
      then Js.substringFrom 1 numberToCheck else numberToCheck in
    let prefix := Js.substringTo 2 numberToCheck in
    if negb (Js.arrayIncludes mtnPrefixes prefix) then
      {| isValid := false; error := Some "Ce n'est pas un numéro MTN Cameroun" |}
    else
      {| isValid := true; error := None |}.

(** ** Status normaliser *)

Inductive PaymentStatus : Type := PENDING | SUCCESSFUL | FAILED.

Definition paymentStatusString (s : PaymentStatus) : string :=
  match s with
  | PENDING => "PENDING"
  | SUCCESSFUL => "SUCCESSFUL"
  | FAILED => "FAILED"
  end.

Module NormalizedYnoteStatus.
Record t : Type := mk {
  status : PaymentStatus;
  amount : Value;
  transactionId : Value;
  reason : Value
}.
End NormalizedYnoteStatus.

(** The value the mapping is applied to:
    [r.status || r.transactionStatus || "PENDING"]. *)
Definition vendorStatusField (ynoteResponse : Value) : Result Value :=
  s1 <-? getProp ynoteResponse "status";
  s2 <-? getProp ynoteResponse "transactionStatus";
  Ok (vor (vor s1 s2) (VStr "PENDING")).

(** The mapping of vendor status words, l.335-341. *)
Definition mapVendorStatus (status : Value) : PaymentStatus :=
  if strictEqStr status "SUCCESSFUL" || strictEqStr status "SUCCESS"
     || strictEqStr status "COMPLETED"
  then SUCCESSFUL
  else if strictEqStr status "FAILED" || strictEqStr status "REJECTED"
          || strictEqStr status "CANCELLED" || strictEqStr status "EXPIRED"
  then FAILED
  else PENDING.

(** [normalizeYnoteStatus], ynote.service.ts l.330-349 *)
Definition normalizeYnoteStatus (ynoteResponse : Value)
  : Result NormalizedYnoteStatus.t :=
  status <-? vendorStatusField ynoteResponse;
  let normalizedStatus := mapVendorStatus status in
  amount <-? getProp ynoteResponse "amount";
  transactionId <-? getProp ynoteResponse "transactionId";
  financialTransactionId <-? getProp ynoteResponse "financialTransactionId";
  externalId <-? getProp ynoteResponse "externalId";
  reason <-? getProp ynoteResponse "reason";
  msg <-? getProp ynoteResponse "message";
  errorMessage <-? getProp ynoteResponse "errorMessage";
  Ok {| NormalizedYnoteStatus.status := normalizedStatus;
        NormalizedYnoteStatus.amount :=
          if truthy amount then parseInt amount else VUndef;
        NormalizedYnoteStatus.transactionId :=
          vor (vor transactionId financialTransactionId) externalId;
        NormalizedYnoteStatus.reason := vor (vor reason msg) errorMessage |}.

(** ** The document store, the gateway and the world

    A Firestore document is a map from field name to value; a collection
    addressed by [doc(path)] is a map to documents from their paths below
    the collection, in slash-separated segments, and [notifications], only
    ever written with [add()] (a fresh id each time), is the list of the
    documents added, the latest first.  The store client refuses a path that
    is no document path and a write with an [undefined] field value
    ([ignoreUndefinedProperties] is never set); the store is taken to be
    available, and the ids and the values it is given to be within the
    limits the server sets (length and reserved names of an id; size, depth
    and nesting of a value).  The collections [mtn_refunds] and [users] belong to
    [createRefundRequest] and the middleware and are kept apart.  The
    process-wide token cache and the requests sent to the gateway are part of
    the world too, so that an operation that writes nothing leaves the whole
    world as it was. *)

Abbreviation Doc := (gmap string Value).

Record CachedToken : Type := {
  token : string;
  expiresAt : Z
}.

(** [YnotePaymentBody.API_MUT], payment.types.ts *)
Record YnotePaymentBody : Type := {
  notifUrl : string;
  subscriberMsisdn : string;
  description : Value;
  amount : string;
  order_id : string;
  customerkey : string;
  customersecret : string;
  PaiementMethod : string
}.

(** The three [axios.post] calls of the service. *)
Inductive HttpRequest : Type :=
| PostToken (url body authorization : string)
| PostPayment (url : string) (body : YnotePaymentBody) (authorization : string)
| PostStatus (url message_id customerkey customersecret authorization : string).

Record World : Type := mkWorld {
  campaigns : gmap string Doc;
  mtn_transactions : gmap string Doc;
  notifications : list Doc;
  cachedToken : option CachedToken;
  sent : list HttpRequest
}.

Inductive Collection : Type := Campaigns | MtnTransactions.

Definition collectionName (c : Collection) : string :=
  match c with
  | Campaigns => "campaigns"
  | MtnTransactions => "mtn_transactions"
  end.

Definition collection (c : Collection) (w : World) : gmap string Doc :=
  match c with
  | Campaigns => campaigns w
  | MtnTransactions => mtn_transactions w
  end.

Definition setCollection (c : Collection) (m : gmap string Doc) (w : World) : World :=
  match c with
  | Campaigns =>
      mkWorld m (mtn_transactions w) (notifications w) (cachedToken w) (sent w)
  | MtnTransactions =>
      mkWorld (campaigns w) m (notifications w) (cachedToken w) (sent w)
  end.

(** What the surroundings of the service supply: its configuration
    ([config/env.ts]), the answers of the gateway, the fresh reference id, the
    clock, and the text of the errors the store client raises.  The answer of
    the token endpoint has the OAuth2 shape; the answers to the payment and
    status requests are arbitrary values.  One request reads the clock as one
    instant [now]. *)

Record TokenResponse : Type := {
  access_token : string;
  expires_in : option Z
}.

Inductive StoreFault : Type :=
| NoDocumentToUpdate (collection id : string)
| InvalidDocumentPath (id : Value)
| UndefinedFieldValue (name : string).

Record Env : Type := {
  (* YNOTE_CREDENTIALS *)
  clientId : string;
  clientSecret : string;
  customerKey : string;
  subscriptionKey : string;
  (* YNOTE_CONFIG *)
  tokenUrl : string;
  baseUrl : string;
  currency : string;
  (* CALLBACK_CONFIG.url *)
  callbackUrl : string;
  (* the gateway *)
  tokenEndpoint : HttpRequest -> Result TokenResponse;
  gateway : HttpRequest -> Result Value;
  (* Buffer.from(s).toString("base64"), uuidv4(), Date.now() *)
  base64 : string -> string;
  uuidv4 : string;
  now : Z;
  (* message of an error raised by the Firestore client *)
  storeFaultMessage : StoreFault -> string
}.

(** ** The monad of the service functions: state and exceptions

    A write that happened before a [throw] stays. *)

Definition M (A : Type) : Type := World -> Result A * World.

Definition ret {A} (a : A) : M A := fun w => (Ok a, w).

Definition throw {A} (e : Error) : M A := fun w => (Err e, w).

Definition bind {A B} (m : M A) (k : A -> M B) : M B :=
  fun w =>
    match m w with
    | (Ok a, w') => k a w'
    | (Err e, w') => (Err e, w')
    end.

Definition tryCatch {A} (m : M A) (handler : Error -> M A) : M A :=
  fun w =>
    match m w with
    | (Ok a, w') => (Ok a, w')
    | (Err e, w') => handler e w'
    end.

Definition liftR {A} (r : Result A) : M A := fun w => (r, w).

Definition when (b : bool) (m : M unit) : M unit := if b then m else ret tt.

Notation "x <- m ;; k" := (bind m (fun x => k))
  (at level 100, m at next level, right associativity, only parsing).
Notation "m ;; k" := (bind m (fun _ => k))
  (at level 100, right associativity, only parsing).

(** *** Store operations *)

(** The document a path given to [collection.doc(path)] names: the path is
    a non-empty string without [//], and with the collection in front it has
    an even number of segments; leading and trailing slashes do not count.
    An id without slash names itself. *)
Definition documentKey (documentPath : string) : option string :=
  if String.eqb documentPath "" || Js.includes documentPath "//" then None
  else
    let segments := Js.pathSegments documentPath in
    if Nat.odd (length segments) then Some (String.concat "/" segments) else None.

(** [doc(id)]: the id has to be a string that is a document path. *)
Definition docRef (env : Env) (id : Value) : M string :=
  match id with
  | VStr s =>
      match documentKey s with
      | Some key => ret key
      | None => throw (newError (storeFaultMessage env (InvalidDocumentPath id)))
      end
  | _ => throw (newError (storeFaultMessage env (InvalidDocumentPath id)))
  end.

(** [ref.get()]: [None] when [!doc.exists], else [doc.data()]. *)
Definition docGet (c : Collection) (id : string) : M (option Doc) :=
  fun w => (Ok (collection c w !! id), w).

(** The first field of an object literal whose value is [undefined]. *)
Fixpoint undefinedField (data : list (string * Value)) : option string :=
  match data with
  | [] => None
  | (name, v) :: rest => if defined v then undefinedField rest else Some name
  end.

(** [ref.set(data)] replaces the document; [data] is the object literal,
    its fields in order. *)
Definition docSet (env : Env) (c : Collection) (id : string)
    (data : list (string * Value)) : M unit :=
  fun w =>
    match undefinedField data with
    | Some name => (Err (newError (storeFaultMessage env (UndefinedFieldValue name))), w)
    | None => (Ok tt, setCollection c (<[id := list_to_map data]> (collection c w)) w)
    end.

(** [ref.update(fields)] overwrites the given fields of an existing document
    and fails when there is none. *)
Definition docUpdate (env : Env) (c : Collection) (id : string)
    (fields : list (string * Value)) : M unit :=
  fun w =>
    match undefinedField fields with
    | Some name => (Err (newError (storeFaultMessage env (UndefinedFieldValue name))), w)
    | None =>
        match collection c w !! id with
        | Some old =>
            (Ok tt,
             setCollection c (<[id := list_to_map fields ∪ old]> (collection c w)) w)
        | None =>
            (Err (newError
                    (storeFaultMessage env (NoDocumentToUpdate (collectionName c) id))),
             w)
        end
    end.

(** [db.collection("notifications").add(data)] *)
Definition notificationsAdd (env : Env) (data : list (string * Value)) : M unit :=
  fun w =>
    match undefinedField data with
    | Some name => (Err (newError (storeFaultMessage env (UndefinedFieldValue name))), w)
    | None =>
        (Ok tt,
         mkWorld (campaigns w) (mtn_transactions w) (list_to_map data :: notifications w)
           (cachedToken w) (sent w))
    end.

(** [admin.firestore.Timestamp.now()] *)
Definition timestampNow (env : Env) : Value := VTime (now env).

(** *** Gateway operations *)

Definition record (req : HttpRequest) : M unit :=
  fun w =>
    (Ok tt,
     mkWorld (campaigns w) (mtn_transactions w) (notifications w)
       (cachedToken w) (req :: sent w)).

Definition axiosPostToken (env : Env) (req : HttpRequest) : M TokenResponse :=
  record req ;; liftR (tokenEndpoint env req).

Definition axiosPost (env : Env) (req : HttpRequest) : M Value :=
  record req ;; liftR (gateway env req).

Definition getCachedToken : M (option CachedToken) :=
  fun w => (Ok (cachedToken w), w).

Definition setCachedToken (c : CachedToken) : M unit :=
  fun w =>
    (Ok tt,
     mkWorld (campaigns w) (mtn_transactions w) (notifications w) (Some c) (sent w)).

(** ** The payment service, [services/ynote.service.ts] *)

Definition nonEmpty (s : string) : bool := negb (String.eqb s "").

(** An optional string argument, as a value. *)
Definition optStr (o : option string) : Value :=
  match o with
  | Some s => VStr s
  | None => VUndef
  end.

(** [validateCredentials], l.65-82 *)
Definition validateCredentials (env : Env) : M unit :=
  if negb (nonEmpty (clientId env)) || negb (nonEmpty (clientSecret env)) then
    throw (newError "Credentials Y-Note (clientId/clientSecret) non configurées. Vérifiez votre fichier .env")
  else if negb (nonEmpty (customerKey env)) || negb (nonEmpty (subscriptionKey env)) then
    throw (newError "Credentials client Y-Note (customerKey/subscriptionKey) non configurées. Vérifiez votre fichier .env")
  else ret tt.

(** [getAccessToken], l.89-130.  [requestAccessToken] is the part after the
    cache test: the token request and the refresh of the cache. *)
Definition requestAccessToken (env : Env) : M string :=
  let credentials := base64 env (clientId env +:+ ":" +:+ clientSecret env) in
  tryCatch
    (data <- axiosPostToken env
       (PostToken (tokenUrl env) "grant_type=client_credentials"
          ("Basic " +:+ credentials)) ;;
     let expiresIn :=
       match expires_in data with
       | Some n => if n =? 0 then 3600 else n
       | None => 3600
       end in
     setCachedToken
       {| token := access_token data; expiresAt := now env + expiresIn * 1000 |} ;;
     ret (access_token data))
    (fun error =>
       throw (newError ("Erreur d'authentification Y-Note: " +:+
         match responseStatus error with
         | Some st => if st =? 0 then "Unknown" else Js.numberToString st
         | None => "Unknown"
         end))).

Definition getAccessToken (env : Env) : M string :=
  cached <- getCachedToken ;;
  match cached with
  | Some c =>
      if expiresAt c >? now env + 60000 then ret (token c)
      else requestAccessToken env
  | None => requestAccessToken env
  end.

Module InitiatePaymentRequest.
Record t : Type := mk {
  campaignId : string;
  amount : Z;
  phoneNumber : string;
  payerMessage : option string
}.
End InitiatePaymentRequest.

Module PaymentResponse.
Record t : Type := mk {
  success : bool;
  referenceId : Value;
  status : PaymentStatus;
  message : string
}.
End PaymentResponse.

Module PaymentStatusResponse.
Record t : Type := mk {
  success : bool;
  status : PaymentStatus;
  amount : Value;
  currency : string;
  financialTransactionId : Value;
  reason : Value
}.
End PaymentStatusResponse.

(** [successCodes.includes(errorCode)], l.277 *)
Definition isSuccessCode (errorCode : Value) : bool :=
  strictEqNum errorCode 200 || strictEqNum errorCode 201
  || strictEqStr errorCode "200" || strictEqStr errorCode "201".

(** The gateway part of [initiatePayment], the body of its [try], l.235-320;
    [campaignRef] is the campaign document [doc(campaignId)] names. *)
Definition submitPayment (env : Env) (request : InitiatePaymentRequest.t)
    (userId : string) (campaignRef : string) (campaignData : Doc)
  : M PaymentResponse.t :=
  let campaignId := InitiatePaymentRequest.campaignId request in
  let amount := InitiatePaymentRequest.amount request in
  accessToken <- getAccessToken env ;;
  let referenceId := uuidv4 env in
  let formattedPhone := formatPhoneNumber (InitiatePaymentRequest.phoneNumber request) in
  let paymentBody :=
    {| notifUrl := callbackUrl env;
       subscriberMsisdn := formattedPhone;
       description :=
         vor (optStr (InitiatePaymentRequest.payerMessage request))
           (VStr ("Paiement campagne Ilios: " +:+
                  toStr (vor (field campaignData "name") (VStr campaignId))));
       amount := Js.numberToString amount;
       order_id := referenceId;
       customerkey := customerKey env;
       customersecret := subscriptionKey env;
       PaiementMethod := "MTN_CMR" |} in
  let paymentUrl := baseUrl env +:+ "/webpayment" in
  paymentResponse <- axiosPost env
    (PostPayment paymentUrl paymentBody ("Bearer " +:+ accessToken)) ;;
  errorCode1 <- liftR (getProp paymentResponse "errorCode") ;;
  errorCode2 <- liftR (getProp paymentResponse "ErrorCode") ;;
  let errorCode := vor errorCode1 errorCode2 in
  (if truthy errorCode && negb (isSuccessCode errorCode) then
     let errorMessage :=
       vor (vor (vor (getPropOpt paymentResponse "ErrorMessage")
                     (getPropOpt paymentResponse "body"))
                (getPropOpt paymentResponse "message"))
           (VStr "Erreur inconnue") in
     throw (newError ("Erreur Y-Note (" +:+ toStr errorCode +:+ "): " +:+
                      toStr errorMessage))
   else ret tt) ;;
  let ynoteMessageId :=
    vor (getPropOpt (getPropOpt paymentResponse "parameters") "MessageId")
        (VStr referenceId) in
  transactionRef <- docRef env (VStr referenceId) ;;
  docSet env MtnTransactions transactionRef
    [("referenceId", VStr referenceId);
     ("ynoteMessageId", ynoteMessageId);
     ("campaignId", VStr campaignId);
     ("userId", VStr userId);
     ("amount", VNum amount);
     ("currency", VStr (currency env));
     ("phoneNumber", VStr formattedPhone);
     ("status", vor (getPropOpt paymentResponse "status") (VStr "PENDING"));
     ("paymentMethod", VStr "mtn");
     ("ynoteResponse", paymentResponse);
     ("createdAt", timestampNow env);
     ("updatedAt", timestampNow env)] ;;
  docUpdate env Campaigns campaignRef
    [("mtnReferenceId", VStr referenceId);
     ("ynoteMessageId", ynoteMessageId);
     ("mtnPaymentStatus", VStr "PENDING");
     ("updatedAt", timestampNow env)] ;;
  ret {| PaymentResponse.success := true;
         PaymentResponse.referenceId := ynoteMessageId;
         PaymentResponse.status := PENDING;
         PaymentResponse.message :=
           "Paiement initié. Veuillez confirmer sur votre téléphone." |}.

(** [initiatePayment], l.189-325 *)
Definition initiatePayment (env : Env) (request : InitiatePaymentRequest.t)
    (userId : string) : M PaymentResponse.t :=
  validateCredentials env ;;
  let campaignId := InitiatePaymentRequest.campaignId request in
  let amount := InitiatePaymentRequest.amount request in
  let phoneNumber := InitiatePaymentRequest.phoneNumber request in
  if negb (nonEmpty campaignId) || (amount =? 0) || negb (nonEmpty phoneNumber) then
    throw (newError "Paramètres manquants: campaignId, amount, phoneNumber requis")
  else if amount <? 100 then
    throw (newError "Le montant minimum est de 100 FCFA")
  else
    let phoneValidation := validateMtnPhoneNumber phoneNumber in
    if negb (isValid phoneValidation) then
      throw (newError
               match error phoneValidation with
               | Some e => if nonEmpty e then e else "Numéro de téléphone invalide"
               | None => "Numéro de téléphone invalide"
               end)
    else
      campaignRef <- docRef env (VStr campaignId) ;;
      campaignDoc <- docGet Campaigns campaignRef ;;
      match campaignDoc with
      | None => throw (newError "Campagne introuvable")
      | Some campaignData =>
          if negb (strictEqStr (field campaignData "userId") userId) then
            throw (newError "Cette campagne ne vous appartient pas")
          else if negb (strictEqStr (field campaignData "status") "pending_payment") then
            throw (newError "Cette campagne n'est pas en attente de paiement")
          else
            tryCatch (submitPayment env request userId campaignRef campaignData)
                     (fun error => throw error)
      end.

(** [handleSuccessfulPayment], l.433-470 *)
Definition handleSuccessfulPayment (env : Env) (campaignId referenceId : string)
    (status : NormalizedYnoteStatus.t) (userId : option string) : M unit :=
  campaignRef <- docRef env (VStr campaignId) ;;
  campaignDoc <- docGet Campaigns campaignRef ;;
  match campaignDoc with
  | Some campaignData =>
      if strictEqStr (field campaignData "status") "pending_payment" then
        docUpdate env Campaigns campaignRef
          [("status", VStr "scheduled");
           ("paymentMethod", VStr "mtn");
           ("paymentAmount", vor (NormalizedYnoteStatus.amount status) (VNum 0));
           ("paidAt", timestampNow env);
           ("mtnPaymentStatus", VStr "SUCCESSFUL");
           ("mtnTransactionId",
            vor (NormalizedYnoteStatus.transactionId status) (VStr referenceId));
           ("updatedAt", timestampNow env);
           ("updatedBy", vor (optStr userId) (field campaignData "userId"))] ;;
        notificationsAdd env
          [("recipientId", field campaignData "userId");
           ("recipientType", VStr "user");
           ("campaignId", VStr campaignId);
           ("type", VStr "payment_success");
           ("message",
            VStr ("Paiement MTN Mobile Money de " +:+
                  toStr (vor (NormalizedYnoteStatus.amount status) (VNum 0)) +:+
                  " FCFA confirmé pour votre campagne."));
           ("createdAt", timestampNow env);
           ("isRead", VBool false)]
      else ret tt
  | None => ret tt
  end.

Definition isSuccessful (s : PaymentStatus) : bool :=
  match s with
  | SUCCESSFUL => true
  | _ => false
  end.

(** The part of [checkPaymentStatus] after the answer of the gateway is
    normalised, l.399-423: the transaction row, the campaign, the result. *)
Definition recordPaymentStatus (env : Env) (referenceId : string)
    (campaignId userId : option string) (paymentStatus : Value)
    (normalizedStatus : NormalizedYnoteStatus.t) : M PaymentStatusResponse.t :=
  transactionRef <- docRef env (VStr referenceId) ;;
  transactionDoc <- docGet MtnTransactions transactionRef ;;
  match transactionDoc with
  | Some _ =>
      docUpdate env MtnTransactions transactionRef
        [("status",
          VStr (paymentStatusString (NormalizedYnoteStatus.status normalizedStatus)));
         ("ynoteStatusResponse", paymentStatus);
         ("updatedAt", timestampNow env)]
  | None => ret tt
  end ;;
  match campaignId with
  | Some cid =>
      when (isSuccessful (NormalizedYnoteStatus.status normalizedStatus) && nonEmpty cid)
        (handleSuccessfulPayment env cid referenceId normalizedStatus userId)
  | None => ret tt
  end ;;
  ret {| PaymentStatusResponse.success := true;
         PaymentStatusResponse.status := NormalizedYnoteStatus.status normalizedStatus;
         PaymentStatusResponse.amount :=
           match NormalizedYnoteStatus.amount normalizedStatus with
           | VUndef | VNull => VUndef
           | a => VStr (toStr a)
           end;
         PaymentStatusResponse.currency := currency env;
         PaymentStatusResponse.financialTransactionId :=
           NormalizedYnoteStatus.transactionId normalizedStatus;
         PaymentStatusResponse.reason := NormalizedYnoteStatus.reason normalizedStatus |}.

(** The body of the [try] of [checkPaymentStatus], l.371-423 *)
Definition queryPaymentStatus (env : Env) (referenceId : string)
    (campaignId userId : option string) : M PaymentStatusResponse.t :=
  accessToken <- getAccessToken env ;;
  let statusUrl := baseUrl env +:+ "/webpaymentmtn/status" in
  paymentStatus <- axiosPost env
    (PostStatus statusUrl referenceId (customerKey env) (subscriptionKey env)
       ("Bearer " +:+ accessToken)) ;;
  normalizedStatus <- liftR (normalizeYnoteStatus paymentStatus) ;;
  recordPaymentStatus env referenceId campaignId userId paymentStatus normalizedStatus.

(** [checkPaymentStatus], l.354-428 *)
Definition checkPaymentStatus (env : Env) (referenceId : string)
    (campaignId userId : option string) : M PaymentStatusResponse.t :=
  if negb (nonEmpty referenceId) then throw (newError "referenceId requis")
  else
    validateCredentials env ;;
    tryCatch (queryPaymentStatus env referenceId campaignId userId)
      (fun error =>
         throw (newError
                  (if nonEmpty (message error) then message error
                   else "Erreur lors de la vérification du statut"))).

(** The part of [handleCallback] after the update of the transaction,
    l.509-557: the campaign of a SUCCESSFUL or FAILED callback. *)
Definition settleCampaign (env : Env) (referenceId status financialTransactionId : Value)
    (transactionData : Doc) : M unit :=
  if strictEqStr status "SUCCESSFUL" && truthy (field transactionData "campaignId") then
    campaignRef <- docRef env (field transactionData "campaignId") ;;
    campaignDoc <- docGet Campaigns campaignRef ;;
    match campaignDoc with
    | Some campaignData =>
        if strictEqStr (field campaignData "status") "pending_payment" then
          docUpdate env Campaigns campaignRef
            [("status", VStr "scheduled");
             ("paymentMethod", VStr "mtn");
             ("paymentAmount", field transactionData "amount");
             ("paidAt", timestampNow env);
             ("mtnPaymentStatus", VStr "SUCCESSFUL");
             ("mtnTransactionId", vor financialTransactionId referenceId);
             ("updatedAt", timestampNow env);
             ("updatedBy", field transactionData "userId")] ;;
          notificationsAdd env
            [("recipientId", field transactionData "userId");
             ("recipientType", VStr "user");
             ("campaignId", field transactionData "campaignId");
             ("type", VStr "payment_success");
             ("message",
              VStr ("Paiement MTN Mobile Money de " +:+
                    toStr (field transactionData "amount") +:+
                    " FCFA confirmé pour votre campagne."));
             ("createdAt", timestampNow env);
             ("isRead", VBool false)]
        else ret tt
    | None => ret tt
    end
  else if strictEqStr status "FAILED" && truthy (field transactionData "campaignId") then
    notificationsAdd env
      [("recipientId", field transactionData "userId");
       ("recipientType", VStr "user");
       ("campaignId", field transactionData "campaignId");
       ("type", VStr "payment_failed");
       ("message",
        VStr ("Le paiement MTN Mobile Money de " +:+
              toStr (field transactionData "amount") +:+
              " FCFA a échoué. Veuillez réessayer."));
       ("createdAt", timestampNow env);
       ("isRead", VBool false)] ;;
    campaignRef <- docRef env (field transactionData "campaignId") ;;
    docUpdate env Campaigns campaignRef
      [("mtnPaymentStatus", VStr "FAILED");
       ("updatedAt", timestampNow env)]
  else ret tt.

(** [handleCallback], l.475-558.  [callbackData] is the parsed request body,
    whatever its shape. *)
Definition handleCallback (env : Env) (callbackData : Value) : M unit :=
  referenceId1 <- liftR (getProp callbackData "referenceId") ;;
  order_id <- liftR (getProp callbackData "order_id") ;;
  let referenceId := vor referenceId1 order_id in
  status <- liftR (getProp callbackData "status") ;;
  financialTransactionId <- liftR (getProp callbackData "financialTransactionId") ;;
  if negb (truthy referenceId) then
    throw (newError "referenceId manquant dans le callback")
  else
    transactionRef <- docRef env referenceId ;;
    transactionDoc <- docGet MtnTransactions transactionRef ;;
    match transactionDoc with
    | None => throw (newError "Transaction introuvable")
    | Some transactionData =>
        docUpdate env MtnTransactions transactionRef
          [("status", status);
           ("financialTransactionId", financialTransactionId);
           ("mtnCallbackData", callbackData);
           ("updatedAt", timestampNow env)] ;;
        settleCampaign env referenceId status financialTransactionId transactionData
    end.

(** ** The webhook route, [routes/webhook.routes.ts] l.647-681 *)

Record Request : Type := {
  method : string;
  body : Value
}.

Record Response : Type := {
  statusCode : Z;
  json : Value
}.

Definition ynoteCallbackRoute (env : Env) (req : Request) (w : World)
  : Response * World :=
  if negb (String.eqb (method req) "POST") then
    ({| statusCode := 405;
        json := VObj (list_to_map [("error", VStr "Method Not Allowed")]) |}, w)
  else
    match handleCallback env (body req) w with
    | (Ok _, w') =>
        ({| statusCode := 200;
            json := VObj (list_to_map
                            [("success", VBool true);
                             ("message", VStr "Callback traité avec succès")]) |}, w')
    | (Err error, w') =>
        if Js.includes (message error) "introuvable" then
          ({| statusCode := 404;
              json := VObj (list_to_map [("error", VStr (message error))]) |}, w')
        else if Js.includes (message error) "manquant" then
          ({| statusCode := 400;
              json := VObj (list_to_map [("error", VStr (message error))]) |}, w')
        else
          ({| statusCode := 500;
              json := VObj (list_to_map
                              [("error", VStr "Erreur interne lors du traitement")]) |}, w')
    end.

(** ** Vocabulary of the specification

    The words of the specification about phone numbers, written as it reads
    them: the digit-only form, the leading trunk digit, the country code. *)

Module Spec.

(** "strips all non-digit characters" *)
Definition digitsOnly (phone : string) : list ascii :=
  filter (fun c => Is_true (Js.isDigit c)) (list_ascii_of_string phone).

(** "drops one leading local trunk digit '0' if present" *)
Definition dropTrunkDigit (d : string) : string :=
  match d with
  | String "0" r => r
  | _ => d
  end.

(** "stripping a leading country code '237'" *)
Definition dropCountryCode (d : string) : string :=
  match d with
  | String "2" (String "3" (String "7" r)) => r
  | _ => d
  end.

(** The number whose first two digits are the carrier prefix. *)
Definition nationalNumber (phone : string) : string :=
  dropTrunkDigit (dropCountryCode (Js.replaceNonDigits phone)).

(** The vendor status words of the mapping. *)
Definition successWords : list string := ["SUCCESSFUL"; "SUCCESS"; "COMPLETED"].
Definition failureWords : list string := ["FAILED"; "REJECTED"; "CANCELLED"; "EXPIRED"].

End Spec.

(** The document a reference id or a campaign id read from a request or
    from a document names, when it names one: [doc(id)] refuses the others. *)
Definition referenceKey (id : Value) : option string :=
  match id with
  | VStr s => documentKey s
  | _ => None
  end.

(** The lifecycle status of a campaign of the store, when there is one. *)
Definition campaignStatus (w : World) (cid : string) : option Value :=
  (fun c : Doc => field c "status") <$> campaigns w !! cid.

(** The three collections of [w'] are those of [w]. *)
Definition sameStore (w w' : World) : Prop :=
  campaigns w' = campaigns w /\
  mtn_transactions w' = mtn_transactions w /\
  notifications w' = notifications w.

(** The four credentials [validateCredentials] asks for are set. *)
Definition credentialsConfigured (env : Env) : bool :=
  nonEmpty (clientId env) && nonEmpty (clientSecret env)
  && nonEmpty (customerKey env) && nonEmpty (subscriptionKey env).

(** The status query [checkPaymentStatus] sends for a reference id. *)
Definition statusRequest (env : Env) (referenceId accessToken : string) : HttpRequest :=
  PostStatus (baseUrl env +:+ "/webpaymentmtn/status") referenceId
    (customerKey env) (subscriptionKey env) ("Bearer " +:+ accessToken).

(** The checks [initiatePayment] makes on a request for an existing
    campaign, in their order: the credentials, the arguments, the amount, the
    phone number, the owner, the status; the error of the first one that
    fails, [None] when all pass. *)
Definition firstFailedCheck (env : Env) (request : InitiatePaymentRequest.t)
    (userId : string) (campaignData : Doc) : option Error :=
  let phoneValidation :=
    validateMtnPhoneNumber (InitiatePaymentRequest.phoneNumber request) in
  if negb (nonEmpty (clientId env)) || negb (nonEmpty (clientSecret env)) then
    Some (newError "Credentials Y-Note (clientId/clientSecret) non configurées. Vérifiez votre fichier .env")
  else if negb (nonEmpty (customerKey env)) || negb (nonEmpty (subscriptionKey env)) then
    Some (newError "Credentials client Y-Note (customerKey/subscriptionKey) non configurées. Vérifiez votre fichier .env")
  else if negb (nonEmpty (InitiatePaymentRequest.campaignId request))
          || (InitiatePaymentRequest.amount request =? 0)
          || negb (nonEmpty (InitiatePaymentRequest.phoneNumber request)) then
    Some (newError "Paramètres manquants: campaignId, amount, phoneNumber requis")
  else if InitiatePaymentRequest.amount request <? 100 then
    Some (newError "Le montant minimum est de 100 FCFA")
  else if negb (isValid phoneValidation) then
    Some (newError
            match error phoneValidation with
            | Some e => if nonEmpty e then e else "Numéro de téléphone invalide"
            | None => "Numéro de téléphone invalide"
            end)
  else if negb (strictEqStr (field campaignData "userId") userId) then
    Some (newError "Cette campagne ne vous appartient pas")
  else if negb (strictEqStr (field campaignData "status") "pending_payment") then
    Some (newError "Cette campagne n'est pas en attente de paiement")
  else None.

(** A campaign that took or may take the payment edge of the lifecycle. *)
Definition pendingOrScheduled (st : option Value) : Prop :=
  st = Some (VStr "pending_payment") \/ st = Some (VStr "scheduled").

(** ** Properties of the world carried through an operation

    [preserves P m]: running [m] in a world where [P] holds ends in a world
    where [P] holds, whether [m] returns or throws. *)

Definition preserves {A} (P : World -> Prop) (m : M A) : Prop :=
  forall w, P w -> P (snd (m w)).

(** The campaign [cid] is as it is in [w0]. *)
Definition untouched (w0 : World) (cid : string) (w : World) : Prop :=
  campaigns w !! cid = campaigns w0 !! cid.

(** Every campaign of [w] that awaits payment or is scheduled did so, or
    was so, in [w0]. *)
Definition fromPayable (w0 w : World) : Prop :=
  forall id, pendingOrScheduled (campaignStatus w id) ->
             pendingOrScheduled (campaignStatus w0 id).

(** The transaction [rid] is [row]. *)
Definition rowIs (rid : string) (row : Doc) (w : World) : Prop :=
  mtn_transactions w !! rid = Some row.

(** ** Sample configuration and stores

    A configured service, a gateway that answers every status query with the
    vendor word SUCCESS, and small stores around one campaign and one
    transaction; the examples below run the service on them. *)

Module Sample.

Definition storeFaultText (f : StoreFault) : string :=
  match f with
  | NoDocumentToUpdate c id =>
      "5 NOT_FOUND: No document to update: " +:+ c +:+ "/" +:+ id
  | InvalidDocumentPath _ =>
      "Value for argument documentPath is not a valid resource path."
  | UndefinedFieldValue name =>
      "Cannot use undefined as a Firestore value (found in field " +:+ name +:+ ")."
  end.

Definition statusAnswer : Value :=
  VObj (list_to_map [("status", VStr "SUCCESS"); ("amount", VStr "5000")]).

Definition env : Env :=
  {| clientId := "client-id";
     clientSecret := "client-secret";
     customerKey := "customer-key";
     subscriptionKey := "subscription-key";
     tokenUrl := "https://omapi-token.ynote.africa/oauth2/token";
     baseUrl := "https://omapi.ynote.africa/prod";
     currency := "XAF";
     callbackUrl := "http://localhost:3001/api/webhooks/ynote-callback";
     tokenEndpoint := fun _ => Ok {| access_token := "token-1"; expires_in := Some 3600 |};
     gateway := fun req =>
       match req with
       | PostStatus _ _ _ _ _ => Ok statusAnswer
       | _ => Ok (VObj ∅)
       end;
     base64 := fun s => s;
     uuidv4 := "ref-2";
     now := 1700000000000;
     storeFaultMessage := storeFaultText |}.

Definition campaign (status : string) : Doc :=
  list_to_map
    [("name", VStr "Campagne A"); ("userId", VStr "user-1"); ("status", VStr status)].

Definition transaction : Doc :=
  list_to_map
    [("referenceId", VStr "ref-1"); ("campaignId", VStr "camp-1");
     ("userId", VStr "user-1"); ("amount", VNum 5000); ("status", VStr "PENDING")].

(** One campaign [camp-1] in the given status, and its transaction [ref-1]. *)
Definition world (status : string) : World :=
  {| campaigns := {[ "camp-1" := campaign status ]};
     mtn_transactions := {[ "ref-1" := transaction ]};
     notifications := [];
     cachedToken := None;
     sent := [] |}.

(** The campaign without any transaction. *)
Definition worldNoTransaction (status : string) : World :=
  {| campaigns := {[ "camp-1" := campaign status ]};
     mtn_transactions := ∅;
     notifications := [];
     cachedToken := None;
     sent := [] |}.

(** The transaction [ref-1] whose campaign is gone. *)
Definition worldNoCampaign : World :=
  {| campaigns := ∅;
     mtn_transactions := {[ "ref-1" := transaction ]};
     notifications := [];
     cachedToken := None;
     sent := [] |}.

Definition callbackFields (status : string) : Obj :=
  list_to_map
    [("referenceId", VStr "ref-1"); ("status", VStr status);
     ("financialTransactionId", VStr "fin-1")].

Definition callback (status : string) : Value := VObj (callbackFields status).

Definition paymentRequest : InitiatePaymentRequest.t :=
  {| InitiatePaymentRequest.campaignId := "camp-1";
     InitiatePaymentRequest.amount := 5000;
     InitiatePaymentRequest.phoneNumber := "677123456";
     InitiatePaymentRequest.payerMessage := None |}.

End Sample.

(** ** Vocabulary of the further properties *)

(** The token request [getAccessToken] sends. *)
Definition tokenRequest (env : Env) : HttpRequest :=
  PostToken (tokenUrl env) "grant_type=client_credentials"
    ("Basic " +:+ base64 env (clientId env +:+ ":" +:+ clientSecret env)).

(** The lifetime in seconds [getAccessToken] gives a token:
    [data.expires_in || 3600]. *)
Definition tokenLifetime (data : TokenResponse) : Z :=
  match expires_in data with
  | Some secs => if secs =? 0 then 3600 else secs
  | None => 3600
  end.

(** The cached token is good for more than a minute at the clock of [env]. *)
Definition cacheFresh (env : Env) (w : World) : bool :=
  match cachedToken w with
  | Some c => expiresAt c >? now env + 60000
  | None => false
  end.

(** The world with one more request sent. *)
Definition withSent (req : HttpRequest) (w : World) : World :=
  mkWorld (campaigns w) (mtn_transactions w) (notifications w) (cachedToken w)
    (req :: sent w).

(** The world with the token cache replaced. *)
Definition withCache (c : CachedToken) (w : World) : World :=
  mkWorld (campaigns w) (mtn_transactions w) (notifications w) (Some c) (sent w).

(** The payment request [initiatePayment] sends for a request on a campaign,
    l.247-269. *)
Definition paymentRequestOf (env : Env) (request : InitiatePaymentRequest.t)
    (campaignData : Doc) (accessToken : string) : HttpRequest :=
  PostPayment (baseUrl env +:+ "/webpayment")
    {| notifUrl := callbackUrl env;
       subscriberMsisdn := formatPhoneNumber (InitiatePaymentRequest.phoneNumber request);
       description :=
         vor (optStr (InitiatePaymentRequest.payerMessage request))
           (VStr ("Paiement campagne Ilios: " +:+
                  toStr (vor (field campaignData "name")
                             (VStr (InitiatePaymentRequest.campaignId request)))));
       amount := Js.numberToString (InitiatePaymentRequest.amount request);
       order_id := uuidv4 env;
       customerkey := customerKey env;
       customersecret := subscriptionKey env;
       PaiementMethod := "MTN_CMR" |}
    ("Bearer " +:+ accessToken).

(** [paymentResponse.errorCode || paymentResponse.ErrorCode] of an answer
    that is an object. *)
Definition vendorErrorCode (fields : Obj) : Value :=
  vor (field fields "errorCode") (field fields "ErrorCode").

(** The four codes the vendor uses for success under the name of an error
    code. *)
Definition successCodes : list Value := [VNum 200; VNum 201; VStr "200"; VStr "201"].

(** The id the caller gets back: the [MessageId] of the answer, else the
    fresh reference id. *)
Definition ynoteMessageIdOf (env : Env) (fields : Obj) : Value :=
  vor (getPropOpt (field fields "parameters") "MessageId") (VStr (uuidv4 env)).

(** The requirements [initiatePayment] puts on its arguments before it reads
    the store. *)
Definition requestAcceptable (request : InitiatePaymentRequest.t) : Prop :=
  nonEmpty (InitiatePaymentRequest.campaignId request) = true /\
  100 <= InitiatePaymentRequest.amount request /\
  isValid (validateMtnPhoneNumber (InitiatePaymentRequest.phoneNumber request)) = true.

(** The transaction document [initiatePayment] stores, l.290-303. *)
Definition transactionRowOf (env : Env) (request : InitiatePaymentRequest.t)
    (userId : string) (fields : Obj) : list (string * Value) :=
  [("referenceId", VStr (uuidv4 env));
   ("ynoteMessageId", ynoteMessageIdOf env fields);
   ("campaignId", VStr (InitiatePaymentRequest.campaignId request));
   ("userId", VStr userId);
   ("amount", VNum (InitiatePaymentRequest.amount request));
   ("currency", VStr (currency env));
   ("phoneNumber",
    VStr (formatPhoneNumber (InitiatePaymentRequest.phoneNumber request)));
   ("status", vor (field fields "status") (VStr "PENDING"));
   ("paymentMethod", VStr "mtn");
   ("ynoteResponse", VObj fields);
   ("createdAt", timestampNow env);
   ("updatedAt", timestampNow env)].

(** The fields [initiatePayment] sets on the campaign, l.306-311. *)
Definition campaignLinkOf (env : Env) (fields : Obj) : list (string * Value) :=
  [("mtnReferenceId", VStr (uuidv4 env));
   ("ynoteMessageId", ynoteMessageIdOf env fields);
   ("mtnPaymentStatus", VStr "PENDING");
   ("updatedAt", timestampNow env)].

(** The message of the error [initiatePayment] throws for a vendor error
    code, l.280-281. *)
Definition vendorErrorText (fields : Obj) : string :=
  "Erreur Y-Note (" +:+ toStr (vendorErrorCode fields) +:+ "): " +:+
  toStr (vor (vor (vor (field fields "ErrorMessage") (field fields "body"))
                  (field fields "message"))
             (VStr "Erreur inconnue")).

(** The answer [initiatePayment] gives its caller, l.315-320. *)
Definition paymentStarted (env : Env) (fields : Obj) : PaymentResponse.t :=
  {| PaymentResponse.success := true;
     PaymentResponse.referenceId := ynoteMessageIdOf env fields;
     PaymentResponse.status := PENDING;
     PaymentResponse.message :=
       "Paiement initié. Veuillez confirmer sur votre téléphone." |}.

(** The campaigns and the transactions of [w'] have the ids of those of
    [w], and the notifications of [w] are still there, below the new ones. *)
Definition sameDocuments (w w' : World) : Prop :=
  dom (campaigns w') = dom (campaigns w) /\
  dom (mtn_transactions w') = dom (mtn_transactions w) /\
  exists added, notifications w' = (added ++ notifications w)%list.

(** ** Refund requests, [createRefundRequest], ynote.service.ts l.563-610

    The function reads [users] and adds to [mtn_refunds], the two collections
    no other function of the service touches: they are its own store. *)

Record RefundStore : Type := {
  users : gmap string Doc;
  mtn_refunds : list Doc
}.

Module RefundResponse.
Record t : Type := mk {
  success : bool;
  refundId : string;
  message : string
}.
End RefundResponse.

Definition createRefundRequest (env : Env) (referenceId : string) (amount : Z)
    (phoneNumber reason requestedBy : string) (s : RefundStore)
  : Result RefundResponse.t * RefundStore :=
  if negb (nonEmpty referenceId) || (amount =? 0) || negb (nonEmpty phoneNumber) then
    (Err (newError "Paramètres manquants pour le remboursement"), s)
  else
    match documentKey requestedBy with
    | None =>
        (Err (newError (storeFaultMessage env (InvalidDocumentPath (VStr requestedBy)))), s)
    | Some userRef =>
        let userRole :=
          match users s !! userRef with
          | Some userData => field userData "role"
          | None => VUndef
          end in
        if negb (strictEqStr userRole "admin") && negb (strictEqStr userRole "both") then
          (Err (newError "Seuls les administrateurs peuvent effectuer des remboursements"), s)
        else
          let refundId := uuidv4 env in
          (* every value of the record added is a string, a number or a
             timestamp: the store takes it *)
          (Ok {| RefundResponse.success := true;
                 RefundResponse.refundId := refundId;
                 RefundResponse.message :=
                   "Demande de remboursement enregistrée. Traitement manuel requis." |},
           {| users := users s;
              mtn_refunds :=
                list_to_map
                  [("refundId", VStr refundId);
                   ("originalReferenceId", VStr referenceId);
                   ("amount", VNum amount);
                   ("phoneNumber", VStr (formatPhoneNumber phoneNumber));
                   ("reason", VStr reason);
                   ("status", VStr "PENDING_MANUAL");
                   ("requestedBy", VStr requestedBy);
                   ("createdAt", timestampNow env)] :: mtn_refunds s |})
    end.

(** ** The payment route [POST /api/payments/initiate], payment.routes.ts
    l.783-874, after [authenticateToken] has put the caller's [uid] on the
    request *)

Definition errorJson (msg code : string) : Value :=
  VObj (list_to_map [("success", VBool false); ("error", VStr msg); ("code", VStr code)]).

Definition paymentResponseJson (r : PaymentResponse.t) : Value :=
  VObj (list_to_map
          [("success", VBool (PaymentResponse.success r));
           ("referenceId", PaymentResponse.referenceId r);
           ("status", VStr (paymentStatusString (PaymentResponse.status r)));
           ("message", VStr (PaymentResponse.message r))]).

Definition initiateRoute (env : Env) (uid : string) (body : InitiatePaymentRequest.t)
    (w : World) : Response * World :=
  let campaignId := InitiatePaymentRequest.campaignId body in
  let amount := InitiatePaymentRequest.amount body in
  let phoneNumber := InitiatePaymentRequest.phoneNumber body in
  if negb (nonEmpty campaignId) then
    ({| statusCode := 400;
        json := errorJson "campaignId est requis" "INVALID_ARGUMENT" |}, w)
  else if (amount =? 0) || (amount <? 100) then
    ({| statusCode := 400;
        json := errorJson "Le montant minimum est de 100 FCFA" "INVALID_ARGUMENT" |}, w)
  else if negb (nonEmpty phoneNumber) then
    ({| statusCode := 400;
        json := errorJson "phoneNumber est requis" "INVALID_ARGUMENT" |}, w)
  else
    let phoneValidation := validateMtnPhoneNumber phoneNumber in
    if negb (isValid phoneValidation) then
      ({| statusCode := 400;
          json :=
            errorJson
              match error phoneValidation with
              | Some e => if nonEmpty e then e else "Numéro de téléphone MTN invalide"
              | None => "Numéro de téléphone MTN invalide"
              end
              "INVALID_PHONE" |}, w)
    else
      match
        initiatePayment env
          {| InitiatePaymentRequest.campaignId := campaignId;
             InitiatePaymentRequest.amount := amount;
             InitiatePaymentRequest.phoneNumber := phoneNumber;
             InitiatePaymentRequest.payerMessage :=
               InitiatePaymentRequest.payerMessage body |}
          uid w
      with
      | (Ok result, w') => ({| statusCode := 200; json := paymentResponseJson result |}, w')
      | (Err error, w') =>
          if Js.includes (message error) "introuvable" then
            ({| statusCode := 404; json := errorJson (message error) "NOT_FOUND" |}, w')
          else if Js.includes (message error) "appartient pas" then
            ({| statusCode := 403;
                json := errorJson (message error) "PERMISSION_DENIED" |}, w')
          else if Js.includes (message error) "attente de paiement" then
            ({| statusCode := 400; json := errorJson (message error) "INVALID_STATUS" |}, w')
          else
            ({| statusCode := 500;
                json :=
                  errorJson
                    (if nonEmpty (message error) then message error
                     else "Erreur lors de l'initiation du paiement")
                    "INTERNAL_ERROR" |}, w')
      end.

(** ** The test route [POST /api/webhooks/test], webhook.routes.ts l.702-738

    [production] is [process.env.NODE_ENV === "production"]. *)

Definition testCallbackData (env : Env) (referenceId status : Value) : Value :=
  VObj (list_to_map
          [("referenceId", referenceId);
           ("status", vor status (VStr "SUCCESSFUL"));
           ("financialTransactionId", VStr ("TEST_" +:+ Js.numberToString (now env)))]).

Definition testRoute (production : bool) (env : Env) (body : Value) (w : World)
  : Response * World :=
  if production then
    ({| statusCode := 404; json := VObj (list_to_map [("error", VStr "Not found")]) |}, w)
  else
    match body with
    | VUndef | VNull =>
        (* the destructuring of the body throws inside the [try] *)
        ({| statusCode := 500;
            json :=
              VObj (list_to_map
                      [("success", VBool false);
                       ("error",
                        VStr ("Cannot destructure property 'referenceId' of 'req.body' as it is "
                              +:+ toStr body +:+ "."))]) |}, w)
    | _ =>
        let referenceId := getPropOpt body "referenceId" in
        let status := getPropOpt body "status" in
        if negb (truthy referenceId) then
          ({| statusCode := 400;
              json := VObj (list_to_map [("error", VStr "referenceId requis pour le test")]) |},
           w)
        else
          match handleCallback env (testCallbackData env referenceId status) w with
          | (Ok _, w') =>
              ({| statusCode := 200;
                  json :=
                    VObj (list_to_map
                            [("success", VBool true);
                             ("message", VStr "Test callback traité");
                             ("data", body)]) |}, w')
          | (Err error, w') =>
              ({| statusCode := 500;
                  json :=
                    VObj (list_to_map
                            [("success", VBool false);
                             ("error", VStr (message error))]) |}, w')
          end
    end.

(** ** Authentication middleware, [middleware/auth.ts]

    [verifyIdToken] is the identity service: it decodes a token or fails with
    an error code.  A middleware either answers the request itself or calls
    [next] with the user it has put on the request. *)

Module JsSplit.

(** The part of [s] before the first occurrence of [sep] and the part after
    it; [None] when [sep] does not occur. *)
Fixpoint cut (sep s : string) : option (string * string) :=
  if Js.startsWith s sep then Some ("", Js.substringFrom (String.length sep) s)
  else
    match s with
    | EmptyString => None
    | String c r =>
        match cut sep r with
        | Some (before, after) => Some (String c before, after)
        | None => None
        end
    end.

(** [s.split(sep)[1]] for a non-empty separator: what lies between the first
    and the second occurrence of [sep], [undefined] without an occurrence. *)
Definition second (sep s : string) : Value :=
  match cut sep s with
  | None => VUndef
  | Some (_, rest) =>
      match cut sep rest with
      | Some (middle, _) => VStr middle
      | None => VStr rest
      end
  end.

End JsSplit.

Record DecodedToken : Type := {
  decodedUid : string;
  decodedEmail : option string
}.

Record AuthError : Type := {
  authCode : string;
  authMessage : string
}.

Record AuthUser : Type := {
  uid : string;
  email : option string;
  role : Value
}.

Inductive Middleware : Type :=
| Answered (res : Response)
| Next (user : option AuthUser).

(** [authenticateToken], auth.ts l.24-82 *)
Definition authenticateToken (verifyIdToken : Value -> AuthError + DecodedToken)
    (userDocs : gmap string Doc) (authorization : option string) : Middleware :=
  match authorization with
  | None =>
      Answered {| statusCode := 401;
                  json := errorJson "Token d'authentification manquant" "UNAUTHENTICATED" |}
  | Some authHeader =>
      if negb (nonEmpty authHeader) || negb (Js.startsWith authHeader "Bearer ") then
        Answered {| statusCode := 401;
                    json := errorJson "Token d'authentification manquant" "UNAUTHENTICATED" |}
      else
        let token := JsSplit.second "Bearer " authHeader in
        match verifyIdToken token with
        | inr decodedToken =>
            Next (Some {| uid := decodedUid decodedToken;
                          email := decodedEmail decodedToken;
                          role :=
                            (* a failing read is ignored: the uid may be no
                               document path *)
                            match documentKey (decodedUid decodedToken) with
                            | Some userRef =>
                                match userDocs !! userRef with
                                | Some userData => field userData "role"
                                | None => VUndef
                                end
                            | None => VUndef
                            end |})
        | inl error =>
            if String.eqb (authCode error) "auth/id-token-expired" then
              Answered {| statusCode := 401;
                          json := errorJson "Token expiré, veuillez vous reconnecter"
                                    "TOKEN_EXPIRED" |}
            else
              Answered {| statusCode := 401;
                          json := errorJson "Token invalide" "INVALID_TOKEN" |}
        end
  end.

(** [requireAdmin], auth.ts l.88-112 *)
Definition requireAdmin (user : option AuthUser) : Middleware :=
  match user with
  | None =>
      Answered {| statusCode := 401; json := errorJson "Non authentifié" "UNAUTHENTICATED" |}
  | Some u =>
      if negb (strictEqStr (role u) "admin") && negb (strictEqStr (role u) "both") then
        Answered {| statusCode := 403;
                    json := errorJson "Accès réservé aux administrateurs" "FORBIDDEN" |}
      else Next user
  end.

(** ** The refund route [POST /api/payments/refund], payment.routes.ts
    l.984-1029, behind [authenticateToken] and [requireAdmin] *)

Module RefundRequest.
Record t : Type := mk {
  referenceId : string;
  amount : Z;
  phoneNumber : string;
  reason : string
}.
End RefundRequest.

Definition refundResponseJson (r : RefundResponse.t) : Value :=
  VObj (list_to_map
          [("success", VBool (RefundResponse.success r));
           ("refundId", VStr (RefundResponse.refundId r));
           ("message", VStr (RefundResponse.message r))]).

Definition refundHandler (env : Env) (user : option AuthUser) (body : RefundRequest.t)
    (s : RefundStore) : Response * RefundStore :=
  let referenceId := RefundRequest.referenceId body in
  let amount := RefundRequest.amount body in
  let phoneNumber := RefundRequest.phoneNumber body in
  let reason := RefundRequest.reason body in
  if negb (nonEmpty referenceId) || (amount =? 0) || negb (nonEmpty phoneNumber)
     || negb (nonEmpty reason) then
    ({| statusCode := 400;
        json :=
          errorJson "Tous les champs sont requis: referenceId, amount, phoneNumber, reason"
            "INVALID_ARGUMENT" |}, s)
  else
    match user with
    | None =>
        (* req.user!.uid on a request without user *)
        ({| statusCode := 500;
            json :=
              errorJson "Cannot read properties of undefined (reading 'uid')"
                "INTERNAL_ERROR" |}, s)
    | Some u =>
        match createRefundRequest env referenceId amount phoneNumber reason (uid u) s with
        | (Ok result, s') => ({| statusCode := 200; json := refundResponseJson result |}, s')
        | (Err error, s') =>
            if Js.includes (message error) "administrateurs" then
              ({| statusCode := 403;
                  json := errorJson (message error) "PERMISSION_DENIED" |}, s')
            else
              ({| statusCode := 500;
                  json :=
                    errorJson
                      (if nonEmpty (message error) then message error
                       else "Erreur lors de la demande de remboursement")
                      "INTERNAL_ERROR" |}, s')
        end
    end.

Definition refundRoute (verifyIdToken : Value -> AuthError + DecodedToken) (env : Env)
    (authorization : option string) (body : RefundRequest.t) (s : RefundStore)
  : Response * RefundStore :=
  match authenticateToken verifyIdToken (users s) authorization with
  | Answered res => (res, s)
  | Next user =>
      match requireAdmin user with
      | Answered res => (res, s)
      | Next admin => refundHandler env admin body s
      end
  end.

(** The caller a refund is accepted from: the identity service accepts the
    bearer token, and the decoded uid names a [users] document that carries
    the role [admin] or [both]. *)
Definition isAdminCaller (verifyIdToken : Value -> AuthError + DecodedToken)
    (userDocs : gmap string Doc) (authorization : option string) (caller : string) : Prop :=
  exists authHeader decodedToken userRef userData,
    authorization = Some authHeader /\
    Js.startsWith authHeader "Bearer " = true /\
    verifyIdToken (JsSplit.second "Bearer " authHeader) = inr decodedToken /\
    decodedUid decodedToken = caller /\
    documentKey caller = Some userRef /\
    userDocs !! userRef = Some userData /\
    (field userData "role" = VStr "admin" \/ field userData "role" = VStr "both").

Definition refundComplete (body : RefundRequest.t) : Prop :=
  RefundRequest.referenceId body <> "" /\
  RefundRequest.amount body <> 0 /\
  RefundRequest.phoneNumber body <> "" /\
  RefundRequest.reason body <> "".

(** ** Further sample data: gateways that refuse, accept and fail *)

Module Cases.

(** [Sample.env] with another token endpoint, gateway and clock. *)
Definition envWith (endpoint : HttpRequest -> Result TokenResponse)
    (answers : HttpRequest -> Result Value) (clock : Z) : Env :=
  {| clientId := clientId Sample.env;
     clientSecret := clientSecret Sample.env;
     customerKey := customerKey Sample.env;
     subscriptionKey := subscriptionKey Sample.env;
     tokenUrl := tokenUrl Sample.env;
     baseUrl := baseUrl Sample.env;
     currency := currency Sample.env;
     callbackUrl := callbackUrl Sample.env;
     tokenEndpoint := endpoint;
     gateway := answers;
     base64 := base64 Sample.env;
     uuidv4 := uuidv4 Sample.env;
     now := clock;
     storeFaultMessage := storeFaultMessage Sample.env |}.

Definition tokenAnswer : TokenResponse :=
  {| access_token := "token-1"; expires_in := Some 3600 |}.

(** The same service 100 s later. *)
Definition later : Env :=
  envWith (tokenEndpoint Sample.env) (gateway Sample.env) (now Sample.env + 100000).

Definition unauthorized : Error :=
  {| message := "Request failed with status code 401"; responseStatus := Some 401 |}.

(** The token endpoint refuses the credentials. *)
Definition envNoToken : Env :=
  envWith (fun _ => Err unauthorized) (gateway Sample.env) (now Sample.env).

(** An answer with a vendor error code under HTTP 200. *)
Definition vendorError : Obj :=
  list_to_map [("errorCode", VNum 404); ("ErrorMessage", VStr "Abonné introuvable")].

Definition envRefused : Env :=
  envWith (tokenEndpoint Sample.env) (fun _ => Ok (VObj vendorError)) (now Sample.env).

(** An answer with the success code 200 and the vendor's message id. *)
Definition vendorAccepted : Obj :=
  list_to_map
    [("errorCode", VNum 200);
     ("parameters", VObj (list_to_map [("MessageId", VStr "msg-9")]));
     ("status", VStr "PENDING")].

Definition envAccepted : Env :=
  envWith (tokenEndpoint Sample.env) (fun _ => Ok (VObj vendorAccepted)) (now Sample.env).

(** A status answer that normalises to FAILED. *)
Definition statusRejected : Value :=
  VObj (list_to_map [("status", VStr "REJECTED"); ("reason", VStr "PAYER_LIMIT_REACHED")]).

Definition envRejected : Env :=
  envWith (tokenEndpoint Sample.env) (fun _ => Ok statusRejected) (now Sample.env).

(** Callback bodies: a status without reference, a reference without status. *)
Definition statusOnly : Obj := list_to_map [("status", VStr "SUCCESSFUL")].

Definition referenceOnly : Obj := list_to_map [("referenceId", VStr "ref-1")].

(** The identity service: one admin token, one expired token. *)
Definition verifyIdToken (token : Value) : AuthError + DecodedToken :=
  match token with
  | VStr "tok-admin" =>
      inr {| decodedUid := "admin-1"; decodedEmail := Some "admin@ilios.cm" |}
  | VStr "tok-expired" =>
      inl {| authCode := "auth/id-token-expired";
             authMessage := "Firebase ID token has expired." |}
  | _ =>
      inl {| authCode := "auth/argument-error";
             authMessage := "Decoding Firebase ID token failed." |}
  end.

Definition refundStore : RefundStore :=
  {| users :=
       list_to_map
         [("admin-1", list_to_map [("role", VStr "admin")]);
          ("user-1", list_to_map [("role", VStr "annonceur")])];
     mtn_refunds := [] |}.

End Cases.

(** * Theorems *)

(** ** Strings *)

Lemma startsWith_app (s p : string) :
  Js.startsWith s p = true <-> exists r, s = p +:+ r.
Proof.
  revert s; induction p as [|a p IH]; intros s.
  - split; [intros _; exists s; reflexivity | reflexivity].
  - destruct s as [|b s]; simpl.
    + split; [discriminate | intros [r Hr]; discriminate].
    + rewrite andb_true_iff, Ascii.eqb_eq, IH. split.
      * intros [-> [r ->]]. exists r. reflexivity.
      * intros [r Hr]. cbn in Hr. injection Hr as -> ->. eauto.
Qed.

Lemma replaceNonDigits_filter (s : string) :
  list_ascii_of_string (Js.replaceNonDigits s) = Spec.digitsOnly s.
Proof.
  unfold Spec.digitsOnly.
  induction s as [|c s IH]; simpl; [reflexivity|].
  rewrite filter_cons. destruct (Js.isDigit c) eqn:Hc; simpl.
  - destruct (decide (Is_true true)) as [_|n]; [|exfalso; apply n; exact I].
    now rewrite IH.
  - destruct (decide (Is_true false)) as [[]|_]. exact IH.
Qed.

Lemma replaceNonDigits_all_digits (s : string) :
  Forall (fun c => Js.isDigit c = true) (list_ascii_of_string (Js.replaceNonDigits s)).
Proof.
  induction s as [|c s IH]; simpl; [constructor|].
  destruct (Js.isDigit c) eqn:Hc; simpl; [constructor|]; assumption.
Qed.

Lemma dropTrunkDigit_substring (d : string) :
  (if Js.startsWith d "0" then Js.substringFrom 1 d else d) = Spec.dropTrunkDigit d.
Proof.
  destruct (Js.startsWith d "0") eqn:Hp.
  - apply startsWith_app in Hp as [r ->]. reflexivity.
  - destruct d as [|c d]; [reflexivity|].
    simpl in Hp.
    destruct (Ascii.eqb_spec "0" c) as [<-|Hc]; [discriminate Hp|].
    unfold Spec.dropTrunkDigit.
    destruct c as [[] [] [] [] [] [] [] []]; try reflexivity. congruence.
Qed.

Lemma dropCountryCode_substring (d : string) :
  (if Js.startsWith d "237" then Js.substringFrom 3 d else d) = Spec.dropCountryCode d.
Proof.
  destruct (Js.startsWith d "237") eqn:Hp.
  - apply startsWith_app in Hp as [r ->]. reflexivity.
  - unfold Spec.dropCountryCode.
    destruct d as [|a [|b [|c r]]]; try reflexivity;
      try (destruct a as [[] [] [] [] [] [] [] []]; reflexivity);
      try (destruct a as [[] [] [] [] [] [] [] []]; try reflexivity;
           destruct b as [[] [] [] [] [] [] [] []]; reflexivity).
    simpl in Hp.
    destruct (Ascii.eqb_spec "2" a) as [<-|Ha];
      [destruct (Ascii.eqb_spec "3" b) as [<-|Hb];
        [destruct (Ascii.eqb_spec "7" c) as [<-|Hc]|]|].
    + discriminate Hp.
    + destruct c as [[] [] [] [] [] [] [] []]; try reflexivity. congruence.
    + destruct b as [[] [] [] [] [] [] [] []]; try reflexivity. congruence.
    + destruct a as [[] [] [] [] [] [] [] []]; try reflexivity. congruence.
Qed.

(** ** Phone normaliser *)

Lemma formatPhoneNumber_eq (phone : string) :
  formatPhoneNumber phone =
  let t := Spec.dropTrunkDigit (Js.replaceNonDigits phone) in
  if Js.startsWith t "237" then t else "237" +:+ t.
Proof.
  unfold formatPhoneNumber. rewrite dropTrunkDigit_substring. cbv zeta.
  destruct (Js.startsWith _ "237"); reflexivity.
Qed.

Lemma formatPhoneNumber_starts_237 (phone : string) :
  exists r, formatPhoneNumber phone = "237" +:+ r.
Proof.
  rewrite formatPhoneNumber_eq. cbv zeta.
  destruct (Js.startsWith _ "237") eqn:Hp.
  - now apply startsWith_app in Hp.
  - eexists; reflexivity.
Qed.

(** C8: [formatPhoneNumber] keeps exactly the digits of its input, drops one
    leading '0' of them if there is one, and puts "237" in front unless what
    remains already starts with "237"; it sends "0677123456" and "677123456"
    to "237677123456". *)
Theorem formatPhoneNumber_spec :
  (forall phone : string,
      exists d t : string,
        list_ascii_of_string d = Spec.digitsOnly phone /\
        ((exists r, d = "0" +:+ r /\ t = r) \/ ((forall r, d <> "0" +:+ r) /\ t = d)) /\
        ((exists r, t = "237" +:+ r) -> formatPhoneNumber phone = t) /\
        ((forall r, t <> "237" +:+ r) -> formatPhoneNumber phone = "237" +:+ t)) /\
  formatPhoneNumber "0677123456" = "237677123456" /\
  formatPhoneNumber "677123456" = "237677123456".
Proof.
  split; [|split; reflexivity].
  intros phone.
  exists (Js.replaceNonDigits phone), (Spec.dropTrunkDigit (Js.replaceNonDigits phone)).
  split; [apply replaceNonDigits_filter|].
  split.
  - rewrite <- dropTrunkDigit_substring.
    destruct (Js.startsWith _ "0") eqn:Hz.
    + left. apply startsWith_app in Hz as [r Hr]. exists r. split; [exact Hr|].
      rewrite Hr. reflexivity.
    + right. split; [|reflexivity]. intros r Hr.
      assert (Js.startsWith (Js.replaceNonDigits phone) "0" = true)
        by (apply startsWith_app; eauto).
      congruence.
  - rewrite formatPhoneNumber_eq. cbv zeta.
    destruct (Js.startsWith _ "237") eqn:Hp.
    + split; [reflexivity|]. intros Hn. apply startsWith_app in Hp as [r Hr].
      exfalso. exact (Hn r Hr).
    + split; [|reflexivity]. intros Hex. apply startsWith_app in Hex. congruence.
Qed.

(** ** Phone validator *)

Lemma substringTo_app (p rest : string) :
  Js.substringTo (String.length p) (p +:+ rest) = p.
Proof.
  induction p as [|a p IH]; [destruct rest; reflexivity|].
  change (String a (Js.substringTo (String.length p) (p +:+ rest)) = String a p).
  now rewrite IH.
Qed.

Lemma substring_split (k : nat) (s : string) :
  s = Js.substringTo k s +:+ Js.substringFrom k s.
Proof.
  revert s; induction k as [|k IH]; intros s; [reflexivity|].
  destruct s as [|c s]; [reflexivity|].
  change (String c s = String c (Js.substringTo k s +:+ Js.substringFrom k s)).
  now rewrite <- IH.
Qed.

Lemma arrayIncludes_In (arr : list string) (x : string) :
  Js.arrayIncludes arr x = true <-> In x arr.
Proof.
  unfold Js.arrayIncludes. rewrite existsb_exists. split.
  - intros [y [Hy Heq]]. apply String.eqb_eq in Heq. now subst.
  - intros Hx. exists x. split; [assumption | apply String.eqb_refl].
Qed.

Lemma carrier_prefix_mtn (n : string) :
  Js.arrayIncludes mtnPrefixes (Js.substringTo 2 n) = true <->
  exists p rest, In p mtnPrefixes /\ n = p +:+ rest.
Proof.
  rewrite arrayIncludes_In. split.
  - intros Hin. exists (Js.substringTo 2 n), (Js.substringFrom 2 n).
    split; [assumption | apply substring_split].
  - intros [p [rest [Hp ->]]].
    assert (Hlen : String.length p = 2%nat)
      by (simpl in Hp; destruct Hp as [<-|[<-|[<-|[]]]]; reflexivity).
    rewrite <- Hlen, substringTo_app. assumption.
Qed.

Lemma validateMtnPhoneNumber_eq (phone : string) :
  validateMtnPhoneNumber phone =
  if (String.length (Js.replaceNonDigits phone) <? 9)%nat then
    {| isValid := false; error := Some "Numéro trop court" |}
  else if Js.arrayIncludes mtnPrefixes (Js.substringTo 2 (Spec.nationalNumber phone)) then
    {| isValid := true; error := None |}
  else
    {| isValid := false; error := Some "Ce n'est pas un numéro MTN Cameroun" |}.
Proof.
  unfold validateMtnPhoneNumber, Spec.nationalNumber.
  rewrite dropCountryCode_substring, dropTrunkDigit_substring.
  destruct (_ <? _)%nat; [reflexivity|].
  destruct (Js.arrayIncludes _ _); reflexivity.
Qed.

(** C9: [validateMtnPhoneNumber] answers valid exactly when the digit-only
    form has at least 9 digits and, once a leading "237" and then a leading
    "0" are removed, starts with 65, 67 or 68; an invalid answer carries one
    of two messages; "23767712345" is valid; a number whose carrier prefix is
    69 is invalid, with the not-MTN message when it passes the length test. *)
Theorem validateMtnPhoneNumber_spec (phone : string) :
  (isValid (validateMtnPhoneNumber phone) = true <->
     (9 <= String.length (Js.replaceNonDigits phone))%nat /\
     exists p rest, In p ["65"; "67"; "68"] /\ Spec.nationalNumber phone = p +:+ rest) /\
  (isValid (validateMtnPhoneNumber phone) = false ->
     error (validateMtnPhoneNumber phone) = Some "Numéro trop court" \/
     error (validateMtnPhoneNumber phone) = Some "Ce n'est pas un numéro MTN Cameroun") /\
  isValid (validateMtnPhoneNumber "23767712345") = true /\
  (forall rest, Spec.nationalNumber phone = "69" +:+ rest ->
     isValid (validateMtnPhoneNumber phone) = false /\
     ((9 <= String.length (Js.replaceNonDigits phone))%nat ->
      error (validateMtnPhoneNumber phone) = Some "Ce n'est pas un numéro MTN Cameroun")).
Proof.
  rewrite validateMtnPhoneNumber_eq.
  pose proof (carrier_prefix_mtn (Spec.nationalNumber phone)) as Hc.
  change mtnPrefixes with ["65"; "67"; "68"] in Hc.
  destruct (String.length (Js.replaceNonDigits phone) <? 9)%nat eqn:Hlen.
  - apply Nat.ltb_lt in Hlen. repeat split.
    + discriminate.
    + discriminate.
    + intros [Hge _]. lia.
    + intros _. now left.
    + lia.
  - apply Nat.ltb_ge in Hlen.
    destruct (Js.arrayIncludes _ _) eqn:Hinc; simpl.
    + repeat split; try assumption; try discriminate.
      * now apply Hc.
      * exfalso. rewrite H in Hinc. discriminate Hinc.
      * exfalso. rewrite H in Hinc. discriminate Hinc.
    + repeat split; try discriminate; try reflexivity.
      * intros [_ Hex]. apply Hc in Hex. discriminate.
      * intros _. now right.
Qed.

(** ** Status normaliser *)




Lemma mapVendorStatus_not_string (v : Value) :
  (forall s, v <> VStr s) -> mapVendorStatus v = PENDING.
Proof. intros Hv. destruct v; try reflexivity. now destruct (Hv s). Qed.


Lemma truthy_word (s : string) :
  In s (Spec.successWords ++ Spec.failureWords) -> truthy (VStr s) = true.
Proof. simpl. intros [<-|[<-|[<-|[<-|[<-|[<-|[<-|[]]]]]]]]; reflexivity. Qed.




(** A response that is no object: [null] and [undefined] make the property
    read throw, any other value has no status field and is PENDING. *)
Lemma normalizeYnoteStatus_null :
  normalizeYnoteStatus VNull =
  Err (newError "Cannot read properties of null (reading 'status')").
Proof. reflexivity. Qed.

Lemma normalizeYnoteStatus_primitive (v : Value) :
  v <> VNull -> v <> VUndef -> (forall fields, v <> VObj fields) ->
  exists n, normalizeYnoteStatus v = Ok n /\ NormalizedYnoteStatus.status n = PENDING.
Proof.
  intros Hn Hu Ho. destruct v; try congruence;
    try (eexists; split; reflexivity).
Qed.

Example normalizeYnoteStatus_transactionStatus :
  normalizeYnoteStatus
    (VObj (list_to_map [("transactionStatus", VStr "COMPLETED"); ("amount", VStr "5000")]))
  = Ok {| NormalizedYnoteStatus.status := SUCCESSFUL;
          NormalizedYnoteStatus.amount := VNum 5000;
          NormalizedYnoteStatus.transactionId := VUndef;
          NormalizedYnoteStatus.reason := VUndef |}.
Proof. vm_compute. reflexivity. Qed.

(** ** Running the monad

    [msimpl] runs the monad operations and the reads of the store, and leaves
    documents, field reads and map operations as they are. *)

Ltac msimpl :=
  cbn [bind ret throw liftR tryCatch when rbind getProp getPropOpt docRef docGet
       collection negb andb orb fst snd method body].

Tactic Notation "msimpl" "in" hyp(H) :=
  cbn [bind ret throw liftR tryCatch when rbind getProp getPropOpt docRef docGet
       collection negb andb orb fst snd method body] in H.

(** ** The callback on an unknown reference, and the webhook's answers *)

Lemma nonEmpty_truthy (s : string) : truthy (VStr s) = nonEmpty s.
Proof. reflexivity. Qed.

(** The reference id a callback names: [referenceId], else [order_id]. *)
Lemma handleCallback_missing_reference (env : Env) (fields : Obj) (w : World) :
  truthy (vor (field fields "referenceId") (field fields "order_id")) = false ->
  handleCallback env (VObj fields) w =
  (Err (newError "referenceId manquant dans le callback"), w).
Proof.
  intros Href. unfold handleCallback. msimpl. rewrite Href. reflexivity.
Qed.

(** A document path is not empty. *)
Lemma documentKey_nonEmpty (s key : string) :
  documentKey s = Some key -> nonEmpty s = true.
Proof.
  unfold documentKey, nonEmpty. destruct (String.eqb s ""); [discriminate|reflexivity].
Qed.

(** [doc(id)] by the document the id names. *)
Lemma docRef_referenceKey (env : Env) (id : Value) (w : World) :
  docRef env id w =
  match referenceKey id with
  | Some key => (Ok key, w)
  | None => (Err (newError (storeFaultMessage env (InvalidDocumentPath id))), w)
  end.
Proof.
  destruct id; try reflexivity. cbn [docRef referenceKey].
  destruct (documentKey s); reflexivity.
Qed.

Lemma docRef_key (env : Env) (s key : string) (w : World) :
  documentKey s = Some key -> docRef env (VStr s) w = (Ok key, w).
Proof. intros Hkey. cbn [docRef]. now rewrite Hkey. Qed.

(** *** Writes

    A write whose values are all defined goes to the store; one with an
    [undefined] value is refused before anything is written. *)

Lemma truthy_defined (v : Value) : truthy v = true -> defined v = true.
Proof. now destruct v. Qed.

Lemma defined_vor_r (a b : Value) : defined b = true -> defined (vor a b) = true.
Proof.
  intros Hb. unfold vor. destruct (truthy a) eqn:Ha; [now apply truthy_defined|exact Hb].
Qed.

Lemma undefinedField_none (data : list (string * Value)) :
  Forall (fun p => defined p.2 = true) data -> undefinedField data = None.
Proof.
  induction 1 as [|[name v] rest Hv _ IH]; [reflexivity|].
  cbn [undefinedField]. cbn [snd] in Hv. now rewrite Hv.
Qed.

Ltac solve_defined :=
  first [ reflexivity | assumption
        | apply defined_vor_r; solve_defined
        | apply truthy_defined; first [reflexivity | assumption] ].

Ltac all_defined :=
  repeat match goal with
         | |- Forall _ (_ :: _) => constructor; [cbn [snd]; solve_defined|]
         | |- Forall _ [] => constructor
         end.

Lemma docUpdate_present (env : Env) (c : Collection) (id : string)
    (fields : list (string * Value)) (old : Doc) (w : World) :
  Forall (fun p => defined p.2 = true) fields ->
  collection c w !! id = Some old ->
  docUpdate env c id fields w =
  (Ok tt, setCollection c (<[id := list_to_map fields ∪ old]> (collection c w)) w).
Proof.
  intros Hdef Hold. unfold docUpdate. now rewrite (undefinedField_none _ Hdef), Hold.
Qed.

Lemma docUpdate_absent (env : Env) (c : Collection) (id : string)
    (fields : list (string * Value)) (w : World) :
  Forall (fun p => defined p.2 = true) fields ->
  collection c w !! id = None ->
  docUpdate env c id fields w =
  (Err (newError (storeFaultMessage env (NoDocumentToUpdate (collectionName c) id))), w).
Proof.
  intros Hdef Hold. unfold docUpdate. now rewrite (undefinedField_none _ Hdef), Hold.
Qed.

Lemma docUpdate_undefined (env : Env) (c : Collection) (id name : string)
    (fields : list (string * Value)) (w : World) :
  undefinedField fields = Some name ->
  docUpdate env c id fields w =
  (Err (newError (storeFaultMessage env (UndefinedFieldValue name))), w).
Proof. intros Hu. unfold docUpdate. now rewrite Hu. Qed.

Lemma docSet_defined (env : Env) (c : Collection) (id : string)
    (data : list (string * Value)) (w : World) :
  Forall (fun p => defined p.2 = true) data ->
  docSet env c id data w =
  (Ok tt, setCollection c (<[id := list_to_map data]> (collection c w)) w).
Proof. intros Hdef. unfold docSet. now rewrite (undefinedField_none _ Hdef). Qed.

Lemma notificationsAdd_defined (env : Env) (data : list (string * Value)) (w : World) :
  Forall (fun p => defined p.2 = true) data ->
  notificationsAdd env data w =
  (Ok tt,
   mkWorld (campaigns w) (mtn_transactions w) (list_to_map data :: notifications w)
     (cachedToken w) (sent w)).
Proof. intros Hdef. unfold notificationsAdd. now rewrite (undefinedField_none _ Hdef). Qed.

Lemma notificationsAdd_undefined (env : Env) (name : string)
    (data : list (string * Value)) (w : World) :
  undefinedField data = Some name ->
  notificationsAdd env data w =
  (Err (newError (storeFaultMessage env (UndefinedFieldValue name))), w).
Proof. intros Hu. unfold notificationsAdd. now rewrite Hu. Qed.

(** What a write does to the world: nothing when it is refused. *)
Lemma docUpdate_outcome (env : Env) (c : Collection) (id : string)
    (fields : list (string * Value)) (w : World) :
  (exists e, docUpdate env c id fields w = (Err e, w)) \/
  (exists old,
      collection c w !! id = Some old /\
      docUpdate env c id fields w =
      (Ok tt, setCollection c (<[id := list_to_map fields ∪ old]> (collection c w)) w)).
Proof.
  unfold docUpdate. destruct (undefinedField fields); [left; eauto|].
  destruct (collection c w !! id) as [old|]; [right; eauto | left; eauto].
Qed.

Lemma notificationsAdd_outcome (env : Env) (data : list (string * Value)) (w : World) :
  (exists e, notificationsAdd env data w = (Err e, w)) \/
  notificationsAdd env data w =
  (Ok tt,
   mkWorld (campaigns w) (mtn_transactions w) (list_to_map data :: notifications w)
     (cachedToken w) (sent w)).
Proof.
  unfold notificationsAdd. destruct (undefinedField data); [left; eauto | right; reflexivity].
Qed.

(** C6: a callback whose reference id names a document and has no stored
    transaction fails with "Transaction introuvable", leaves the whole world
    (transactions, campaigns, notifications) as it was, and the webhook
    answers 404, whatever the status it carries; a reference id that names no
    document (no string, or a string such as [a/b]) is refused by the store
    client with its own error, and the world is as it was too. *)
Theorem handleCallback_unknown_reference
    (env : Env) (fields : Obj) (referenceId : Value) (w : World) :
  vor (field fields "referenceId") (field fields "order_id") = referenceId ->
  truthy referenceId = true ->
  (forall key, referenceKey referenceId = Some key -> mtn_transactions w !! key = None) ->
  match referenceKey referenceId with
  | Some _ =>
      handleCallback env (VObj fields) w = (Err (newError "Transaction introuvable"), w) /\
      ynoteCallbackRoute env {| method := "POST"; body := VObj fields |} w =
        ({| statusCode := 404;
            json := VObj (list_to_map [("error", VStr "Transaction introuvable")]) |}, w)
  | None =>
      handleCallback env (VObj fields) w =
        (Err (newError (storeFaultMessage env (InvalidDocumentPath referenceId))), w)
  end.
Proof.
  intros Href Htruthy Hnone.
  assert (Hrun : handleCallback env (VObj fields) w =
                 match referenceKey referenceId with
                 | Some _ => (Err (newError "Transaction introuvable"), w)
                 | None =>
                     (Err (newError (storeFaultMessage env
                                       (InvalidDocumentPath referenceId))), w)
                 end).
  { unfold handleCallback. msimpl. rewrite Href, Htruthy. cbn [negb].
    unfold bind at 1. rewrite docRef_referenceKey.
    destruct (referenceKey referenceId) as [key|] eqn:Hkey; [|reflexivity].
    msimpl. rewrite (Hnone key eq_refl). reflexivity. }
  destruct (referenceKey referenceId) as [key|]; [|exact Hrun].
  split; [exact Hrun|].
  unfold ynoteCallbackRoute. msimpl. rewrite Hrun. reflexivity.
Qed.

Lemma handleCallback_unknown_reference_witness :
  handleCallback Sample.env (Sample.callback "SUCCESSFUL")
    (Sample.worldNoTransaction "pending_payment")
  = (Err (newError "Transaction introuvable"),
     Sample.worldNoTransaction "pending_payment") /\
  ynoteCallbackRoute Sample.env
    {| method := "POST"; body := Sample.callback "SUCCESSFUL" |}
    (Sample.worldNoTransaction "pending_payment")
  = ({| statusCode := 404;
        json := VObj (list_to_map [("error", VStr "Transaction introuvable")]) |},
     Sample.worldNoTransaction "pending_payment").
Proof.
  apply (handleCallback_unknown_reference Sample.env
           (Sample.callbackFields "SUCCESSFUL") (VStr "ref-1")
           (Sample.worldNoTransaction "pending_payment")).
  - reflexivity.
  - reflexivity.
  - intros key _. reflexivity.
Defined.

(** A callback for the reference id [a/b]: no transaction is stored under
    it, and yet the failure is not "Transaction introuvable" and the webhook
    answers 500, not 404. *)
Lemma handleCallback_malformed_reference_counterexample :
  let body :=
    VObj (list_to_map
            [("referenceId", VStr "a/b"); ("status", VStr "SUCCESSFUL");
             ("financialTransactionId", VStr "fin-1")]) in
  let w := Sample.worldNoTransaction "pending_payment" in
  mtn_transactions w !! "a/b" = None /\
  handleCallback Sample.env body w <> (Err (newError "Transaction introuvable"), w) /\
  snd (handleCallback Sample.env body w) = w /\
  statusCode (fst (ynoteCallbackRoute Sample.env {| method := "POST"; body := body |} w))
  = 500.
Proof.
  cbv zeta. split; [reflexivity|]. split; [|split].
  - vm_compute. discriminate.
  - vm_compute. reflexivity.
  - vm_compute. reflexivity.
Qed.

(** The answers of the webhook, by outcome of [handleCallback]. *)
Lemma ynoteCallbackRoute_ok (env : Env) (req : Request) (w w' : World) :
  method req = "POST" ->
  handleCallback env (body req) w = (Ok tt, w') ->
  statusCode (fst (ynoteCallbackRoute env req w)) = 200.
Proof.
  intros Hm Hcb. unfold ynoteCallbackRoute. rewrite Hm, Hcb. reflexivity.
Qed.

Lemma ynoteCallbackRoute_not_found (env : Env) (req : Request) (w w' : World) (e : Error) :
  method req = "POST" ->
  handleCallback env (body req) w = (Err e, w') ->
  Js.includes (message e) "introuvable" = true ->
  statusCode (fst (ynoteCallbackRoute env req w)) = 404.
Proof.
  intros Hm Hcb Hinc. unfold ynoteCallbackRoute. rewrite Hm, Hcb. msimpl.
  rewrite Hinc. reflexivity.
Qed.

Lemma ynoteCallbackRoute_missing_field (env : Env) (req : Request) (w w' : World) (e : Error) :
  method req = "POST" ->
  handleCallback env (body req) w = (Err e, w') ->
  Js.includes (message e) "introuvable" = false ->
  Js.includes (message e) "manquant" = true ->
  statusCode (fst (ynoteCallbackRoute env req w)) = 400.
Proof.
  intros Hm Hcb Hinc Hman. unfold ynoteCallbackRoute. rewrite Hm, Hcb. msimpl.
  rewrite Hinc, Hman. reflexivity.
Qed.

(** C4: when [handleCallback] fails with an error whose message has neither
    "introuvable" nor "manquant" in it, the webhook answers 500, where the
    specification and the comment of the route promise 200. *)
Theorem ynoteCallbackRoute_other_failure
    (env : Env) (req : Request) (w w' : World) (e : Error) :
  method req = "POST" ->
  handleCallback env (body req) w = (Err e, w') ->
  Js.includes (message e) "introuvable" = false ->
  Js.includes (message e) "manquant" = false ->
  ynoteCallbackRoute env req w =
    ({| statusCode := 500;
        json := VObj (list_to_map [("error", VStr "Erreur interne lors du traitement")]) |},
     w').
Proof.
  intros Hm Hcb Hinc Hman. unfold ynoteCallbackRoute. rewrite Hm, Hcb. msimpl.
  rewrite Hinc, Hman. reflexivity.
Qed.

(** The callback FAILED for a transaction whose campaign is gone: the update
    of the campaign fails in the store, and the webhook answers 500. *)
Lemma ynoteCallbackRoute_other_failure_witness :
  statusCode
    (fst (ynoteCallbackRoute Sample.env
            {| method := "POST"; body := Sample.callback "FAILED" |}
            Sample.worldNoCampaign)) = 500.
Proof.
  erewrite (ynoteCallbackRoute_other_failure Sample.env
              {| method := "POST"; body := Sample.callback "FAILED" |}
              Sample.worldNoCampaign).
  - reflexivity.
  - reflexivity.
  - vm_compute. reflexivity.
  - vm_compute. reflexivity.
  - vm_compute. reflexivity.
Defined.

(** ** What an operation leaves alone *)

Section Preserves.
Variable P : World -> Prop.

Lemma preserves_ret {A} (a : A) : preserves P (ret a).
Proof. intros w Hw. exact Hw. Qed.

Lemma preserves_throw {A} (e : Error) : preserves P (@throw A e).
Proof. intros w Hw. exact Hw. Qed.

Lemma preserves_liftR {A} (r : Result A) : preserves P (liftR r).
Proof. intros w Hw. exact Hw. Qed.

Lemma preserves_bind {A B} (m : M A) (k : A -> M B) :
  preserves P m -> (forall a, preserves P (k a)) -> preserves P (bind m k).
Proof.
  intros Hm Hk w Hw. unfold bind. specialize (Hm w Hw).
  destruct (m w) as [[a|e] w']; simpl in *; [now apply Hk | assumption].
Qed.

Lemma preserves_tryCatch {A} (m : M A) (h : Error -> M A) :
  preserves P m -> (forall e, preserves P (h e)) -> preserves P (tryCatch m h).
Proof.
  intros Hm Hh w Hw. unfold tryCatch. specialize (Hm w Hw).
  destruct (m w) as [[a|e] w']; simpl in *; [assumption | now apply Hh].
Qed.

Lemma preserves_when (b : bool) (m : M unit) :
  preserves P m -> preserves P (when b m).
Proof. intros Hm. destruct b; [exact Hm | apply preserves_ret]. Qed.

Lemma preserves_docGet (c : Collection) (id : string) : preserves P (docGet c id).
Proof. intros w Hw. exact Hw. Qed.

Lemma preserves_getCachedToken : preserves P getCachedToken.
Proof. intros w Hw. exact Hw. Qed.

Lemma preserves_docRef (env : Env) (id : Value) : preserves P (docRef env id).
Proof.
  intros w Hw. rewrite docRef_referenceKey. destruct (referenceKey id); exact Hw.
Qed.

Lemma preserves_validateCredentials (env : Env) : preserves P (validateCredentials env).
Proof.
  unfold validateCredentials.
  repeat match goal with |- context [if ?b then _ else _] => destruct b end;
    intros w Hw; exact Hw.
Qed.
End Preserves.

(** The token cache and the log of requests are no part of the documents:
    a property of the three collections survives the gateway operations. *)
Section PreservesStore.
Variable P : World -> Prop.
Hypothesis P_store :
  forall w w',
    campaigns w' = campaigns w ->
    mtn_transactions w' = mtn_transactions w ->
    notifications w' = notifications w ->
    P w -> P w'.

Lemma preserves_record (req : HttpRequest) : preserves P (record req).
Proof. intros w Hw. now apply (P_store w). Qed.

Lemma preserves_setCachedToken (c : CachedToken) : preserves P (setCachedToken c).
Proof. intros w Hw. now apply (P_store w). Qed.

Lemma preserves_axiosPost (env : Env) (req : HttpRequest) :
  preserves P (axiosPost env req).
Proof.
  apply preserves_bind; [apply preserves_record | intros; apply preserves_liftR].
Qed.

Lemma preserves_axiosPostToken (env : Env) (req : HttpRequest) :
  preserves P (axiosPostToken env req).
Proof.
  apply preserves_bind; [apply preserves_record | intros; apply preserves_liftR].
Qed.

Lemma preserves_requestAccessToken (env : Env) : preserves P (requestAccessToken env).
Proof.
  unfold requestAccessToken. apply preserves_tryCatch.
  - apply preserves_bind; [apply preserves_axiosPostToken|]. intros data.
    apply preserves_bind; [apply preserves_setCachedToken|]. intros _.
    apply preserves_ret.
  - intros e. apply preserves_throw.
Qed.

Lemma preserves_getAccessToken (env : Env) : preserves P (getAccessToken env).
Proof.
  unfold getAccessToken. apply preserves_bind; [apply preserves_getCachedToken|].
  intros [c|]; [destruct (_ >? _); [apply preserves_ret|]|];
    apply preserves_requestAccessToken.
Qed.
End PreservesStore.

(** The guard of [handleSuccessfulPayment]: a campaign that is not in
    [pending_payment] is read and nothing is written. *)
Lemma handleSuccessfulPayment_guard (env : Env) (cid key rid : string)
    (st : NormalizedYnoteStatus.t) (uid : option string) (w : World) (c : Doc) :
  documentKey cid = Some key ->
  campaigns w !! key = Some c ->
  strictEqStr (field c "status") "pending_payment" = false ->
  handleSuccessfulPayment env cid rid st uid w = (Ok tt, w).
Proof.
  intros Hkey Hc Hst. unfold handleSuccessfulPayment. msimpl.
  rewrite Hkey. msimpl. rewrite Hc, Hst. reflexivity.
Qed.

Lemma handleSuccessfulPayment_absent (env : Env) (cid key rid : string)
    (st : NormalizedYnoteStatus.t) (uid : option string) (w : World) :
  documentKey cid = Some key ->
  campaigns w !! key = None ->
  handleSuccessfulPayment env cid rid st uid w = (Ok tt, w).
Proof.
  intros Hkey Hc. unfold handleSuccessfulPayment. msimpl.
  rewrite Hkey. msimpl. rewrite Hc. reflexivity.
Qed.

(** ** Fields of an updated document *)

Lemma field_update_new (fields old : Doc) (k : string) (v : Value) :
  fields !! k = Some v -> field (fields ∪ old) k = v.
Proof. intros Hk. unfold field. now rewrite (lookup_union_Some_l _ _ _ _ Hk). Qed.

Lemma field_update_old (fields old : Doc) (k : string) :
  fields !! k = None -> field (fields ∪ old) k = field old k.
Proof. intros Hk. unfold field. now rewrite lookup_union_r. Qed.

Lemma strictEqStr_true (v : Value) (lit : string) :
  strictEqStr v lit = true <-> v = VStr lit.
Proof.
  destruct v; simpl; try (split; [discriminate | congruence]).
  rewrite String.eqb_eq. split; congruence.
Qed.

Lemma strictEqStr_refl (s : string) : strictEqStr (VStr s) s = true.
Proof. apply String.eqb_refl. Qed.

Lemma campaignStatus_lookup (w : World) (cid : string) (c : Doc) :
  campaigns w !! cid = Some c -> campaignStatus w cid = Some (field c "status").
Proof. intros Hc. unfold campaignStatus. now rewrite Hc. Qed.

Lemma campaignStatus_eq (w w' : World) (cid : string) :
  campaigns w' !! cid = campaigns w !! cid -> campaignStatus w' cid = campaignStatus w cid.
Proof. intros Hc. unfold campaignStatus. now rewrite Hc. Qed.

(** ** The transition happens at most once *)

Section Scheduled.
Variable env : Env.
Variable w0 : World.
Variable cid : string.
Hypothesis scheduled : campaignStatus w0 cid = Some (VStr "scheduled").

Lemma untouched_store (w w' : World) :
  campaigns w' = campaigns w ->
  mtn_transactions w' = mtn_transactions w ->
  notifications w' = notifications w ->
  (untouched w0 cid) w -> (untouched w0 cid) w'.
Proof. unfold untouched. congruence. Qed.

Lemma untouched_not_pending (w : World) (c : Doc) :
  (untouched w0 cid) w -> campaigns w !! cid = Some c ->
  strictEqStr (field c "status") "pending_payment" = false.
Proof.
  intros Hw Hc. rewrite Hw in Hc. apply campaignStatus_lookup in Hc.
  rewrite scheduled in Hc. injection Hc as <-. reflexivity.
Qed.

Lemma untouched_updateTransaction (id : string) (fields : list (string * Value)) :
  preserves (untouched w0 cid) (docUpdate env MtnTransactions id fields).
Proof.
  intros w Hw. unfold docUpdate. msimpl.
  destruct (undefinedField fields); [exact Hw|].
  destruct (mtn_transactions w !! id); exact Hw.
Qed.

Lemma untouched_notificationsAdd (data : list (string * Value)) :
  preserves (untouched w0 cid) (notificationsAdd env data).
Proof.
  intros w Hw. unfold notificationsAdd. destruct (undefinedField data); exact Hw.
Qed.

(** A campaign that is updated after its status was read as
    [pending_payment] is another campaign than [cid]. *)
Lemma untouched_updatePending (id : string) (fields : list (string * Value)) (c : Doc)
    (w : World) :
  (untouched w0 cid) w -> campaigns w !! id = Some c ->
  strictEqStr (field c "status") "pending_payment" = true ->
  (untouched w0 cid) (snd (docUpdate env Campaigns id fields w)).
Proof.
  intros Hw Hc Hst. unfold docUpdate. msimpl.
  destruct (undefinedField fields); [exact Hw|]. rewrite Hc. simpl.
  unfold untouched. cbn [campaigns]. rewrite lookup_insert_ne; [exact Hw|].
  intros ->. rewrite (untouched_not_pending w c Hw Hc) in Hst. discriminate.
Qed.

Lemma untouched_transition {A} (id : string) (fields : list (string * Value)) (c : Doc)
    (k : unit -> M A) (w : World) :
  (untouched w0 cid) w -> campaigns w !! id = Some c ->
  strictEqStr (field c "status") "pending_payment" = true ->
  (forall u, preserves (untouched w0 cid) (k u)) ->
  (untouched w0 cid) (snd (bind (docUpdate env Campaigns id fields) k w)).
Proof.
  intros Hw Hc Hst Hk.
  pose proof (untouched_updatePending id fields c w Hw Hc Hst) as Hup.
  unfold bind.
  destruct (docUpdate env Campaigns id fields w) as [[u|e] w1]; simpl in Hup;
    [now apply Hk | exact Hup].
Qed.

Lemma untouched_handleSuccessfulPayment (id rid : string)
    (st : NormalizedYnoteStatus.t) (uid : option string) :
  preserves (untouched w0 cid) (handleSuccessfulPayment env id rid st uid).
Proof.
  intros w Hw. unfold handleSuccessfulPayment. msimpl.
  destruct (documentKey id) as [key|]; [|exact Hw]. msimpl.
  destruct (campaigns w !! key) as [c|] eqn:Hc; [|exact Hw].
  destruct (strictEqStr (field c "status") "pending_payment") eqn:Hst; [|exact Hw].
  apply (untouched_transition key _ c); try assumption.
  intros _. apply untouched_notificationsAdd.
Qed.

Lemma untouched_checkPaymentStatus (rid : string) (campaignId uid : option string) :
  preserves (untouched w0 cid) (checkPaymentStatus env rid campaignId uid).
Proof.
  unfold checkPaymentStatus.
  destruct (negb (nonEmpty rid)); [apply preserves_throw|].
  apply preserves_bind; [apply preserves_validateCredentials|]. intros _.
  apply preserves_tryCatch; [|intros e; apply preserves_throw].
  unfold queryPaymentStatus, recordPaymentStatus.
  apply preserves_bind; [apply preserves_getAccessToken, untouched_store|]. intros tok.
  apply preserves_bind; [apply preserves_axiosPost, untouched_store|]. intros resp.
  apply preserves_bind; [apply preserves_liftR|]. intros n.
  apply preserves_bind; [apply preserves_docRef|]. intros key.
  apply preserves_bind; [apply preserves_docGet|]. intros td.
  apply preserves_bind.
  { destruct td; [apply untouched_updateTransaction | apply preserves_ret]. }
  intros _. apply preserves_bind; [|intros _; apply preserves_ret].
  destruct campaignId as [id|]; [|apply preserves_ret].
  apply preserves_when, untouched_handleSuccessfulPayment.
Qed.

Lemma mapVendorStatus_successful_not_failed (v : Value) :
  mapVendorStatus v = SUCCESSFUL -> strictEqStr v "FAILED" = false.
Proof.
  intros Hv. destruct (strictEqStr v "FAILED") eqn:Hf; [|reflexivity].
  apply strictEqStr_true in Hf. subst v. discriminate Hv.
Qed.

Lemma untouched_handleCallback (fields : Obj) :
  mapVendorStatus (field fields "status") = SUCCESSFUL ->
  preserves (untouched w0 cid) (handleCallback env (VObj fields)).
Proof.
  intros Hok w Hw. unfold handleCallback. msimpl.
  destruct (truthy (vor (field fields "referenceId") (field fields "order_id")));
    msimpl; [|exact Hw].
  revert w Hw. apply preserves_bind; [apply preserves_docRef|]. intros tid.
  apply preserves_bind; [apply preserves_docGet|].
  intros [t|]; [|apply preserves_throw].
  apply preserves_bind; [apply untouched_updateTransaction|]. intros _.
  unfold settleCampaign.
  rewrite (mapVendorStatus_successful_not_failed _ Hok).
  destruct (strictEqStr (field fields "status") "SUCCESSFUL" && _);
    [|apply preserves_ret].
  apply preserves_bind; [apply preserves_docRef|]. intros id w Hw.
  unfold bind at 1. msimpl.
  destruct (campaigns w !! id) as [c|] eqn:Hc; [|exact Hw].
  destruct (strictEqStr (field c "status") "pending_payment") eqn:Hst; [|exact Hw].
  apply (untouched_transition id _ c); try assumption.
  intros _. apply untouched_notificationsAdd.
Qed.
End Scheduled.

(** *** Every write of [scheduled] is guarded

    Whatever the poll or the callback is given, a campaign that is
    [pending_payment] or [scheduled] afterwards was [pending_payment] or
    [scheduled] before: no other state is taken to [scheduled]. *)

Section Guard.
Variable env : Env.
Variable w0 : World.

Lemma fromPayable_store (w w' : World) :
  campaigns w' = campaigns w ->
  mtn_transactions w' = mtn_transactions w ->
  notifications w' = notifications w ->
  (fromPayable w0) w -> (fromPayable w0) w'.
Proof.
  intros Hc _ _ Hw id. unfold campaignStatus. rewrite Hc. apply Hw.
Qed.

Lemma fromPayable_updateTransaction (id : string) (fields : list (string * Value)) :
  preserves (fromPayable w0) (docUpdate env MtnTransactions id fields).
Proof.
  intros w Hw. unfold docUpdate. msimpl.
  destruct (undefinedField fields); [exact Hw|].
  destruct (mtn_transactions w !! id); exact Hw.
Qed.

Lemma fromPayable_notificationsAdd (data : list (string * Value)) :
  preserves (fromPayable w0) (notificationsAdd env data).
Proof.
  intros w Hw. unfold notificationsAdd. destruct (undefinedField data); exact Hw.
Qed.

Lemma fromPayable_updatePending (id : string) (fields : list (string * Value))
    (w : World) (c : Doc) :
  campaigns w !! id = Some c ->
  strictEqStr (field c "status") "pending_payment" = true ->
  (fromPayable w0) w -> (fromPayable w0) (snd (docUpdate env Campaigns id fields w)).
Proof.
  intros Hc Hst Hw. unfold docUpdate. msimpl.
  destruct (undefinedField fields); [exact Hw|]. rewrite Hc. simpl.
  intros id'. unfold campaignStatus at 1. cbn [campaigns].
  destruct (decide (id = id')) as [<-|Hne].
  - intros _. apply Hw. left.
    rewrite (campaignStatus_lookup w id c Hc).
    apply strictEqStr_true in Hst. now rewrite Hst.
  - rewrite lookup_insert_ne by assumption. apply Hw.
Qed.

Lemma fromPayable_updateOther (id : string) (fields : list (string * Value)) :
  (list_to_map fields : Doc) !! "status" = None ->
  preserves (fromPayable w0) (docUpdate env Campaigns id fields).
Proof.
  intros Hf w Hw. unfold docUpdate. msimpl.
  destruct (undefinedField fields); [exact Hw|].
  destruct (campaigns w !! id) as [c|] eqn:Hc; [|exact Hw]. simpl.
  intros id'. unfold campaignStatus at 1. cbn [campaigns].
  destruct (decide (id = id')) as [<-|Hne].
  - rewrite lookup_insert_eq. simpl. rewrite (field_update_old _ _ _ Hf).
    rewrite <- (campaignStatus_lookup w id c Hc). apply Hw.
  - rewrite lookup_insert_ne by assumption. apply Hw.
Qed.

Lemma fromPayable_transition {A} (id : string) (fields : list (string * Value))
    (c : Doc) (k : unit -> M A) (w : World) :
  (fromPayable w0) w -> campaigns w !! id = Some c ->
  strictEqStr (field c "status") "pending_payment" = true ->
  (forall u, preserves (fromPayable w0) (k u)) ->
  (fromPayable w0) (snd (bind (docUpdate env Campaigns id fields) k w)).
Proof.
  intros Hw Hc Hst Hk.
  pose proof (fromPayable_updatePending id fields w c Hc Hst Hw) as Hup.
  unfold bind.
  destruct (docUpdate env Campaigns id fields w) as [[u|e] w1]; simpl in Hup;
    [now apply Hk | exact Hup].
Qed.

Lemma fromPayable_handleSuccessfulPayment (id rid : string)
    (st : NormalizedYnoteStatus.t) (uid : option string) :
  preserves (fromPayable w0) (handleSuccessfulPayment env id rid st uid).
Proof.
  intros w Hw. unfold handleSuccessfulPayment. msimpl.
  destruct (documentKey id) as [key|]; [|exact Hw]. msimpl.
  destruct (campaigns w !! key) as [c|] eqn:Hc; [|exact Hw].
  destruct (strictEqStr (field c "status") "pending_payment") eqn:Hst; [|exact Hw].
  apply (fromPayable_transition key _ c); try assumption.
  intros _. apply fromPayable_notificationsAdd.
Qed.

Lemma fromPayable_checkPaymentStatus (rid : string) (campaignId uid : option string) :
  preserves (fromPayable w0) (checkPaymentStatus env rid campaignId uid).
Proof.
  unfold checkPaymentStatus.
  destruct (negb (nonEmpty rid)); [apply preserves_throw|].
  apply preserves_bind; [apply preserves_validateCredentials|]. intros _.
  apply preserves_tryCatch; [|intros e; apply preserves_throw].
  unfold queryPaymentStatus, recordPaymentStatus.
  apply preserves_bind; [apply preserves_getAccessToken, fromPayable_store|]. intros tok.
  apply preserves_bind; [apply preserves_axiosPost, fromPayable_store|]. intros resp.
  apply preserves_bind; [apply preserves_liftR|]. intros n.
  apply preserves_bind; [apply preserves_docRef|]. intros key.
  apply preserves_bind; [apply preserves_docGet|]. intros td.
  apply preserves_bind.
  { destruct td; [apply fromPayable_updateTransaction | apply preserves_ret]. }
  intros _. apply preserves_bind; [|intros _; apply preserves_ret].
  destruct campaignId as [id|]; [|apply preserves_ret].
  apply preserves_when, fromPayable_handleSuccessfulPayment.
Qed.

Lemma fromPayable_handleCallback (callbackData : Value) :
  preserves (fromPayable w0) (handleCallback env callbackData).
Proof.
  intros w Hw. unfold handleCallback.
  destruct callbackData as [| | | | | | |fields| |]; msimpl; try exact Hw;
    try (revert w Hw; apply preserves_docRef).
  destruct (truthy (vor (field fields "referenceId") (field fields "order_id")));
    msimpl; [|exact Hw].
  revert w Hw. apply preserves_bind; [apply preserves_docRef|]. intros tid.
  apply preserves_bind; [apply preserves_docGet|].
  intros [t|]; [|apply preserves_throw].
  apply preserves_bind; [apply fromPayable_updateTransaction|]. intros _.
  unfold settleCampaign.
  destruct (strictEqStr (field fields "status") "SUCCESSFUL" && _).
  - apply preserves_bind; [apply preserves_docRef|]. intros id w Hw.
    unfold bind at 1. msimpl.
    destruct (campaigns w !! id) as [c|] eqn:Hc; [|exact Hw].
    destruct (strictEqStr (field c "status") "pending_payment") eqn:Hst; [|exact Hw].
    apply (fromPayable_transition id _ c); try assumption.
    intros _. apply fromPayable_notificationsAdd.
  - destruct (strictEqStr (field fields "status") "FAILED" && _);
      [|apply preserves_ret].
    apply preserves_bind; [apply fromPayable_notificationsAdd|]. intros _.
    apply preserves_bind; [apply preserves_docRef|]. intros id.
    apply fromPayable_updateOther. reflexivity.
Qed.
End Guard.

(** C3: a campaign that is already [scheduled] keeps all its fields through
    any poll ([checkPaymentStatus], whatever the gateway answers) and through
    any callback whose status normalises to SUCCESSFUL; and whatever the poll
    or the callback is given, a campaign that is [scheduled] afterwards was
    [scheduled] or [pending_payment] before, the status the guard reads. *)
Theorem scheduled_at_most_once (env : Env) (w : World) (cid : string) :
  campaignStatus w cid = Some (VStr "scheduled") ->
  (forall rid campaignId userId,
      campaigns (snd (checkPaymentStatus env rid campaignId userId w)) !! cid
      = campaigns w !! cid) /\
  (forall fields,
      mapVendorStatus (field fields "status") = SUCCESSFUL ->
      campaigns (snd (handleCallback env (VObj fields) w)) !! cid
      = campaigns w !! cid) /\
  (forall rid campaignId userId id,
      campaignStatus (snd (checkPaymentStatus env rid campaignId userId w)) id
      = Some (VStr "scheduled") ->
      pendingOrScheduled (campaignStatus w id)) /\
  (forall callbackData id,
      campaignStatus (snd (handleCallback env callbackData w)) id
      = Some (VStr "scheduled") ->
      pendingOrScheduled (campaignStatus w id)).
Proof.
  intros Hs. repeat split.
  - intros rid campaignId userId.
    now apply (untouched_checkPaymentStatus env w cid Hs).
  - intros fields Hok.
    now apply (untouched_handleCallback env w cid Hs fields Hok).
  - intros rid campaignId userId id Hafter.
    apply (fromPayable_checkPaymentStatus env w rid campaignId userId w);
      [intros id' H'; exact H' | now right].
  - intros callbackData id Hafter.
    apply (fromPayable_handleCallback env w callbackData w);
      [intros id' H'; exact H' | now right].
Qed.

Lemma scheduled_at_most_once_witness :
  campaigns
    (snd (checkPaymentStatus Sample.env "ref-1" (Some "camp-1") (Some "user-1")
            (Sample.world "scheduled"))) !! "camp-1"
  = campaigns (Sample.world "scheduled") !! "camp-1" /\
  campaigns
    (snd (handleCallback Sample.env (Sample.callback "SUCCESSFUL")
            (Sample.world "scheduled"))) !! "camp-1"
  = campaigns (Sample.world "scheduled") !! "camp-1".
Proof.
  destruct (scheduled_at_most_once Sample.env (Sample.world "scheduled") "camp-1")
    as [Hpoll [Hcallback _]]; [vm_compute; reflexivity|].
  split; [apply Hpoll | apply Hcallback; vm_compute; reflexivity].
Defined.

(** ** The callback does not normalise the status *)

(** The transaction row after a callback: [handleCallback] up to the update
    of the transaction, which the store takes when the status and the
    financial transaction id are set. *)
Lemma handleCallback_run (env : Env) (fields : Obj) (rid key : string) (t : Doc)
    (w : World) :
  vor (field fields "referenceId") (field fields "order_id") = VStr rid ->
  documentKey rid = Some key ->
  mtn_transactions w !! key = Some t ->
  defined (field fields "status") = true ->
  defined (field fields "financialTransactionId") = true ->
  let row : Doc :=
    list_to_map
      [("status", field fields "status");
       ("financialTransactionId", field fields "financialTransactionId");
       ("mtnCallbackData", VObj fields);
       ("updatedAt", timestampNow env)] ∪ t in
  let w1 := setCollection MtnTransactions (<[key := row]> (mtn_transactions w)) w in
  handleCallback env (VObj fields) w =
  settleCampaign env (VStr rid) (field fields "status")
    (field fields "financialTransactionId") t w1.
Proof.
  intros Href Hkey Ht Hstatus Hfin row w1. unfold handleCallback. msimpl.
  rewrite Href, nonEmpty_truthy, (documentKey_nonEmpty _ _ Hkey). msimpl.
  rewrite Hkey. msimpl. rewrite Ht.
  unfold bind at 1. rewrite (docUpdate_present _ _ _ _ t) by (all_defined || exact Ht).
  reflexivity.
Qed.

(** A callback without status or without financial transaction id: the
    update of the transaction is refused and nothing is written. *)
Lemma handleCallback_unset (env : Env) (fields : Obj) (rid key : string) (t : Doc)
    (w : World) :
  vor (field fields "referenceId") (field fields "order_id") = VStr rid ->
  documentKey rid = Some key ->
  mtn_transactions w !! key = Some t ->
  defined (field fields "status") && defined (field fields "financialTransactionId")
  = false ->
  handleCallback env (VObj fields) w =
  (Err (newError
          (storeFaultMessage env
             (UndefinedFieldValue
                (if defined (field fields "status") then "financialTransactionId"
                 else "status")))), w).
Proof.
  intros Href Hkey Ht Hunset. unfold handleCallback. msimpl.
  rewrite Href, nonEmpty_truthy, (documentKey_nonEmpty _ _ Hkey). msimpl.
  rewrite Hkey. msimpl. rewrite Ht.
  unfold bind at 1.
  rewrite (docUpdate_undefined _ _ _
             (if defined (field fields "status") then "financialTransactionId"
              else "status")); [reflexivity|].
  cbn [undefinedField].
  destruct (defined (field fields "status")); [|reflexivity].
  cbn [andb] in Hunset. now rewrite Hunset.
Qed.

(** With the literal status SUCCESSFUL the callback does take a campaign in
    [pending_payment] to [scheduled] and adds the success notification. *)
Lemma handleCallback_successful_transition
    (env : Env) (fields : Obj) (rid key cid ckey : string) (t c : Doc) (w : World) :
  vor (field fields "referenceId") (field fields "order_id") = VStr rid ->
  documentKey rid = Some key ->
  field fields "status" = VStr "SUCCESSFUL" ->
  defined (field fields "financialTransactionId") = true ->
  mtn_transactions w !! key = Some t ->
  field t "campaignId" = VStr cid ->
  documentKey cid = Some ckey ->
  defined (field t "amount") = true ->
  defined (field t "userId") = true ->
  campaigns w !! ckey = Some c ->
  field c "status" = VStr "pending_payment" ->
  exists w' note,
    handleCallback env (VObj fields) w = (Ok tt, w') /\
    campaignStatus w' ckey = Some (VStr "scheduled") /\
    notifications w' = note :: notifications w /\
    field note "type" = VStr "payment_success".
Proof.
  intros Href Hkey Hs Hfin Ht Hcid Hckey Hamount Huser Hc Hst.
  rewrite (handleCallback_run env fields rid key t w Href Hkey Ht);
    [|rewrite Hs; reflexivity|exact Hfin].
  cbv zeta. unfold settleCampaign.
  rewrite Hs, Hcid, strictEqStr_refl, nonEmpty_truthy, (documentKey_nonEmpty _ _ Hckey).
  msimpl. rewrite Hckey. msimpl. cbn [campaigns setCollection].
  rewrite Hc, Hst, strictEqStr_refl.
  unfold bind. rewrite (docUpdate_present _ _ _ _ c) by (all_defined || exact Hc).
  rewrite notificationsAdd_defined by all_defined.
  eexists _, _. split; [reflexivity|]. split; [|split; reflexivity].
  unfold campaignStatus. cbn [campaigns setCollection collection].
  rewrite lookup_insert_eq. simpl.
  f_equal. apply field_update_new. reflexivity.
Qed.

(** C2: a callback whose status is the vendor word SUCCESS or COMPLETED, for
    a stored transaction of a campaign in [pending_payment], normalises to
    SUCCESSFUL, and yet [handleCallback] returns with the campaign as it was
    and no notification: it compares the status as received with
    "SUCCESSFUL", where the specification has the transition happen.  The
    callback carries a financial transaction id: without one the update of
    the transaction is refused, and there is no transition either. *)
Theorem handleCallback_vendor_word_no_transition
    (env : Env) (fields : Obj) (rid key cid ckey s : string) (t c : Doc) (w : World) :
  vor (field fields "referenceId") (field fields "order_id") = VStr rid ->
  documentKey rid = Some key ->
  field fields "status" = VStr s ->
  s = "SUCCESS" \/ s = "COMPLETED" ->
  defined (field fields "financialTransactionId") = true ->
  mtn_transactions w !! key = Some t ->
  field t "campaignId" = VStr cid ->
  documentKey cid = Some ckey ->
  campaigns w !! ckey = Some c ->
  field c "status" = VStr "pending_payment" ->
  mapVendorStatus (field fields "status") = SUCCESSFUL /\
  fst (handleCallback env (VObj fields) w) = Ok tt /\
  campaigns (snd (handleCallback env (VObj fields) w)) !! ckey = Some c /\
  notifications (snd (handleCallback env (VObj fields) w)) = notifications w.
Proof.
  intros Href Hkey Hs Hword Hfin Ht Hcid Hckey Hc Hst.
  rewrite (handleCallback_run env fields rid key t w Href Hkey Ht);
    [|rewrite Hs; reflexivity|exact Hfin].
  cbv zeta. unfold settleCampaign. rewrite Hs.
  destruct Hword as [-> | ->]; (split; [reflexivity|]); msimpl;
    (split; [reflexivity|]); (split; [exact Hc | reflexivity]).
Qed.

Lemma handleCallback_vendor_word_no_transition_witness :
  mapVendorStatus (field (Sample.callbackFields "SUCCESS") "status") = SUCCESSFUL /\
  fst (handleCallback Sample.env (Sample.callback "SUCCESS")
         (Sample.world "pending_payment")) = Ok tt /\
  campaigns
    (snd (handleCallback Sample.env (Sample.callback "SUCCESS")
            (Sample.world "pending_payment"))) !! "camp-1"
  = Some (Sample.campaign "pending_payment") /\
  notifications
    (snd (handleCallback Sample.env (Sample.callback "SUCCESS")
            (Sample.world "pending_payment"))) = [].
Proof.
  apply (handleCallback_vendor_word_no_transition Sample.env
           (Sample.callbackFields "SUCCESS") "ref-1" "ref-1" "camp-1" "camp-1"
           "SUCCESS" Sample.transaction (Sample.campaign "pending_payment")
           (Sample.world "pending_payment"));
    try (vm_compute; reflexivity).
  left; reflexivity.
Defined.

(** ** Running the poll *)

Lemma sameStore_refl (w : World) : sameStore w w.
Proof. repeat split. Qed.

Lemma sameStore_store (w0 w w' : World) :
  campaigns w' = campaigns w ->
  mtn_transactions w' = mtn_transactions w ->
  notifications w' = notifications w ->
  sameStore w0 w -> sameStore w0 w'.
Proof. unfold sameStore. intros -> -> ->. tauto. Qed.

Lemma getAccessToken_sameStore (env : Env) (w : World) :
  sameStore w (snd (getAccessToken env w)).
Proof.
  apply (preserves_getAccessToken (sameStore w) (sameStore_store w) env w),
    sameStore_refl.
Qed.

Lemma validateCredentials_configured (env : Env) (w : World) :
  credentialsConfigured env = true -> validateCredentials env w = (Ok tt, w).
Proof.
  unfold credentialsConfigured, validateCredentials.
  rewrite !andb_true_iff. intros [[[-> ->] ->] ->]. reflexivity.
Qed.


(** [handleSuccessfulPayment] touches campaigns and notifications only. *)
Lemma handleSuccessfulPayment_frame (env : Env) (cid rid : string)
    (st : NormalizedYnoteStatus.t) (uid : option string) (w : World) :
  mtn_transactions (snd (handleSuccessfulPayment env cid rid st uid w))
  = mtn_transactions w /\
  sent (snd (handleSuccessfulPayment env cid rid st uid w)) = sent w.
Proof.
  unfold handleSuccessfulPayment. msimpl.
  destruct (documentKey cid) as [key|]; [|now split]. msimpl.
  destruct (campaigns w !! key) as [c|] eqn:Hc; [|now split].
  destruct (strictEqStr (field c "status") "pending_payment"); [|now split].
  unfold bind.
  match goal with
  | |- context [docUpdate env Campaigns key ?f w] =>
      destruct (docUpdate_outcome env Campaigns key f w) as [[e ->] | [old [_ ->]]]
  end; [now split|].
  match goal with
  | |- context [notificationsAdd env ?d ?w'] =>
      destruct (notificationsAdd_outcome env d w') as [[e ->] | ->]
  end; now split.
Qed.

(** [checkPaymentStatus] up to the answer of the gateway: with the token
    obtained and the answer normalised, what is left is the update of the
    transaction row, the campaign transition and the result. *)
Lemma checkPaymentStatus_run (env : Env) (rid : string) (campaignId userId : option string)
    (w w1 : World) (accessToken : string) (answer : Value) (n : NormalizedYnoteStatus.t) :
  nonEmpty rid = true ->
  credentialsConfigured env = true ->
  getAccessToken env w = (Ok accessToken, w1) ->
  gateway env (statusRequest env rid accessToken) = Ok answer ->
  normalizeYnoteStatus answer = Ok n ->
  checkPaymentStatus env rid campaignId userId w =
  tryCatch
    (recordPaymentStatus env rid campaignId userId answer n)
    (fun error =>
       throw (newError
                (if nonEmpty (message error) then message error
                 else "Erreur lors de la vérification du statut")))
    (mkWorld (campaigns w1) (mtn_transactions w1) (notifications w1) (cachedToken w1)
       (statusRequest env rid accessToken :: sent w1)).
Proof.
  intros Hrid Hcred Htok Hanswer Hn.
  unfold checkPaymentStatus. rewrite Hrid. msimpl.
  unfold bind at 1. rewrite (validateCredentials_configured env w Hcred).
  unfold tryCatch, queryPaymentStatus.
  unfold bind at 1. rewrite Htok.
  unfold bind at 1. unfold axiosPost, bind at 1, record. msimpl.
  fold (statusRequest env rid accessToken). rewrite Hanswer.
  msimpl. rewrite Hn. reflexivity.
Qed.




(** ** The transaction row after a status update *)

Section Row.
Variable env : Env.
Variable rid : string.
Variable row : Doc.

Lemma rowIs_updateCampaign (id : string) (fields : list (string * Value)) :
  preserves (rowIs rid row) (docUpdate env Campaigns id fields).
Proof.
  intros w Hw. unfold docUpdate. msimpl.
  destruct (undefinedField fields); [exact Hw|].
  destruct (campaigns w !! id); exact Hw.
Qed.

Lemma rowIs_notificationsAdd (data : list (string * Value)) :
  preserves (rowIs rid row) (notificationsAdd env data).
Proof.
  intros w Hw. unfold notificationsAdd. destruct (undefinedField data); exact Hw.
Qed.

Lemma rowIs_handleSuccessfulPayment (cid ref : string)
    (st : NormalizedYnoteStatus.t) (uid : option string) :
  preserves (rowIs rid row) (handleSuccessfulPayment env cid ref st uid).
Proof.
  unfold handleSuccessfulPayment.
  apply preserves_bind; [apply preserves_docRef|]. intros key.
  apply preserves_bind; [apply preserves_docGet|].
  intros [c|]; [|apply preserves_ret].
  destruct (strictEqStr _ _); [|apply preserves_ret].
  apply preserves_bind; [apply rowIs_updateCampaign|].
  intros _. apply rowIs_notificationsAdd.
Qed.

Lemma rowIs_settleCampaign (referenceId status financialTransactionId : Value)
    (t : Doc) :
  preserves (rowIs rid row)
    (settleCampaign env referenceId status financialTransactionId t).
Proof.
  unfold settleCampaign.
  destruct (strictEqStr status "SUCCESSFUL" && _).
  - apply preserves_bind; [apply preserves_docRef|]. intros cid.
    apply preserves_bind; [apply preserves_docGet|].
    intros [c|]; [|apply preserves_ret].
    destruct (strictEqStr _ _); [|apply preserves_ret].
    apply preserves_bind; [apply rowIs_updateCampaign|].
    intros _. apply rowIs_notificationsAdd.
  - destruct (strictEqStr status "FAILED" && _); [|apply preserves_ret].
    apply preserves_bind; [apply rowIs_notificationsAdd|]. intros _.
    apply preserves_bind; [apply preserves_docRef|]. intros cid.
    apply rowIs_updateCampaign.
Qed.
End Row.

Lemma preserves_run {A} (P : World -> Prop) (m : M A) (w : World) :
  preserves P m -> P w -> P (snd (m w)).
Proof. intros Hm. apply Hm. Qed.

Lemma tryCatch_rethrow_world {A} (m : M A) (f : Error -> Error) (w : World) :
  snd (tryCatch m (fun e => throw (f e)) w) = snd (m w).
Proof. unfold tryCatch, throw. now destruct (m w) as [[a|e] w']. Qed.

(** An answer that normalises is not [undefined]: the store takes it. *)
Lemma normalizeYnoteStatus_defined (answer : Value) (n : NormalizedYnoteStatus.t) :
  normalizeYnoteStatus answer = Ok n -> defined answer = true.
Proof. destruct answer; [discriminate|reflexivity..]. Qed.

(** The poll writes the normalised status and the raw answer to the row. *)
Lemma checkPaymentStatus_updates_row
    (env : Env) (rid key : string) (campaignId userId : option string)
    (w w1 : World) (accessToken : string) (answer : Value) (n : NormalizedYnoteStatus.t)
    (t : Doc) :
  documentKey rid = Some key ->
  credentialsConfigured env = true ->
  getAccessToken env w = (Ok accessToken, w1) ->
  gateway env (statusRequest env rid accessToken) = Ok answer ->
  normalizeYnoteStatus answer = Ok n ->
  mtn_transactions w !! key = Some t ->
  exists row,
    mtn_transactions (snd (checkPaymentStatus env rid campaignId userId w)) !! key
    = Some row /\
    field row "status" = VStr (paymentStatusString (NormalizedYnoteStatus.status n)) /\
    field row "ynoteStatusResponse" = answer.
Proof.
  intros Hkey Hcred Htok Hanswer Hn Ht.
  rewrite (checkPaymentStatus_run env rid campaignId userId w w1 accessToken answer n)
    by (assumption || exact (documentKey_nonEmpty _ _ Hkey)).
  pose proof (getAccessToken_sameStore env w) as [_ [Hts _]].
  rewrite Htok in Hts. simpl in Hts.
  pose proof (normalizeYnoteStatus_defined _ _ Hn) as Hdef.
  set (w2 := mkWorld _ _ _ _ _).
  set (fields := list_to_map
                   [("status", VStr (paymentStatusString (NormalizedYnoteStatus.status n)));
                    ("ynoteStatusResponse", answer); ("updatedAt", timestampNow env)] : Doc).
  exists (fields ∪ t). split.
  - rewrite tryCatch_rethrow_world. unfold recordPaymentStatus.
    unfold bind at 1. rewrite (docRef_key _ _ _ _ Hkey).
    unfold bind at 1. msimpl. change (mtn_transactions w2) with (mtn_transactions w1).
    rewrite Hts, Ht. unfold bind at 1.
    rewrite (docUpdate_present _ _ _ _ t)
      by (all_defined || (cbn [collection]; change (mtn_transactions w2)
                            with (mtn_transactions w1); now rewrite Hts)).
    set (w3 := setCollection _ _ _).
    assert (H3 : rowIs key (fields ∪ t) w3) by apply lookup_insert_eq.
    apply (preserves_run (rowIs key (fields ∪ t))); [|exact H3].
    apply preserves_bind; [|intros; apply preserves_ret].
    destruct campaignId; [|apply preserves_ret].
    apply preserves_when, rowIs_handleSuccessfulPayment.
  - split; apply field_update_new; reflexivity.
Qed.

(** The poll leaves every campaign alone when the normalised status is not
    SUCCESSFUL. *)
Lemma checkPaymentStatus_not_successful
    (env : Env) (rid : string) (campaignId userId : option string)
    (w w1 : World) (accessToken : string) (answer : Value) (n : NormalizedYnoteStatus.t) :
  nonEmpty rid = true ->
  credentialsConfigured env = true ->
  getAccessToken env w = (Ok accessToken, w1) ->
  gateway env (statusRequest env rid accessToken) = Ok answer ->
  normalizeYnoteStatus answer = Ok n ->
  isSuccessful (NormalizedYnoteStatus.status n) = false ->
  campaigns (snd (checkPaymentStatus env rid campaignId userId w)) = campaigns w /\
  notifications (snd (checkPaymentStatus env rid campaignId userId w)) = notifications w.
Proof.
  intros Hrid Hcred Htok Hanswer Hn Hno.
  rewrite (checkPaymentStatus_run env rid campaignId userId w w1 accessToken answer n)
    by assumption.
  pose proof (getAccessToken_sameStore env w) as [Hcs [_ Hns]].
  rewrite Htok in Hcs, Hns. simpl in Hcs, Hns.
  rewrite tryCatch_rethrow_world. set (w2 := mkWorld _ _ _ _ _).
  apply (preserves_run
           (fun w' => campaigns w' = campaigns w /\ notifications w' = notifications w));
    [|split; assumption].
  unfold recordPaymentStatus.
  apply preserves_bind; [apply preserves_docRef|]. intros key.
  apply preserves_bind; [apply preserves_docGet|]. intros td.
  apply preserves_bind.
  { destruct td; [|apply preserves_ret]. intros w' Hw'. unfold docUpdate. msimpl.
    destruct (undefinedField _); [exact Hw'|].
    destruct (mtn_transactions w' !! key); exact Hw'. }
  intros _. apply preserves_bind; [|intros; apply preserves_ret].
  destruct campaignId; [|apply preserves_ret].
  rewrite Hno. apply preserves_ret.
Qed.

(** C7: after a callback for a stored transaction, with its status and its
    financial transaction id set, the row holds the raw callback, and as
    status the status as received: for the vendor word SUCCESS the row says
    SUCCESS, not the normalised SUCCESSFUL the specification has written
    there. *)
Theorem handleCallback_stores_status_as_received
    (env : Env) (fields : Obj) (rid key : string) (t : Doc) (w : World) :
  vor (field fields "referenceId") (field fields "order_id") = VStr rid ->
  documentKey rid = Some key ->
  mtn_transactions w !! key = Some t ->
  defined (field fields "status") = true ->
  defined (field fields "financialTransactionId") = true ->
  exists row,
    mtn_transactions (snd (handleCallback env (VObj fields) w)) !! key = Some row /\
    field row "mtnCallbackData" = VObj fields /\
    field row "status" = field fields "status".
Proof.
  intros Href Hkey Ht Hstatus Hfin.
  rewrite (handleCallback_run env fields rid key t w Href Hkey Ht Hstatus Hfin).
  cbv zeta.
  set (row := _ ∪ t). set (w1 := setCollection _ _ _).
  exists row. split.
  - assert (H1 : rowIs key row w1) by apply lookup_insert_eq.
    apply (preserves_run (rowIs key row)); [|exact H1].
    apply rowIs_settleCampaign.
  - split; apply field_update_new; reflexivity.
Qed.

Lemma handleCallback_stores_status_as_received_witness :
  (exists row,
      mtn_transactions
        (snd (handleCallback Sample.env (Sample.callback "SUCCESS")
                (Sample.world "pending_payment"))) !! "ref-1" = Some row /\
      field row "mtnCallbackData" = Sample.callback "SUCCESS" /\
      field row "status" = VStr "SUCCESS") /\
  paymentStatusString (mapVendorStatus (VStr "SUCCESS")) = "SUCCESSFUL".
Proof.
  split; [|reflexivity].
  apply (handleCallback_stores_status_as_received Sample.env
           (Sample.callbackFields "SUCCESS") "ref-1" "ref-1" Sample.transaction
           (Sample.world "pending_payment"));
    vm_compute; reflexivity.
Defined.

(** ** Initiating a payment on a campaign that does not await one *)

Lemma validateCredentials_cases (env : Env) (w : World) :
  validateCredentials env w = (Ok tt, w) \/
  exists e, validateCredentials env w = (Err e, w).
Proof.
  unfold validateCredentials.
  destruct (_ || _); [right; eexists; reflexivity|].
  destruct (_ || _); [right; eexists; reflexivity|].
  now left.
Qed.

Lemma validateMtnPhoneNumber_nonEmpty (phone : string) :
  isValid (validateMtnPhoneNumber phone) = true -> nonEmpty phone = true.
Proof. destruct phone; [discriminate | reflexivity]. Qed.

(** On an existing campaign, [initiatePayment] throws the error of the first
    of its checks that fails, and the world is as it was. *)
Lemma initiatePayment_first_failed_check
    (env : Env) (request : InitiatePaymentRequest.t) (userId key : string)
    (w : World) (c : Doc) (e : Error) :
  documentKey (InitiatePaymentRequest.campaignId request) = Some key ->
  campaigns w !! key = Some c ->
  firstFailedCheck env request userId c = Some e ->
  initiatePayment env request userId w = (Err e, w).
Proof.
  intros Hkey Hc. unfold firstFailedCheck, initiatePayment, validateCredentials.
  unfold bind at 1.
  destruct (negb (nonEmpty (clientId env)) || negb (nonEmpty (clientSecret env)));
    [now intros [= <-]|].
  destruct (negb (nonEmpty (customerKey env)) || negb (nonEmpty (subscriptionKey env)));
    [now intros [= <-]|].
  cbn [ret].
  destruct (negb (nonEmpty (InitiatePaymentRequest.campaignId request))
            || (InitiatePaymentRequest.amount request =? 0)
            || negb (nonEmpty (InitiatePaymentRequest.phoneNumber request)));
    [now intros [= <-]|].
  destruct (InitiatePaymentRequest.amount request <? 100); [now intros [= <-]|].
  destruct (negb (isValid (validateMtnPhoneNumber
                             (InitiatePaymentRequest.phoneNumber request))));
    [now intros [= <-]|].
  unfold bind at 1. rewrite (docRef_key _ _ _ _ Hkey). msimpl. rewrite Hc.
  destruct (negb (strictEqStr (field c "userId") userId)); [now intros [= <-]|].
  destruct (negb (strictEqStr (field c "status") "pending_payment"));
    [now intros [= <-]|discriminate].
Qed.

(** C5, as the code has it: on an existing campaign whose status is not
    [pending_payment], [initiatePayment] fails and leaves the whole world as
    it was (no transaction, no campaign write, no request to the gateway);
    the error is that of the first check that fails, in the order
    credentials, arguments, amount, phone number, owner, status: the
    invalid-state error when the checks before the status test pass
    (credentials configured, amount at least 100, valid MTN phone number,
    caller owning the campaign). *)
Theorem initiatePayment_not_awaiting_payment
    (env : Env) (request : InitiatePaymentRequest.t) (userId key : string)
    (w : World) (c : Doc) :
  documentKey (InitiatePaymentRequest.campaignId request) = Some key ->
  campaigns w !! key = Some c ->
  strictEqStr (field c "status") "pending_payment" = false ->
  exists e,
    firstFailedCheck env request userId c = Some e /\
    initiatePayment env request userId w = (Err e, w) /\
    (credentialsConfigured env = true ->
     100 <= InitiatePaymentRequest.amount request ->
     isValid (validateMtnPhoneNumber (InitiatePaymentRequest.phoneNumber request)) = true ->
     field c "userId" = VStr userId ->
     e = newError "Cette campagne n'est pas en attente de paiement").
Proof.
  intros Hkey Hc Hst.
  assert (Hsome : exists e, firstFailedCheck env request userId c = Some e).
  { unfold firstFailedCheck. rewrite Hst. cbn [negb].
    repeat match goal with
           | |- context [if ?b then _ else _] => destruct b; [eauto|]
           end.
    eauto. }
  destruct Hsome as [e He]. exists e. split; [exact He|].
  split; [exact (initiatePayment_first_failed_check env request userId key w c e
                   Hkey Hc He)|].
  intros Hcred Hamount Hphone Hu. revert He. unfold firstFailedCheck.
  unfold credentialsConfigured in Hcred. rewrite !andb_true_iff in Hcred.
  destruct Hcred as [[[-> ->] ->] ->]. cbn [negb orb].
  rewrite (documentKey_nonEmpty _ _ Hkey), (validateMtnPhoneNumber_nonEmpty _ Hphone).
  cbn [negb orb].
  replace (InitiatePaymentRequest.amount request =? 0) with false
    by (symmetry; apply Z.eqb_neq; lia).
  replace (InitiatePaymentRequest.amount request <? 100) with false
    by (symmetry; apply Z.ltb_ge; lia).
  rewrite Hphone, Hu, strictEqStr_refl, Hst. cbn [negb]. now intros [= <-].
Qed.

(** The owner of a scheduled campaign asks to pay for it again. *)
Lemma initiatePayment_not_awaiting_payment_witness :
  initiatePayment Sample.env Sample.paymentRequest "user-1" (Sample.world "scheduled")
  = (Err (newError "Cette campagne n'est pas en attente de paiement"),
     Sample.world "scheduled").
Proof.
  destruct (initiatePayment_not_awaiting_payment Sample.env Sample.paymentRequest
              "user-1" "camp-1" (Sample.world "scheduled") (Sample.campaign "scheduled"))
    as [e [_ [Hrun He]]].
  - reflexivity.
  - reflexivity.
  - reflexivity.
  - rewrite Hrun. f_equal. f_equal.
    apply He; vm_compute; (reflexivity || discriminate).
Defined.

(** C5 as the specification states it fails: a caller who does not own the
    scheduled campaign gets the ownership error, not the invalid-state
    error. *)
Lemma initiatePayment_not_owner_counterexample :
  campaignStatus (Sample.world "scheduled") "camp-1" = Some (VStr "scheduled") /\
  initiatePayment Sample.env Sample.paymentRequest "user-2" (Sample.world "scheduled")
  = (Err (newError "Cette campagne ne vous appartient pas"), Sample.world "scheduled") /\
  newError "Cette campagne ne vous appartient pas"
  <> newError "Cette campagne n'est pas en attente de paiement".
Proof.
  split; [vm_compute; reflexivity|]. split; [vm_compute; reflexivity|]. discriminate.
Qed.

(** * Further properties of the code *)

(** ** Shared lemmas *)

Lemma strictEqStr_false (v : Value) (lit : string) :
  strictEqStr v lit = false <-> v <> VStr lit.
Proof.
  rewrite <- strictEqStr_true. destruct (strictEqStr v lit); split; congruence.
Qed.

Lemma tryCatch_rethrow {A} (m : M A) (w : World) :
  tryCatch m (fun error => throw error) w = m w.
Proof. unfold tryCatch, throw. now destruct (m w) as [[a|e] w']. Qed.


Lemma vor_truthy (a b : Value) : truthy a = true -> vor a b = a.
Proof. unfold vor. now intros ->. Qed.

(** ** Phone normaliser: normal form *)

Lemma replaceNonDigits_digits (s : string) :
  Forall (fun c => Js.isDigit c = true) (list_ascii_of_string s) ->
  Js.replaceNonDigits s = s.
Proof.
  induction s as [|c s IH]; [reflexivity|]. simpl. intros H.
  inversion H as [|? ? Hc Hs]; subst. rewrite Hc. now rewrite IH.
Qed.

Lemma dropTrunkDigit_digits (d : string) :
  Forall (fun c => Js.isDigit c = true) (list_ascii_of_string d) ->
  Forall (fun c => Js.isDigit c = true) (list_ascii_of_string (Spec.dropTrunkDigit d)).
Proof.
  intros H. destruct d as [|c d]; [exact H|].
  assert (Hd : Forall (fun c => Js.isDigit c = true) (list_ascii_of_string d))
    by (now inversion H).
  unfold Spec.dropTrunkDigit.
  destruct c as [[] [] [] [] [] [] [] []]; try exact H. exact Hd.
Qed.

Lemma formatPhoneNumber_digits (phone : string) :
  Forall (fun c => Js.isDigit c = true) (list_ascii_of_string (formatPhoneNumber phone)).
Proof.
  rewrite formatPhoneNumber_eq. cbv zeta.
  pose proof (dropTrunkDigit_digits _ (replaceNonDigits_all_digits phone)) as Ht.
  destruct (Js.startsWith _ "237"); [exact Ht|].
  change (list_ascii_of_string ("237" +:+ ?t))
    with ("2"%char :: "3"%char :: "7"%char :: list_ascii_of_string t).
  repeat (constructor; [reflexivity|]). exact Ht.
Qed.

(** X1: whatever the input, [formatPhoneNumber] returns a string of digits
    that starts with "237", and formatting its result again changes
    nothing. *)
Theorem formatPhoneNumber_normal_form (phone : string) :
  Forall (fun c => Js.isDigit c = true) (list_ascii_of_string (formatPhoneNumber phone)) /\
  (exists r, formatPhoneNumber phone = "237" +:+ r) /\
  formatPhoneNumber (formatPhoneNumber phone) = formatPhoneNumber phone.
Proof.
  split; [apply formatPhoneNumber_digits|].
  split; [apply formatPhoneNumber_starts_237|].
  pose proof (formatPhoneNumber_digits phone) as Hd.
  destruct (formatPhoneNumber_starts_237 phone) as [r Hr].
  rewrite (formatPhoneNumber_eq (formatPhoneNumber phone)). cbv zeta.
  rewrite (replaceNonDigits_digits _ Hd), Hr. reflexivity.
Qed.

(** ** Phone validator and normaliser together *)

Lemma dropTrunkDigit_cases (d : string) :
  (exists n, d = "0" +:+ n /\ Spec.dropTrunkDigit d = n) \/
  (Js.startsWith d "0" = false /\ Spec.dropTrunkDigit d = d).
Proof.
  rewrite <- dropTrunkDigit_substring.
  destruct (Js.startsWith d "0") eqn:Hz; [left|right; split; reflexivity].
  apply startsWith_app in Hz as [n ->]. exists n. split; reflexivity.
Qed.

Lemma mtn_prefix_not_237 (n : string) :
  Js.arrayIncludes mtnPrefixes (Js.substringTo 2 n) = true ->
  Js.startsWith n "237" = false /\ Js.startsWith n "0" = false.
Proof.
  intros H. apply carrier_prefix_mtn in H as [p [rest [Hp ->]]].
  simpl in Hp. destruct Hp as [<-|[<-|[<-|[]]]]; split; reflexivity.
Qed.

(** X2: for a number the validator accepts, the normalised number is "237"
    followed by the national number (the digits without country code and
    trunk 0), except when the digits are "237", then "0", then the national
    number: there the validator drops the 0 and the normaliser keeps it. *)
Theorem formatPhoneNumber_of_valid (phone : string) :
  isValid (validateMtnPhoneNumber phone) = true ->
  formatPhoneNumber phone = "237" +:+ Spec.nationalNumber phone \/
  (Js.replaceNonDigits phone = "2370" +:+ Spec.nationalNumber phone /\
   formatPhoneNumber phone = Js.replaceNonDigits phone).
Proof.
  rewrite validateMtnPhoneNumber_eq, formatPhoneNumber_eq. cbv zeta.
  destruct (_ <? _)%nat; [discriminate|].
  destruct (Js.arrayIncludes _ _) eqn:Hmtn; [intros _|discriminate].
  apply mtn_prefix_not_237 in Hmtn as [Hn237 Hn0].
  unfold Spec.nationalNumber in *. rewrite <- dropCountryCode_substring in *.
  set (d := Js.replaceNonDigits phone) in *.
  destruct (Js.startsWith d "237") eqn:Hcc.
  - apply startsWith_app in Hcc as [r Hr]. rewrite Hr.
    change (Js.substringFrom 3 ("237" +:+ r)) with r in *.
    change (Spec.dropTrunkDigit ("237" +:+ r)) with ("237" +:+ r).
    change (Js.startsWith ("237" +:+ r) "237") with true. cbv iota.
    destruct (dropTrunkDigit_cases r) as [[n [-> ->]] | [_ ->]].
    + right. split; reflexivity.
    + left. reflexivity.
  - left. now rewrite Hn237.
Qed.

Lemma formatPhoneNumber_of_valid_witness :
  formatPhoneNumber "0677 12 34 56" = "237" +:+ Spec.nationalNumber "0677 12 34 56" \/
  (Js.replaceNonDigits "0677 12 34 56" = "2370" +:+ Spec.nationalNumber "0677 12 34 56" /\
   formatPhoneNumber "0677 12 34 56" = Js.replaceNonDigits "0677 12 34 56").
Proof. apply formatPhoneNumber_of_valid. reflexivity. Defined.

(** The exception: accepted, and normalised with the 0 kept. *)
Example formatPhoneNumber_keeps_trunk_after_code :
  isValid (validateMtnPhoneNumber "2370677123456") = true /\
  formatPhoneNumber "2370677123456" = "2370677123456".
Proof. split; reflexivity. Qed.

(** ** The token cache *)

(** A cached token that expires more than 60 s after the clock is returned
    as it is: no request is sent and nothing changes. *)
Lemma getAccessToken_cached (env : Env) (w : World) (c : CachedToken) :
  cachedToken w = Some c ->
  now env + 60000 < expiresAt c ->
  getAccessToken env w = (Ok (token c), w).
Proof.
  intros Hc Hfresh. unfold getAccessToken, bind, getCachedToken. rewrite Hc.
  replace (expiresAt c >? now env + 60000) with true; [reflexivity|].
  symmetry. apply Z.gtb_lt. exact Hfresh.
Qed.

Lemma getAccessToken_stale (env : Env) (w : World) :
  cacheFresh env w = false -> getAccessToken env w = requestAccessToken env w.
Proof.
  unfold cacheFresh, getAccessToken, bind, getCachedToken.
  destruct (cachedToken w) as [c|]; [|reflexivity]. now intros ->.
Qed.

Lemma getAccessToken_run_fetch (env : Env) (w : World) (data : TokenResponse) :
  cacheFresh env w = false ->
  tokenEndpoint env (tokenRequest env) = Ok data ->
  getAccessToken env w =
  (Ok (access_token data),
   withCache {| token := access_token data;
                expiresAt := now env + tokenLifetime data * 1000 |}
     (withSent (tokenRequest env) w)).
Proof.
  intros Hstale Hanswer. rewrite (getAccessToken_stale env w Hstale).
  unfold requestAccessToken, tryCatch, axiosPostToken, bind, record, liftR.
  fold (tokenRequest env). rewrite Hanswer. reflexivity.
Qed.

(** X3: without a fresh cached token, and with the token endpoint answering,
    [getAccessToken] sends one token request, returns the token of the
    answer, and caches it until [expires_in] seconds after the clock, 3600
    when the answer gives none (or 0); the collections are not touched. *)
Theorem getAccessToken_fetches_and_caches (env : Env) (w : World) (data : TokenResponse) :
  cacheFresh env w = false ->
  tokenEndpoint env (tokenRequest env) = Ok data ->
  exists lifetime w',
    (match expires_in data with
     | Some secs => secs <> 0 /\ lifetime = secs \/ secs = 0 /\ lifetime = 3600
     | None => lifetime = 3600
     end) /\
    getAccessToken env w = (Ok (access_token data), w') /\
    cachedToken w' =
      Some {| token := access_token data; expiresAt := now env + lifetime * 1000 |} /\
    sent w' = tokenRequest env :: sent w /\
    sameStore w w'.
Proof.
  intros Hstale Hanswer.
  rewrite (getAccessToken_run_fetch env w data Hstale Hanswer).
  exists (tokenLifetime data). eexists. split; [|repeat split].
  unfold tokenLifetime. destruct (expires_in data) as [secs|]; [|reflexivity].
  destruct (Z.eqb_spec secs 0); [right | left]; now split.
Qed.

Lemma getAccessToken_fetches_and_caches_witness :
  exists w',
    getAccessToken Sample.env (Sample.world "pending_payment") = (Ok "token-1", w') /\
    cachedToken w' = Some {| token := "token-1"; expiresAt := 1700003600000 |} /\
    sent w' = [tokenRequest Sample.env].
Proof.
  destruct (getAccessToken_fetches_and_caches Sample.env (Sample.world "pending_payment")
              Cases.tokenAnswer)
    as (lifetime & w' & Hl & Hrun & Hc & Hsent & _).
  - reflexivity.
  - reflexivity.
  - exists w'. cbn in Hl. destruct Hl as [[_ ->]|[H0 _]]; [|discriminate H0].
    split; [exact Hrun|]. split; [exact Hc|exact Hsent].
Defined.

(** X4: a token fetched with a lifetime is reused by the next call as long as
    the clock of that call is more than 60 s before its expiry: the second
    call returns the same token, sends nothing and changes nothing. *)
Theorem getAccessToken_fetch_then_cached
    (env env' : Env) (w : World) (data : TokenResponse) (secs : Z) :
  cacheFresh env w = false ->
  tokenEndpoint env (tokenRequest env) = Ok data ->
  expires_in data = Some secs -> secs <> 0 ->
  now env' + 60000 < now env + secs * 1000 ->
  let w1 := snd (getAccessToken env w) in
  fst (getAccessToken env w) = Ok (access_token data) /\
  getAccessToken env' w1 = (Ok (access_token data), w1).
Proof.
  intros Hstale Hanswer Hsecs Hnz Hclock.
  rewrite (getAccessToken_run_fetch env w data Hstale Hanswer).
  cbv zeta. split; [reflexivity|]. simpl snd.
  apply (getAccessToken_cached env' _
           {| token := access_token data;
              expiresAt := now env + tokenLifetime data * 1000 |});
    [reflexivity|].
  unfold tokenLifetime. rewrite Hsecs. cbn [expiresAt].
  destruct (Z.eqb_spec secs 0); [contradiction | exact Hclock].
Qed.

Lemma getAccessToken_fetch_then_cached_witness :
  let w1 := snd (getAccessToken Sample.env (Sample.world "pending_payment")) in
  fst (getAccessToken Sample.env (Sample.world "pending_payment")) = Ok "token-1" /\
  getAccessToken Cases.later w1 = (Ok "token-1", w1).
Proof.
  apply (getAccessToken_fetch_then_cached Sample.env Cases.later
           (Sample.world "pending_payment") Cases.tokenAnswer 3600).
  - reflexivity.
  - reflexivity.
  - reflexivity.
  - discriminate.
  - vm_compute. reflexivity.
Defined.

(** X5: when the token request fails, [getAccessToken] throws an error that
    names only the HTTP status of the failure ("Unknown" without one), the
    cached token stays what it was and the collections are not touched. *)
Theorem getAccessToken_failure (env : Env) (w : World) (e : Error) :
  cacheFresh env w = false ->
  tokenEndpoint env (tokenRequest env) = Err e ->
  exists code,
    (match responseStatus e with
     | Some st => st <> 0 /\ code = Js.numberToString st \/ st = 0 /\ code = "Unknown"
     | None => code = "Unknown"
     end) /\
    getAccessToken env w =
    (Err (newError ("Erreur d'authentification Y-Note: " +:+ code)),
     withSent (tokenRequest env) w).
Proof.
  intros Hstale Hanswer. rewrite (getAccessToken_stale env w Hstale).
  unfold requestAccessToken, tryCatch, axiosPostToken, bind, record, liftR, throw.
  fold (tokenRequest env). rewrite Hanswer.
  destruct (responseStatus e) as [st|] eqn:Hst.
  - destruct (st =? 0) eqn:Hz.
    + exists "Unknown". apply Z.eqb_eq in Hz. split; [right; now split|reflexivity].
    + exists (Js.numberToString st). apply Z.eqb_neq in Hz.
      split; [left; now split|reflexivity].
  - exists "Unknown". split; reflexivity.
Qed.

Lemma getAccessToken_failure_witness :
  getAccessToken Cases.envNoToken (Sample.world "pending_payment") =
  (Err (newError "Erreur d'authentification Y-Note: 401"),
   withSent (tokenRequest Cases.envNoToken) (Sample.world "pending_payment")).
Proof.
  destruct (getAccessToken_failure Cases.envNoToken (Sample.world "pending_payment")
              Cases.unauthorized)
    as (code & Hcode & Hrun).
  - reflexivity.
  - reflexivity.
  - cbn in Hcode. destruct Hcode as [[_ ->]|[H0 _]]; [|discriminate H0].
    exact Hrun.
Defined.

(** ** Initiating a payment *)

Lemma isSuccessCode_In (v : Value) : isSuccessCode v = true <-> In v successCodes.
Proof.
  unfold isSuccessCode, successCodes. split.
  - destruct v; try discriminate; unfold strictEqNum, strictEqStr.
    + destruct (Z.eqb_spec z 200) as [->|_]; [simpl; tauto|].
      destruct (Z.eqb_spec z 201) as [->|_]; [simpl; tauto|]. discriminate.
    + destruct (String.eqb_spec s "200") as [->|_]; [simpl; tauto|].
      destruct (String.eqb_spec s "201") as [->|_]; [simpl; tauto|]. discriminate.
  - simpl. intros [<-|[<-|[<-|[<-|[]]]]]; reflexivity.
Qed.

(** The guards of [initiatePayment] passed: what is left is the [try]. *)
Lemma initiatePayment_guards_pass
    (env : Env) (request : InitiatePaymentRequest.t) (userId key : string)
    (w : World) (c : Doc) :
  credentialsConfigured env = true ->
  requestAcceptable request ->
  documentKey (InitiatePaymentRequest.campaignId request) = Some key ->
  campaigns w !! key = Some c ->
  field c "userId" = VStr userId ->
  field c "status" = VStr "pending_payment" ->
  initiatePayment env request userId w =
  tryCatch (submitPayment env request userId key c) (fun error => throw error) w.
Proof.
  intros Hcred [Hcid [Hamount Hphone]] Hkey Hc Howner Hst.
  unfold initiatePayment, bind at 1.
  rewrite (validateCredentials_configured env w Hcred).
  rewrite Hcid, (validateMtnPhoneNumber_nonEmpty _ Hphone), Hphone.
  replace (InitiatePaymentRequest.amount request =? 0) with false
    by (symmetry; apply Z.eqb_neq; lia).
  replace (InitiatePaymentRequest.amount request <? 100) with false
    by (symmetry; apply Z.ltb_ge; lia).
  msimpl. rewrite Hkey. msimpl. rewrite Hc, Howner, Hst, !strictEqStr_refl. reflexivity.
Qed.

(** [submitPayment] once the token is there and the gateway has answered
    with an object. *)
Lemma submitPayment_answered
    (env : Env) (request : InitiatePaymentRequest.t) (userId key : string) (c : Doc)
    (w w1 : World) (accessToken : string) (fields : Obj) :
  getAccessToken env w = (Ok accessToken, w1) ->
  gateway env (paymentRequestOf env request c accessToken) = Ok (VObj fields) ->
  submitPayment env request userId key c w =
  (if truthy (vendorErrorCode fields) && negb (isSuccessCode (vendorErrorCode fields))
   then throw (newError (vendorErrorText fields))
   else
     transactionRef <- docRef env (VStr (uuidv4 env)) ;;
     docSet env MtnTransactions transactionRef
       (transactionRowOf env request userId fields) ;;
     docUpdate env Campaigns key (campaignLinkOf env fields) ;;
     ret (paymentStarted env fields))
    (withSent (paymentRequestOf env request c accessToken) w1).
Proof.
  intros Htok Hanswer. unfold submitPayment.
  unfold bind at 1. rewrite Htok.
  unfold bind at 1, axiosPost, bind at 1, record. msimpl.
  fold (paymentRequestOf env request c accessToken). rewrite Hanswer.
  unfold bind at 1. msimpl. unfold bind at 1. msimpl.
  fold (vendorErrorCode fields).
  destruct (truthy (vendorErrorCode fields) && negb (isSuccessCode (vendorErrorCode fields)));
    reflexivity.
Qed.

Lemma transactionRowOf_defined (env : Env) (request : InitiatePaymentRequest.t)
    (userId : string) (fields : Obj) :
  Forall (fun p => defined p.2 = true) (transactionRowOf env request userId fields).
Proof. unfold transactionRowOf, ynoteMessageIdOf. all_defined. Qed.

Lemma campaignLinkOf_defined (env : Env) (fields : Obj) :
  Forall (fun p => defined p.2 = true) (campaignLinkOf env fields).
Proof. unfold campaignLinkOf, ynoteMessageIdOf. all_defined. Qed.

(** The two ways [submitPayment] ends on an existing campaign: it throws and
    the collections are as they were, or it returns having stored the
    transaction under the fresh reference id and linked the campaign. *)
Lemma submitPayment_outcome
    (env : Env) (request : InitiatePaymentRequest.t) (userId key : string) (c : Doc)
    (w : World) :
  campaigns w !! key = Some c ->
  (exists e w', submitPayment env request userId key c w = (Err e, w') /\ sameStore w w') \/
  (exists r w' row link tkey,
      submitPayment env request userId key c w = (Ok r, w') /\
      PaymentResponse.status r = PENDING /\
      PaymentResponse.referenceId r = field row "ynoteMessageId" /\
      documentKey (uuidv4 env) = Some tkey /\
      mtn_transactions w' = <[tkey := row]> (mtn_transactions w) /\
      field row "referenceId" = VStr (uuidv4 env) /\
      field row "campaignId" = VStr (InitiatePaymentRequest.campaignId request) /\
      field row "userId" = VStr userId /\
      field row "amount" = VNum (InitiatePaymentRequest.amount request) /\
      field row "phoneNumber" =
        VStr (formatPhoneNumber (InitiatePaymentRequest.phoneNumber request)) /\
      campaigns w' = <[key := link ∪ c]> (campaigns w) /\
      link !! "status" = None /\ link !! "userId" = None /\
      link !! "mtnReferenceId" = Some (VStr (uuidv4 env)) /\
      link !! "mtnPaymentStatus" = Some (VStr "PENDING") /\
      notifications w' = notifications w).
Proof.
  intros Hc.
  pattern (submitPayment env request userId key c w).
  match goal with |- ?P _ => set (outcome := P) end.
  unfold submitPayment. unfold bind at 1.
  pose proof (getAccessToken_sameStore env w) as Hsame.
  destruct (getAccessToken env w) as [[tok|e] w1]; simpl in Hsame;
    [|left; now exists e, w1].
  destruct Hsame as [Hcs [Hts Hns]].
  unfold bind at 1, axiosPost, bind at 1, record. msimpl.
  match goal with |- context [gateway env ?req] => destruct (gateway env req) as [answer|e] end;
    [|left; eexists _, _; split; [reflexivity|]; repeat split; assumption].
  destruct answer;
    try (left; eexists _, _; split; [reflexivity|]; repeat split; assumption);
    unfold bind at 1; msimpl; unfold bind at 1; msimpl;
    match goal with
    | |- context [if ?b then _ else _] =>
        destruct b;
          [left; unfold bind, throw; eexists _, _; split; [reflexivity|];
           repeat split; assumption|]
    end;
    unfold bind at 1; cbn [ret]; unfold bind at 1; cbn [docRef];
    (destruct (documentKey (uuidv4 env)) as [tkey|] eqn:Htkey;
     [|left; unfold throw; eexists _, _; split; [reflexivity|];
       repeat split; assumption]);
    right; unfold bind, ret;
    rewrite docSet_defined by all_defined; cbv beta iota;
    rewrite (docUpdate_present _ _ _ _ c)
      by (all_defined || (cbn [collection campaigns setCollection]; rewrite Hcs; exact Hc));
    cbv beta iota;
    eexists _, _, _, _, tkey; (split; [reflexivity|]);
    cbn [campaigns mtn_transactions notifications setCollection collection];
    rewrite Hts, Hns, Hcs; repeat split; reflexivity.
Qed.

(** The two ways [initiatePayment] ends: it throws and the collections are as
    they were, or every guard passed and [submitPayment] returned. *)
Lemma initiatePayment_outcome
    (env : Env) (request : InitiatePaymentRequest.t) (userId : string) (w : World) :
  (exists e w', initiatePayment env request userId w = (Err e, w') /\ sameStore w w') \/
  (exists key c r w',
      initiatePayment env request userId w = (Ok r, w') /\
      submitPayment env request userId key c w = (Ok r, w') /\
      credentialsConfigured env = true /\
      requestAcceptable request /\
      documentKey (InitiatePaymentRequest.campaignId request) = Some key /\
      campaigns w !! key = Some c /\
      field c "userId" = VStr userId /\
      field c "status" = VStr "pending_payment").
Proof.
  pattern (initiatePayment env request userId w).
  match goal with |- ?P _ => set (outcome := P) end.
  unfold initiatePayment, bind at 1.
  destruct (credentialsConfigured env) eqn:Hcred; cycle 1.
  { destruct (validateCredentials_cases env w) as [Hok | [e He]].
    - exfalso. unfold validateCredentials, credentialsConfigured in *.
      destruct (nonEmpty (clientId env)), (nonEmpty (clientSecret env)),
        (nonEmpty (customerKey env)), (nonEmpty (subscriptionKey env));
        simpl in *; discriminate.
    - rewrite He. left. exists e, w. split; [reflexivity | apply sameStore_refl]. }
  rewrite (validateCredentials_configured env w Hcred).
  destruct (nonEmpty (InitiatePaymentRequest.campaignId request)) eqn:Hcid; msimpl;
    [|left; eexists _, w; split; [reflexivity | apply sameStore_refl]].
  destruct (InitiatePaymentRequest.amount request =? 0) eqn:Hzero; msimpl;
    [left; eexists _, w; split; [reflexivity | apply sameStore_refl]|].
  destruct (nonEmpty (InitiatePaymentRequest.phoneNumber request)) eqn:Hphone0; msimpl;
    [|left; eexists _, w; split; [reflexivity | apply sameStore_refl]].
  destruct (InitiatePaymentRequest.amount request <? 100) eqn:Hmin;
    [left; eexists _, w; split; [reflexivity | apply sameStore_refl]|].
  destruct (isValid (validateMtnPhoneNumber (InitiatePaymentRequest.phoneNumber request)))
    eqn:Hphone; msimpl;
    [|left; eexists _, w; split; [reflexivity | apply sameStore_refl]].
  destruct (documentKey (InitiatePaymentRequest.campaignId request)) as [key|] eqn:Hkey;
    msimpl; [|left; eexists _, w; split; [reflexivity | apply sameStore_refl]].
  destruct (campaigns w !! key) as [c|] eqn:Hc;
    [|left; eexists _, w; split; [reflexivity | apply sameStore_refl]].
  destruct (strictEqStr (field c "userId") userId) eqn:Howner; msimpl;
    [|left; eexists _, w; split; [reflexivity | apply sameStore_refl]].
  destruct (strictEqStr (field c "status") "pending_payment") eqn:Hst; msimpl;
    [|left; eexists _, w; split; [reflexivity | apply sameStore_refl]].
  rewrite tryCatch_rethrow.
  destruct (submitPayment_outcome env request userId key c w Hc)
    as [[e [w' [Hrun Hsame]]] | [r [w' [row [link [tkey [Hrun _]]]]]]]; rewrite Hrun.
  - left. now exists e, w'.
  - right. exists key, c, r, w'. apply strictEqStr_true in Howner, Hst.
    apply Z.ltb_ge in Hmin. repeat split; assumption.
Qed.

(** X6: [initiatePayment] is all or nothing on the collections: when it
    throws, for whatever reason (a guard, the token, the gateway, a vendor
    error code), no campaign, transaction or notification has changed. *)
Theorem initiatePayment_failure_writes_nothing
    (env : Env) (request : InitiatePaymentRequest.t) (userId : string)
    (w w' : World) (e : Error) :
  initiatePayment env request userId w = (Err e, w') ->
  campaigns w' = campaigns w /\
  mtn_transactions w' = mtn_transactions w /\
  notifications w' = notifications w.
Proof.
  intros Hrun.
  destruct (initiatePayment_outcome env request userId w)
    as [[e0 [w0 [Hrun0 Hsame]]] | [key [c [r [w0 [Hrun0 _]]]]]];
    rewrite Hrun in Hrun0; [|discriminate].
  injection Hrun0 as _ <-. exact Hsame.
Qed.

Lemma initiatePayment_failure_writes_nothing_witness :
  let w' := snd (initiatePayment Cases.envRefused Sample.paymentRequest "user-1"
                   (Sample.world "pending_payment")) in
  campaigns w' = campaigns (Sample.world "pending_payment") /\
  mtn_transactions w' = mtn_transactions (Sample.world "pending_payment") /\
  notifications w' = notifications (Sample.world "pending_payment").
Proof.
  apply (initiatePayment_failure_writes_nothing Cases.envRefused Sample.paymentRequest
           "user-1" (Sample.world "pending_payment") _
           (newError (vendorErrorText Cases.vendorError))).
  vm_compute. reflexivity.
Defined.

(** X7: when [initiatePayment] returns, the campaign id names a campaign
    that the caller owns and that was and still is [pending_payment]; the
    transaction is stored under the document the fresh reference id names,
    with the campaign id, the caller, the amount and the normalised phone
    number; the campaign
    carries that reference id and the payment status PENDING; no notification
    is added. *)
Theorem initiatePayment_success_postcondition
    (env : Env) (request : InitiatePaymentRequest.t) (userId : string)
    (w w' : World) (r : PaymentResponse.t) :
  initiatePayment env request userId w = (Ok r, w') ->
  let cid := InitiatePaymentRequest.campaignId request in
  PaymentResponse.status r = PENDING /\
  (exists key c c',
      documentKey cid = Some key /\
      campaigns w !! key = Some c /\
      field c "userId" = VStr userId /\
      field c "status" = VStr "pending_payment" /\
      campaigns w' = <[key := c']> (campaigns w) /\
      field c' "status" = VStr "pending_payment" /\
      field c' "userId" = VStr userId /\
      field c' "mtnReferenceId" = VStr (uuidv4 env) /\
      field c' "mtnPaymentStatus" = VStr "PENDING") /\
  (exists tkey row,
      documentKey (uuidv4 env) = Some tkey /\
      mtn_transactions w' = <[tkey := row]> (mtn_transactions w) /\
      field row "campaignId" = VStr cid /\
      field row "userId" = VStr userId /\
      field row "amount" = VNum (InitiatePaymentRequest.amount request) /\
      field row "phoneNumber" =
        VStr (formatPhoneNumber (InitiatePaymentRequest.phoneNumber request)) /\
      field row "ynoteMessageId" = PaymentResponse.referenceId r) /\
  notifications w' = notifications w.
Proof.
  intros Hrun cid.
  destruct (initiatePayment_outcome env request userId w)
    as [[e0 [w0 [Hrun0 _]]]
       | [key [c [r0 [w0 [Hrun0 [Hsub [_ [_ [Hkey [Hc [Howner Hst]]]]]]]]]]]];
    rewrite Hrun in Hrun0; [discriminate|].
  injection Hrun0 as <- <-.
  destruct (submitPayment_outcome env request userId key c w Hc)
    as [[e [w1 [Hrun1 _]]] | [r1 [w1 [row [link [tkey Hout]]]]]];
    [rewrite Hsub in Hrun1; discriminate|].
  destruct Hout as [Hrun1 [Hstatus [Hid [Htkey [Hts [_ [Hrc [Hru [Hra [Hrp
                   [Hcs [Hls [Hlu [Hlr [Hlp Hns]]]]]]]]]]]]]]].
  rewrite Hsub in Hrun1. injection Hrun1 as <- <-.
  split; [exact Hstatus|]. split; [|split; [|exact Hns]].
  - exists key, c, (link ∪ c). repeat split; try assumption.
    + now rewrite (field_update_old _ _ _ Hls).
    + now rewrite (field_update_old _ _ _ Hlu).
    + now apply field_update_new.
    + now apply field_update_new.
  - exists tkey, row. repeat split; try assumption. now symmetry.
Qed.

Lemma initiatePayment_success_postcondition_witness :
  let w' := snd (initiatePayment Cases.envAccepted Sample.paymentRequest "user-1"
                   (Sample.world "pending_payment")) in
  (exists row,
      mtn_transactions w' = <["ref-2" := row]> {[ "ref-1" := Sample.transaction ]} /\
      field row "campaignId" = VStr "camp-1" /\
      field row "ynoteMessageId" = VStr "msg-9") /\
  notifications w' = [].
Proof.
  destruct (initiatePayment_success_postcondition Cases.envAccepted Sample.paymentRequest
              "user-1" (Sample.world "pending_payment")
              (snd (initiatePayment Cases.envAccepted Sample.paymentRequest "user-1"
                      (Sample.world "pending_payment")))
              (paymentStarted Cases.envAccepted Cases.vendorAccepted))
    as (_ & _ & (tkey & row & Htkey & Hrow & Hcid & _ & _ & _ & Hmsg) & Hnotes).
  - vm_compute. reflexivity.
  - injection Htkey as <-.
    split; [|exact Hnotes]. exists row. split; [exact Hrow|]. split; [exact Hcid|exact Hmsg].
Defined.

(** X8: with the guards passed, the token there, a fresh reference id that
    names a document (as a uuid does) and the gateway answering an object
    whose error code is absent (or falsy) or one of 200, 201, "200", "201",
    [initiatePayment] returns PENDING with the vendor's message id (the fresh
    reference id without one), having sent one payment request for the
    normalised phone number. *)
Theorem initiatePayment_accepts_success_codes
    (env : Env) (request : InitiatePaymentRequest.t) (userId key tkey : string)
    (w w1 : World) (c : Doc) (accessToken : string) (fields : Obj) :
  credentialsConfigured env = true ->
  requestAcceptable request ->
  documentKey (InitiatePaymentRequest.campaignId request) = Some key ->
  documentKey (uuidv4 env) = Some tkey ->
  campaigns w !! key = Some c ->
  field c "userId" = VStr userId ->
  field c "status" = VStr "pending_payment" ->
  getAccessToken env w = (Ok accessToken, w1) ->
  gateway env (paymentRequestOf env request c accessToken) = Ok (VObj fields) ->
  truthy (vendorErrorCode fields) = false \/ In (vendorErrorCode fields) successCodes ->
  exists r w',
    initiatePayment env request userId w = (Ok r, w') /\
    PaymentResponse.success r = true /\
    PaymentResponse.status r = PENDING /\
    PaymentResponse.referenceId r = ynoteMessageIdOf env fields /\
    sent w' = paymentRequestOf env request c accessToken :: sent w1 /\
    exists row,
      mtn_transactions w' !! tkey = Some row /\
      field row "status" = vor (field fields "status") (VStr "PENDING") /\
      field row "ynoteResponse" = VObj fields.
Proof.
  intros Hcred Hreq Hkey Htkey Hc Howner Hst Htok Hanswer Hcode.
  rewrite (initiatePayment_guards_pass env request userId key w c) by assumption.
  rewrite tryCatch_rethrow.
  rewrite (submitPayment_answered env request userId key c w w1 accessToken fields)
    by assumption.
  replace (truthy (vendorErrorCode fields) && negb (isSuccessCode (vendorErrorCode fields)))
    with false.
  2:{ destruct Hcode as [-> | Hin]; [reflexivity|].
      apply isSuccessCode_In in Hin. rewrite Hin. now rewrite andb_false_r. }
  pose proof (getAccessToken_sameStore env w) as [Hcs _].
  rewrite Htok in Hcs. simpl in Hcs.
  unfold bind, ret. rewrite (docRef_key _ _ _ _ Htkey).
  rewrite docSet_defined by apply transactionRowOf_defined. cbv beta iota.
  rewrite (docUpdate_present _ _ _ _ c)
    by (apply campaignLinkOf_defined
        || (cbn [collection campaigns setCollection withSent]; rewrite Hcs; exact Hc)).
  cbv beta iota.
  eexists _, _. split; [reflexivity|].
  split; [reflexivity|]. split; [reflexivity|]. split; [reflexivity|].
  split; [reflexivity|].
  exists (list_to_map (transactionRowOf env request userId fields)).
  cbn [mtn_transactions setCollection withSent collection].
  split; [apply lookup_insert_eq|]. split; reflexivity.
Qed.

Lemma initiatePayment_accepts_success_codes_witness :
  exists r w',
    initiatePayment Cases.envAccepted Sample.paymentRequest "user-1"
      (Sample.world "pending_payment") = (Ok r, w') /\
    PaymentResponse.status r = PENDING /\
    PaymentResponse.referenceId r = VStr "msg-9".
Proof.
  destruct (initiatePayment_accepts_success_codes Cases.envAccepted Sample.paymentRequest
              "user-1" "camp-1" "ref-2" (Sample.world "pending_payment")
              (snd (getAccessToken Cases.envAccepted (Sample.world "pending_payment")))
              (Sample.campaign "pending_payment") "token-1" Cases.vendorAccepted)
    as (r & w' & Hrun & _ & Hst & Hid & _).
  - reflexivity.
  - split; [reflexivity|]. split; [vm_compute; discriminate|vm_compute; reflexivity].
  - reflexivity.
  - reflexivity.
  - reflexivity.
  - reflexivity.
  - reflexivity.
  - vm_compute. reflexivity.
  - reflexivity.
  - right. vm_compute. left. reflexivity.
  - exists r, w'. split; [exact Hrun|]. split; [exact Hst|exact Hid].
Defined.




(** X10: the id [initiatePayment] hands to its caller is the vendor's message
    id, while the transaction is stored under the fresh reference id: when
    the two name different documents, no transaction is created under the
    one the returned id names, and the row under the fresh id records the
    returned id as [ynoteMessageId]. *)
Theorem initiatePayment_returned_id_is_not_the_key
    (env : Env) (request : InitiatePaymentRequest.t) (userId : string)
    (w w' : World) (r : PaymentResponse.t) (m mkey tkey : string) :
  initiatePayment env request userId w = (Ok r, w') ->
  PaymentResponse.referenceId r = VStr m ->
  documentKey m = Some mkey ->
  documentKey (uuidv4 env) = Some tkey ->
  mkey <> tkey ->
  mtn_transactions w' !! mkey = mtn_transactions w !! mkey /\
  exists row,
    mtn_transactions w' !! tkey = Some row /\
    field row "ynoteMessageId" = VStr m.
Proof.
  intros Hrun Hid Hmkey Htkey Hne.
  destruct (initiatePayment_outcome env request userId w)
    as [[e0 [w0 [Hrun0 _]]] | [key [c [r0 [w0 [Hrun0 [Hsub [_ [_ [_ [Hc _]]]]]]]]]]];
    rewrite Hrun in Hrun0; [discriminate|].
  injection Hrun0 as <- <-.
  destruct (submitPayment_outcome env request userId key c w Hc)
    as [[e [w1 [Hrun1 _]]]
       | [r1 [w1 [row [link [tkey' [Hrun1 [_ [Hrid [Htkey' [Hts _]]]]]]]]]]];
    rewrite Hsub in Hrun1; [discriminate|].
  injection Hrun1 as <- <-. rewrite Htkey in Htkey'. injection Htkey' as <-.
  rewrite Hts. split.
  - apply lookup_insert_ne. congruence.
  - exists row. split; [apply lookup_insert_eq|]. now rewrite <- Hrid.
Qed.

Lemma initiatePayment_returned_id_is_not_the_key_witness :
  let w' := snd (initiatePayment Cases.envAccepted Sample.paymentRequest "user-1"
                   (Sample.world "pending_payment")) in
  mtn_transactions w' !! "msg-9" = None /\
  exists row,
    mtn_transactions w' !! "ref-2" = Some row /\
    field row "ynoteMessageId" = VStr "msg-9".
Proof.
  apply (initiatePayment_returned_id_is_not_the_key Cases.envAccepted
           Sample.paymentRequest "user-1" (Sample.world "pending_payment") _
           (paymentStarted Cases.envAccepted Cases.vendorAccepted) "msg-9" "msg-9"
           "ref-2").
  - vm_compute. reflexivity.
  - reflexivity.
  - reflexivity.
  - reflexivity.
  - discriminate.
Defined.

(** ** The poll: failures, documents, messages *)

(** The part of the poll after the answer, when it does not reach the
    campaign: it throws with nothing written (the reference id is no
    document path), or it returns. *)
Lemma recordPaymentStatus_quiet
    (env : Env) (rid : string) (campaignId userId : option string) (answer : Value)
    (n : NormalizedYnoteStatus.t) (w : World) :
  campaignId = None \/ isSuccessful (NormalizedYnoteStatus.status n) = false ->
  defined answer = true ->
  (exists e, recordPaymentStatus env rid campaignId userId answer n w = (Err e, w)) \/
  (exists r w', recordPaymentStatus env rid campaignId userId answer n w = (Ok r, w')).
Proof.
  intros Hquiet Hdef.
  pattern (recordPaymentStatus env rid campaignId userId answer n w).
  match goal with |- ?P _ => set (outcome := P) end.
  unfold recordPaymentStatus. unfold bind at 1.
  rewrite docRef_referenceKey.
  destruct (referenceKey (VStr rid)) as [key|]; [|left; eauto].
  right. unfold bind at 1. msimpl.
  assert (Hskip :
    match campaignId with
    | Some cid =>
        when (isSuccessful (NormalizedYnoteStatus.status n) && nonEmpty cid)
          (handleSuccessfulPayment env cid rid n userId)
    | None => ret tt
    end = ret tt).
  { destruct Hquiet as [-> | Hno]; [reflexivity|].
    destruct campaignId; [|reflexivity]. now rewrite Hno. }
  rewrite Hskip.
  destruct (mtn_transactions w !! key) as [t|] eqn:Ht.
  - unfold bind at 1.
    rewrite (docUpdate_present _ _ _ _ t) by (all_defined || exact Ht).
    unfold bind. msimpl. eauto.
  - unfold bind. msimpl. eauto.
Qed.

(** X11: a poll that does not reach the campaign is all or nothing on the
    collections: with no campaign id, or with a gateway that never answers a
    status that normalises to SUCCESSFUL, when [checkPaymentStatus] throws
    (no reference id, a reference id that is no document path, credentials,
    token, gateway, an answer that cannot be read), no campaign, transaction
    or notification has changed. *)
Theorem checkPaymentStatus_failure_writes_nothing
    (env : Env) (rid : string) (campaignId userId : option string)
    (w w' : World) (e : Error) :
  campaignId = None \/
  (forall req answer n,
      gateway env req = Ok answer -> normalizeYnoteStatus answer = Ok n ->
      isSuccessful (NormalizedYnoteStatus.status n) = false) ->
  checkPaymentStatus env rid campaignId userId w = (Err e, w') ->
  campaigns w' = campaigns w /\
  mtn_transactions w' = mtn_transactions w /\
  notifications w' = notifications w.
Proof.
  intros Hquiet. unfold checkPaymentStatus.
  destruct (negb (nonEmpty rid)); [intros [= _ <-]; apply sameStore_refl|].
  unfold bind at 1.
  destruct (validateCredentials_cases env w) as [-> | [e0 ->]];
    [|intros [= _ <-]; apply sameStore_refl].
  unfold tryCatch, queryPaymentStatus. unfold bind at 1.
  pose proof (getAccessToken_sameStore env w) as Hsame.
  destruct (getAccessToken env w) as [[tok|e1] w1]; simpl in Hsame;
    [|intros [= _ <-]; exact Hsame].
  unfold bind at 1, axiosPost, bind at 1, record. msimpl.
  match goal with
  | |- context [gateway env ?req] => destruct (gateway env req) as [answer|e1] eqn:Hanswer
  end; [|intros [= _ <-]; exact Hsame].
  msimpl.
  destruct (normalizeYnoteStatus answer) as [n|e1] eqn:Hn;
    [|intros [= _ <-]; exact Hsame].
  match goal with
  | |- context [recordPaymentStatus env rid campaignId userId answer n ?w2] =>
      destruct (recordPaymentStatus_quiet env rid campaignId userId answer n w2)
        as [[e1 ->] | [r [w3 ->]]]
  end.
  - destruct Hquiet as [-> | Hno]; [now left | right; exact (Hno _ _ _ Hanswer Hn)].
  - exact (normalizeYnoteStatus_defined _ _ Hn).
  - intros [= _ <-]. exact Hsame.
  - discriminate.
Qed.

Lemma checkPaymentStatus_failure_writes_nothing_witness :
  let w' := snd (checkPaymentStatus Cases.envNoToken "ref-1" None
                   (Some "user-1") (Sample.world "pending_payment")) in
  campaigns w' = campaigns (Sample.world "pending_payment") /\
  mtn_transactions w' = mtn_transactions (Sample.world "pending_payment") /\
  notifications w' = notifications (Sample.world "pending_payment").
Proof.
  apply (checkPaymentStatus_failure_writes_nothing Cases.envNoToken "ref-1"
           None (Some "user-1") (Sample.world "pending_payment") _
           (newError "Erreur d'authentification Y-Note: 401")).
  - left. reflexivity.
  - vm_compute. reflexivity.
Defined.

(** X12 (checkPaymentStatus, l.354-428): a poll whose answer normalises to
    FAILED stores FAILED and the raw answer on the transaction, and does
    nothing else: no campaign field changes and no notification is added.
    The failure notification and the campaign's [mtnPaymentStatus] FAILED
    come from the callback only. *)
Theorem checkPaymentStatus_failed_answer
    (env : Env) (rid key : string) (campaignId userId : option string)
    (w w1 : World) (accessToken : string) (answer : Value) (n : NormalizedYnoteStatus.t)
    (t : Doc) :
  documentKey rid = Some key ->
  credentialsConfigured env = true ->
  getAccessToken env w = (Ok accessToken, w1) ->
  gateway env (statusRequest env rid accessToken) = Ok answer ->
  normalizeYnoteStatus answer = Ok n ->
  NormalizedYnoteStatus.status n = FAILED ->
  mtn_transactions w !! key = Some t ->
  let w' := snd (checkPaymentStatus env rid campaignId userId w) in
  (exists row,
      mtn_transactions w' !! key = Some row /\
      field row "status" = VStr "FAILED" /\
      field row "ynoteStatusResponse" = answer) /\
  campaigns w' = campaigns w /\
  notifications w' = notifications w.
Proof.
  intros Hkey Hcred Htok Hanswer Hn Hfailed Ht w'. subst w'. split.
  - destruct (checkPaymentStatus_updates_row env rid key campaignId userId w w1 accessToken
                answer n t Hkey Hcred Htok Hanswer Hn Ht) as (row & Hrow & Hst & Hraw).
    exists row. rewrite Hfailed in Hst. auto.
  - apply (checkPaymentStatus_not_successful env rid campaignId userId w w1 accessToken
             answer n (documentKey_nonEmpty _ _ Hkey) Hcred Htok Hanswer Hn).
    now rewrite Hfailed.
Qed.

Lemma checkPaymentStatus_failed_answer_witness :
  let w' := snd (checkPaymentStatus Cases.envRejected "ref-1" (Some "camp-1")
                   (Some "user-1") (Sample.world "pending_payment")) in
  (exists row,
      mtn_transactions w' !! "ref-1" = Some row /\
      field row "status" = VStr "FAILED" /\
      field row "ynoteStatusResponse" = Cases.statusRejected) /\
  campaigns w' = campaigns (Sample.world "pending_payment") /\
  notifications w' = [].
Proof.
  apply (checkPaymentStatus_failed_answer Cases.envRejected "ref-1" "ref-1" (Some "camp-1")
           (Some "user-1") (Sample.world "pending_payment")
           (snd (getAccessToken Cases.envRejected (Sample.world "pending_payment")))
           "token-1" Cases.statusRejected
           {| NormalizedYnoteStatus.status := FAILED;
              NormalizedYnoteStatus.amount := VUndef;
              NormalizedYnoteStatus.transactionId := VUndef;
              NormalizedYnoteStatus.reason := VStr "PAYER_LIMIT_REACHED" |}
           Sample.transaction).
  - reflexivity.
  - reflexivity.
  - vm_compute. reflexivity.
  - vm_compute. reflexivity.
  - vm_compute. reflexivity.
  - reflexivity.
  - vm_compute. reflexivity.
Defined.

(** X27 (checkPaymentStatus l.354-428, handleSuccessfulPayment l.433-470):
    the poll is not all or nothing.  For a stored transaction, an answer
    that normalises to SUCCESSFUL and a campaign id that is no document path
    (such as [a/b]), [checkPaymentStatus] throws the error of the store
    client after it has written SUCCESSFUL and the answer to the
    transaction; campaigns and notifications are as they were. *)
Theorem checkPaymentStatus_throws_after_row_update
    (env : Env) (rid key cid : string) (userId : option string)
    (w w1 : World) (accessToken : string) (answer : Value) (n : NormalizedYnoteStatus.t)
    (t : Doc) :
  documentKey rid = Some key ->
  credentialsConfigured env = true ->
  getAccessToken env w = (Ok accessToken, w1) ->
  gateway env (statusRequest env rid accessToken) = Ok answer ->
  normalizeYnoteStatus answer = Ok n ->
  NormalizedYnoteStatus.status n = SUCCESSFUL ->
  mtn_transactions w !! key = Some t ->
  nonEmpty cid = true ->
  documentKey cid = None ->
  exists e w' row,
    checkPaymentStatus env rid (Some cid) userId w = (Err e, w') /\
    message e =
      (let text := storeFaultMessage env (InvalidDocumentPath (VStr cid)) in
       if nonEmpty text then text else "Erreur lors de la vérification du statut") /\
    mtn_transactions w' = <[key := row]> (mtn_transactions w) /\
    field row "status" = VStr "SUCCESSFUL" /\
    field row "ynoteStatusResponse" = answer /\
    campaigns w' = campaigns w /\
    notifications w' = notifications w.
Proof.
  intros Hkey Hcred Htok Hanswer Hn Hst Ht Hcid Hnokey.
  rewrite (checkPaymentStatus_run env rid (Some cid) userId w w1 accessToken answer n)
    by (assumption || exact (documentKey_nonEmpty _ _ Hkey)).
  pose proof (getAccessToken_sameStore env w) as [Hcs [Hts Hns]].
  rewrite Htok in Hcs, Hts, Hns. simpl in Hcs, Hts, Hns.
  pose proof (normalizeYnoteStatus_defined _ _ Hn) as Hdef.
  set (w2 := mkWorld _ _ _ _ _).
  unfold tryCatch, recordPaymentStatus. unfold bind at 1.
  rewrite (docRef_key _ _ _ _ Hkey).
  unfold bind at 1. msimpl. change (mtn_transactions w2) with (mtn_transactions w1).
  rewrite Hts, Ht. unfold bind at 1.
  rewrite (docUpdate_present _ _ _ _ t)
    by (all_defined || (cbn [collection]; change (mtn_transactions w2)
                          with (mtn_transactions w1); now rewrite Hts)).
  rewrite Hst, Hcid. cbn [isSuccessful andb when].
  unfold bind at 1, handleSuccessfulPayment, bind at 1. cbn [docRef].
  rewrite Hnokey. cbn [throw].
  eexists _, _, _. split; [reflexivity|]. split; [reflexivity|].
  cbn [mtn_transactions campaigns notifications setCollection collection w2].
  rewrite Hts. split; [reflexivity|].
  split; [apply field_update_new; reflexivity|].
  split; [apply field_update_new; reflexivity|]. split; assumption.
Qed.

Lemma checkPaymentStatus_throws_after_row_update_witness :
  exists e w' row,
    checkPaymentStatus Sample.env "ref-1" (Some "a/b") (Some "user-1")
      (Sample.world "pending_payment") = (Err e, w') /\
    message e = "Value for argument documentPath is not a valid resource path." /\
    mtn_transactions w' = <["ref-1" := row]> {[ "ref-1" := Sample.transaction ]} /\
    field row "status" = VStr "SUCCESSFUL".
Proof.
  destruct (checkPaymentStatus_throws_after_row_update Sample.env "ref-1" "ref-1" "a/b"
              (Some "user-1") (Sample.world "pending_payment")
              (snd (getAccessToken Sample.env (Sample.world "pending_payment")))
              "token-1" Sample.statusAnswer
              {| NormalizedYnoteStatus.status := SUCCESSFUL;
                 NormalizedYnoteStatus.amount := VNum 5000;
                 NormalizedYnoteStatus.transactionId := VUndef;
                 NormalizedYnoteStatus.reason := VUndef |}
              Sample.transaction)
    as (e & w' & row & Hrun & Hmsg & Hrows & Hstatus & _).
  - reflexivity.
  - reflexivity.
  - vm_compute. reflexivity.
  - reflexivity.
  - vm_compute. reflexivity.
  - reflexivity.
  - reflexivity.
  - reflexivity.
  - reflexivity.
  - exists e, w', row. split; [exact Hrun|]. split; [exact Hmsg|].
    split; [exact Hrows|exact Hstatus].
Defined.

(** ** Status updates keep the documents *)

Section StatusUpdates.
Variable P : World -> Prop.
Hypothesis P_store :
  forall w w',
    campaigns w' = campaigns w ->
    mtn_transactions w' = mtn_transactions w ->
    notifications w' = notifications w ->
    P w -> P w'.
Hypothesis P_update :
  forall env col id fields, preserves P (docUpdate env col id fields).
Hypothesis P_add : forall env data, preserves P (notificationsAdd env data).

Lemma preserves_handleSuccessfulPayment (env : Env) (cid rid : string)
    (st : NormalizedYnoteStatus.t) (uid : option string) :
  preserves P (handleSuccessfulPayment env cid rid st uid).
Proof.
  unfold handleSuccessfulPayment.
  apply preserves_bind; [apply preserves_docRef|]. intros campaignRef.
  apply preserves_bind; [apply preserves_docGet|].
  intros [c|]; [|apply preserves_ret].
  destruct (strictEqStr _ _); [|apply preserves_ret].
  apply preserves_bind; [apply P_update|]. intros _. apply P_add.
Qed.

Lemma preserves_checkPaymentStatus (env : Env) (rid : string)
    (campaignId uid : option string) :
  preserves P (checkPaymentStatus env rid campaignId uid).
Proof.
  unfold checkPaymentStatus.
  destruct (negb (nonEmpty rid)); [apply preserves_throw|].
  apply preserves_bind; [apply preserves_validateCredentials|]. intros _.
  apply preserves_tryCatch; [|intros e; apply preserves_throw].
  unfold queryPaymentStatus, recordPaymentStatus.
  apply preserves_bind; [now apply preserves_getAccessToken|]. intros tok.
  apply preserves_bind; [now apply preserves_axiosPost|]. intros resp.
  apply preserves_bind; [apply preserves_liftR|]. intros n.
  apply preserves_bind; [apply preserves_docRef|]. intros transactionRef.
  apply preserves_bind; [apply preserves_docGet|]. intros td.
  apply preserves_bind.
  { destruct td; [apply P_update | apply preserves_ret]. }
  intros _. apply preserves_bind; [|intros _; apply preserves_ret].
  destruct campaignId as [id|]; [|apply preserves_ret].
  apply preserves_when, preserves_handleSuccessfulPayment.
Qed.

Lemma preserves_settleCampaign (env : Env) (referenceId status fin : Value)
    (t : Doc) :
  preserves P (settleCampaign env referenceId status fin t).
Proof.
  unfold settleCampaign.
  destruct (strictEqStr status "SUCCESSFUL" && _).
  - apply preserves_bind; [apply preserves_docRef|]. intros cid.
    apply preserves_bind; [apply preserves_docGet|].
    intros [c|]; [|apply preserves_ret].
    destruct (strictEqStr _ _); [|apply preserves_ret].
    apply preserves_bind; [apply P_update|]. intros _. apply P_add.
  - destruct (strictEqStr status "FAILED" && _); [|apply preserves_ret].
    apply preserves_bind; [apply P_add|]. intros _.
    apply preserves_bind; [apply preserves_docRef|]. intros cid. apply P_update.
Qed.

Lemma preserves_handleCallback (env : Env) (callbackData : Value) :
  preserves P (handleCallback env callbackData).
Proof.
  unfold handleCallback.
  apply preserves_bind; [apply preserves_liftR|]. intros referenceId1.
  apply preserves_bind; [apply preserves_liftR|]. intros order_id.
  apply preserves_bind; [apply preserves_liftR|]. intros status.
  apply preserves_bind; [apply preserves_liftR|]. intros financialTransactionId.
  destruct (negb _); [apply preserves_throw|].
  apply preserves_bind; [apply preserves_docRef|]. intros tid.
  apply preserves_bind; [apply preserves_docGet|].
  intros [t|]; [|apply preserves_throw].
  apply preserves_bind; [apply P_update|]. intros _.
  apply preserves_settleCampaign.
Qed.
End StatusUpdates.

Lemma sameDocuments_refl (w : World) : sameDocuments w w.
Proof. split; [reflexivity|]. split; [reflexivity|]. now exists []. Qed.

Lemma sameDocuments_store (w0 w w' : World) :
  campaigns w' = campaigns w ->
  mtn_transactions w' = mtn_transactions w ->
  notifications w' = notifications w ->
  sameDocuments w0 w -> sameDocuments w0 w'.
Proof. unfold sameDocuments. intros -> -> ->. tauto. Qed.

Lemma sameDocuments_update (w0 : World) (env : Env) (col : Collection) (id : string)
    (fields : list (string * Value)) :
  preserves (sameDocuments w0) (docUpdate env col id fields).
Proof.
  intros w [Hc [Ht Hn]]. unfold docUpdate.
  destruct (undefinedField fields); [now repeat split|].
  destruct (collection col w !! id) as [old|] eqn:Hold; [|now repeat split].
  destruct col; cbn [collection setCollection snd campaigns mtn_transactions
                      notifications] in *;
    (split; [|split]); try assumption; cbn [campaigns mtn_transactions];
    (rewrite dom_insert_lookup_L; [assumption | now rewrite Hold]).
Qed.

Lemma sameDocuments_add (w0 : World) (env : Env) (data : list (string * Value)) :
  preserves (sameDocuments w0) (notificationsAdd env data).
Proof.
  intros w [Hc [Ht [added Hn]]]. unfold notificationsAdd.
  destruct (undefinedField data); [repeat split; try assumption; now exists added|].
  repeat split; try assumption.
  exists (list_to_map data :: added). simpl. now rewrite Hn.
Qed.

(** X13: a poll or a callback, whatever it is given and however it ends,
    creates and deletes no campaign and no transaction (the sets of document
    ids stay the same) and keeps every notification that was there. *)
Theorem status_updates_keep_documents (env : Env) (w : World) :
  (forall rid campaignId userId,
      sameDocuments w (snd (checkPaymentStatus env rid campaignId userId w))) /\
  (forall callbackData,
      sameDocuments w (snd (handleCallback env callbackData w))).
Proof.
  split.
  - intros rid campaignId userId.
    apply (preserves_checkPaymentStatus (sameDocuments w)
             (sameDocuments_store w)
             (sameDocuments_update w) (sameDocuments_add w)).
    apply sameDocuments_refl.
  - intros callbackData.
    apply (preserves_handleCallback (sameDocuments w)
             (sameDocuments_update w) (sameDocuments_add w)).
    apply sameDocuments_refl.
Qed.

(** ** The callback, branch by branch *)

(** X14: a callback with the literal status FAILED and a financial
    transaction id, for a stored transaction (with its user) of an existing
    campaign, notifies the failure and sets the campaign's
    [mtnPaymentStatus] to FAILED whatever the campaign's lifecycle status is,
    which it leaves as it was: this branch has no guard. *)
Theorem handleCallback_failed_unguarded
    (env : Env) (fields : Obj) (rid key cid ckey : string) (t c : Doc) (w : World) :
  vor (field fields "referenceId") (field fields "order_id") = VStr rid ->
  documentKey rid = Some key ->
  field fields "status" = VStr "FAILED" ->
  defined (field fields "financialTransactionId") = true ->
  mtn_transactions w !! key = Some t ->
  field t "campaignId" = VStr cid ->
  documentKey cid = Some ckey ->
  defined (field t "userId") = true ->
  campaigns w !! ckey = Some c ->
  exists w' note c',
    handleCallback env (VObj fields) w = (Ok tt, w') /\
    notifications w' = note :: notifications w /\
    field note "type" = VStr "payment_failed" /\
    field note "recipientId" = field t "userId" /\
    campaigns w' = <[ckey := c']> (campaigns w) /\
    field c' "mtnPaymentStatus" = VStr "FAILED" /\
    field c' "status" = field c "status".
Proof.
  intros Href Hkey Hs Hfin Ht Hcid Hckey Huser Hc.
  rewrite (handleCallback_run env fields rid key t w Href Hkey Ht);
    [|rewrite Hs; reflexivity|exact Hfin].
  cbv zeta. unfold settleCampaign.
  rewrite Hs, Hcid, nonEmpty_truthy, (documentKey_nonEmpty _ _ Hckey), strictEqStr_refl.
  change (strictEqStr (VStr "FAILED") "SUCCESSFUL") with false. msimpl.
  unfold bind. rewrite notificationsAdd_defined by all_defined.
  rewrite Hckey. msimpl.
  rewrite (docUpdate_present _ _ _ _ c) by (all_defined || exact Hc).
  eexists _, _, _. split; [reflexivity|].
  cbn [campaigns notifications setCollection collection].
  split; [reflexivity|]. split; [reflexivity|]. split; [reflexivity|].
  split; [reflexivity|].
  split; [apply field_update_new | apply field_update_old]; reflexivity.
Qed.

Lemma handleCallback_failed_unguarded_witness :
  exists w' note c',
    handleCallback Sample.env (Sample.callback "FAILED") (Sample.world "scheduled")
    = (Ok tt, w') /\
    notifications w' = [note] /\
    field note "type" = VStr "payment_failed" /\
    campaigns w' = <["camp-1" := c']> (campaigns (Sample.world "scheduled")) /\
    field c' "mtnPaymentStatus" = VStr "FAILED" /\
    field c' "status" = VStr "scheduled".
Proof.
  destruct (handleCallback_failed_unguarded Sample.env (Sample.callbackFields "FAILED")
              "ref-1" "ref-1" "camp-1" "camp-1" Sample.transaction
              (Sample.campaign "scheduled") (Sample.world "scheduled"))
    as (w' & note & c' & Hrun & Hnotes & Htype & _ & Hc & Hpay & Hst).
  - reflexivity.
  - reflexivity.
  - reflexivity.
  - reflexivity.
  - reflexivity.
  - reflexivity.
  - reflexivity.
  - reflexivity.
  - reflexivity.
  - exists w', note, c'. split; [exact Hrun|]. split; [exact Hnotes|].
    split; [exact Htype|]. split; [exact Hc|]. split; [exact Hpay|exact Hst].
Defined.

(** X15: handleCallback is not all or nothing: when the campaign of the
    transaction is gone, a FAILED callback (with a financial transaction id,
    for a transaction with its user) has already stored the status and the
    payload on the transaction and added the failure notification when the
    update of the campaign fails in the store. *)
Theorem handleCallback_failed_campaign_gone
    (env : Env) (fields : Obj) (rid key cid ckey : string) (t : Doc) (w : World) :
  vor (field fields "referenceId") (field fields "order_id") = VStr rid ->
  documentKey rid = Some key ->
  field fields "status" = VStr "FAILED" ->
  defined (field fields "financialTransactionId") = true ->
  mtn_transactions w !! key = Some t ->
  field t "campaignId" = VStr cid ->
  documentKey cid = Some ckey ->
  defined (field t "userId") = true ->
  campaigns w !! ckey = None ->
  exists w' note row,
    handleCallback env (VObj fields) w =
      (Err (newError (storeFaultMessage env (NoDocumentToUpdate "campaigns" ckey))), w') /\
    mtn_transactions w' = <[key := row]> (mtn_transactions w) /\
    field row "status" = VStr "FAILED" /\
    field row "mtnCallbackData" = VObj fields /\
    notifications w' = note :: notifications w /\
    field note "type" = VStr "payment_failed" /\
    campaigns w' = campaigns w.
Proof.
  intros Href Hkey Hs Hfin Ht Hcid Hckey Huser Hc.
  rewrite (handleCallback_run env fields rid key t w Href Hkey Ht);
    [|rewrite Hs; reflexivity|exact Hfin].
  cbv zeta. unfold settleCampaign.
  rewrite Hs, Hcid, nonEmpty_truthy, (documentKey_nonEmpty _ _ Hckey), strictEqStr_refl.
  change (strictEqStr (VStr "FAILED") "SUCCESSFUL") with false. msimpl.
  unfold bind. rewrite notificationsAdd_defined by all_defined.
  rewrite Hckey. msimpl.
  rewrite docUpdate_absent by (all_defined || exact Hc).
  eexists _, _, _. split; [reflexivity|].
  cbn [campaigns mtn_transactions notifications setCollection collection].
  split; [reflexivity|].
  split; [apply field_update_new; reflexivity|].
  split; [apply field_update_new; reflexivity|].
  split; [reflexivity|]. split; reflexivity.
Qed.

Lemma handleCallback_failed_campaign_gone_witness :
  exists w' note row,
    handleCallback Sample.env (Sample.callback "FAILED") Sample.worldNoCampaign =
      (Err (newError "5 NOT_FOUND: No document to update: campaigns/camp-1"), w') /\
    mtn_transactions w' = <["ref-1" := row]> (mtn_transactions Sample.worldNoCampaign) /\
    field row "status" = VStr "FAILED" /\
    notifications w' = [note] /\
    field note "type" = VStr "payment_failed".
Proof.
  destruct (handleCallback_failed_campaign_gone Sample.env (Sample.callbackFields "FAILED")
              "ref-1" "ref-1" "camp-1" "camp-1" Sample.transaction Sample.worldNoCampaign)
    as (w' & note & row & Hrun & Hrows & Hst & _ & Hnotes & Htype & _).
  - reflexivity.
  - reflexivity.
  - reflexivity.
  - reflexivity.
  - reflexivity.
  - reflexivity.
  - reflexivity.
  - reflexivity.
  - reflexivity.
  - exists w', note, row. split; [exact Hrun|]. split; [exact Hrows|].
    split; [exact Hst|]. split; [exact Hnotes|exact Htype].
Defined.



(** X17: a callback body (an object) with neither [referenceId] nor
    [order_id] set is refused with "referenceId manquant dans le callback",
    the webhook answers 400 with that message, and nothing is written. *)
Theorem ynoteCallbackRoute_missing_reference
    (env : Env) (fields : Obj) (w : World) :
  truthy (vor (field fields "referenceId") (field fields "order_id")) = false ->
  ynoteCallbackRoute env {| method := "POST"; body := VObj fields |} w =
  ({| statusCode := 400;
      json := VObj (list_to_map
                      [("error", VStr "referenceId manquant dans le callback")]) |},
   w).
Proof.
  intros Href. unfold ynoteCallbackRoute. msimpl.
  rewrite (handleCallback_missing_reference env fields w Href). reflexivity.
Qed.

Lemma ynoteCallbackRoute_missing_reference_witness :
  ynoteCallbackRoute Sample.env {| method := "POST"; body := VObj Cases.statusOnly |}
    (Sample.world "pending_payment") =
  ({| statusCode := 400;
      json := VObj (list_to_map
                      [("error", VStr "referenceId manquant dans le callback")]) |},
   Sample.world "pending_payment").
Proof.
  apply (ynoteCallbackRoute_missing_reference Sample.env Cases.statusOnly
           (Sample.world "pending_payment")).
  reflexivity.
Defined.

(** X28: a callback for a stored transaction that carries no status, or no
    financial transaction id, is refused by the store at the update of the
    transaction: [handleCallback] throws the store's error for the first of
    the two fields that is not set, nothing is written, and the webhook does
    not answer 200. *)
Theorem handleCallback_unset_field_refused
    (env : Env) (fields : Obj) (rid key : string) (t : Doc) (w : World) :
  vor (field fields "referenceId") (field fields "order_id") = VStr rid ->
  documentKey rid = Some key ->
  mtn_transactions w !! key = Some t ->
  defined (field fields "status") && defined (field fields "financialTransactionId")
  = false ->
  let route := ynoteCallbackRoute env {| method := "POST"; body := VObj fields |} w in
  handleCallback env (VObj fields) w =
  (Err (newError
          (storeFaultMessage env
             (UndefinedFieldValue
                (if defined (field fields "status") then "financialTransactionId"
                 else "status")))), w) /\
  snd route = w /\
  statusCode (fst route) <> 200.
Proof.
  intros Href Hkey Ht Hunset route.
  pose proof (handleCallback_unset env fields rid key t w Href Hkey Ht Hunset) as Hrun.
  split; [exact Hrun|].
  subst route. unfold ynoteCallbackRoute. msimpl. rewrite Hrun.
  destruct (Js.includes _ "introuvable"); [split; [reflexivity|discriminate]|].
  destruct (Js.includes _ "manquant"); split; try reflexivity; discriminate.
Qed.

Lemma handleCallback_unset_field_refused_witness :
  let route :=
    ynoteCallbackRoute Sample.env
      {| method := "POST"; body := VObj Cases.referenceOnly |}
      (Sample.world "pending_payment") in
  handleCallback Sample.env (VObj Cases.referenceOnly) (Sample.world "pending_payment") =
  (Err (newError "Cannot use undefined as a Firestore value (found in field status)."),
   Sample.world "pending_payment") /\
  snd route = Sample.world "pending_payment" /\
  statusCode (fst route) <> 200.
Proof.
  apply (handleCallback_unset_field_refused Sample.env Cases.referenceOnly "ref-1" "ref-1"
           Sample.transaction (Sample.world "pending_payment")).
  - reflexivity.
  - reflexivity.
  - reflexivity.
  - reflexivity.
Defined.

(** The world after the callback took a campaign to [scheduled]. *)
Lemma handleCallback_successful_run
    (env : Env) (fields : Obj) (rid key cid ckey : string) (t c : Doc) (w : World) :
  vor (field fields "referenceId") (field fields "order_id") = VStr rid ->
  documentKey rid = Some key ->
  field fields "status" = VStr "SUCCESSFUL" ->
  defined (field fields "financialTransactionId") = true ->
  mtn_transactions w !! key = Some t ->
  field t "campaignId" = VStr cid ->
  documentKey cid = Some ckey ->
  defined (field t "amount") = true ->
  defined (field t "userId") = true ->
  campaigns w !! ckey = Some c ->
  field c "status" = VStr "pending_payment" ->
  exists row c' note,
    handleCallback env (VObj fields) w =
      (Ok tt,
       mkWorld (<[ckey := c']> (campaigns w)) (<[key := row]> (mtn_transactions w))
         (note :: notifications w) (cachedToken w) (sent w)) /\
    field row "campaignId" = VStr cid /\
    field c' "status" = VStr "scheduled" /\
    field c' "paymentAmount" = field t "amount" /\
    field c' "updatedBy" = field t "userId" /\
    field c' "mtnTransactionId" =
      vor (field fields "financialTransactionId") (VStr rid) /\
    field c' "userId" = field c "userId" /\
    field note "type" = VStr "payment_success" /\
    field note "recipientId" = field t "userId" /\
    field note "campaignId" = VStr cid.
Proof.
  intros Href Hkey Hs Hfin Ht Hcid Hckey Hamount Huser Hc Hst.
  rewrite (handleCallback_run env fields rid key t w Href Hkey Ht);
    [|rewrite Hs; reflexivity|exact Hfin].
  cbv zeta. unfold settleCampaign.
  rewrite Hs, strictEqStr_refl.
  assert (Hrow : forall d : Doc, field (d ∪ t) "campaignId" = field t "campaignId" ->
                                 field (d ∪ t) "campaignId" = VStr cid)
    by (intros d ->; exact Hcid).
  rewrite Hcid, nonEmpty_truthy, (documentKey_nonEmpty _ _ Hckey).
  msimpl. rewrite Hckey. msimpl. cbn [campaigns setCollection].
  rewrite Hc, Hst, strictEqStr_refl.
  unfold bind. rewrite (docUpdate_present _ _ _ _ c) by (all_defined || exact Hc).
  rewrite notificationsAdd_defined by all_defined.
  eexists _, _, _. split; [reflexivity|].
  split; [apply Hrow, field_update_old; reflexivity|].
  split; [apply field_update_new; reflexivity|].
  split; [apply field_update_new; reflexivity|].
  split; [apply field_update_new; reflexivity|].
  split; [apply field_update_new; reflexivity|].
  split; [apply field_update_old; reflexivity|].
  split; [reflexivity|]. split; reflexivity.
Qed.

(** X18: a SUCCESSFUL callback (with a financial transaction id, for a
    stored transaction with its amount and user) delivered a second time (at
    any later clock) returns again, and changes no campaign and adds no
    notification: the campaign is scheduled once and its owner is notified
    once. *)
Theorem handleCallback_successful_twice
    (env env' : Env) (fields : Obj) (rid key cid ckey : string) (t c : Doc)
    (w : World) :
  vor (field fields "referenceId") (field fields "order_id") = VStr rid ->
  documentKey rid = Some key ->
  field fields "status" = VStr "SUCCESSFUL" ->
  defined (field fields "financialTransactionId") = true ->
  mtn_transactions w !! key = Some t ->
  field t "campaignId" = VStr cid ->
  documentKey cid = Some ckey ->
  defined (field t "amount") = true ->
  defined (field t "userId") = true ->
  campaigns w !! ckey = Some c ->
  field c "status" = VStr "pending_payment" ->
  let w1 := snd (handleCallback env (VObj fields) w) in
  let w2 := snd (handleCallback env' (VObj fields) w1) in
  fst (handleCallback env' (VObj fields) w1) = Ok tt /\
  (exists note, notifications w1 = note :: notifications w) /\
  campaignStatus w1 ckey = Some (VStr "scheduled") /\
  campaigns w2 = campaigns w1 /\
  notifications w2 = notifications w1.
Proof.
  intros Href Hkey Hs Hfin Ht Hcid Hckey Hamount Huser Hc Hst.
  destruct (handleCallback_successful_run env fields rid key cid ckey t c w)
    as [row [c' [note [Hrun [Hrow [Hsched _]]]]]]; try assumption.
  rewrite Hrun. cbv zeta. simpl snd.
  set (w1 := mkWorld _ _ _ _ _).
  assert (Ht1 : mtn_transactions w1 !! key = Some row) by apply lookup_insert_eq.
  assert (Hc1 : campaigns w1 !! ckey = Some c') by apply lookup_insert_eq.
  rewrite (handleCallback_run env' fields rid key row w1 Href Hkey Ht1);
    [|rewrite Hs; reflexivity|exact Hfin].
  cbv zeta. unfold settleCampaign.
  rewrite Hs, Hrow, strictEqStr_refl, nonEmpty_truthy, (documentKey_nonEmpty _ _ Hckey).
  msimpl. rewrite Hckey. msimpl. cbn [campaigns setCollection].
  fold w1. rewrite Hc1, Hsched.
  change (strictEqStr (VStr "scheduled") "pending_payment") with false.
  split; [reflexivity|]. split; [now exists note|].
  split; [unfold campaignStatus; rewrite Hc1; simpl; now rewrite Hsched|].
  split; reflexivity.
Qed.

Lemma handleCallback_successful_twice_witness :
  let w1 := snd (handleCallback Sample.env (Sample.callback "SUCCESSFUL")
                   (Sample.world "pending_payment")) in
  let w2 := snd (handleCallback Cases.later (Sample.callback "SUCCESSFUL") w1) in
  fst (handleCallback Cases.later (Sample.callback "SUCCESSFUL") w1) = Ok tt /\
  (exists note, notifications w1 = [note]) /\
  campaignStatus w1 "camp-1" = Some (VStr "scheduled") /\
  campaigns w2 = campaigns w1 /\
  notifications w2 = notifications w1.
Proof.
  apply (handleCallback_successful_twice Sample.env Cases.later
           (Sample.callbackFields "SUCCESSFUL") "ref-1" "ref-1" "camp-1" "camp-1"
           Sample.transaction (Sample.campaign "pending_payment")
           (Sample.world "pending_payment")).
  - reflexivity.
  - reflexivity.
  - reflexivity.
  - reflexivity.
  - reflexivity.
  - reflexivity.
  - reflexivity.
  - reflexivity.
  - reflexivity.
  - reflexivity.
  - reflexivity.
Defined.

(** ** The test route, and what a successful callback records *)

(** X19: outside production, the test route turns a body with a reference id
    and no status into a SUCCESSFUL callback: for a stored transaction (with
    its amount and user) of a campaign in [pending_payment] it answers 200,
    the campaign is [scheduled] and its owner is notified, with no payment
    involved. *)
Theorem testRoute_defaults_to_successful
    (env : Env) (fields : Obj) (rid key cid ckey : string) (t c : Doc) (w : World) :
  field fields "referenceId" = VStr rid ->
  documentKey rid = Some key ->
  truthy (field fields "status") = false ->
  mtn_transactions w !! key = Some t ->
  field t "campaignId" = VStr cid ->
  documentKey cid = Some ckey ->
  defined (field t "amount") = true ->
  defined (field t "userId") = true ->
  campaigns w !! ckey = Some c ->
  field c "status" = VStr "pending_payment" ->
  let out := testRoute false env (VObj fields) w in
  statusCode (fst out) = 200 /\
  campaignStatus (snd out) ckey = Some (VStr "scheduled") /\
  exists note,
    notifications (snd out) = note :: notifications w /\
    field note "type" = VStr "payment_success".
Proof.
  intros Href Hkey Hstatus Ht Hcid Hckey Hamount Huser Hc Hst.
  pose proof (documentKey_nonEmpty _ _ Hkey) as Hrid.
  unfold testRoute. cbn [getPropOpt]. rewrite Href, nonEmpty_truthy, Hrid.
  cbn [negb]. unfold testCallbackData.
  set (data := list_to_map _ : Obj).
  assert (Hdata_ref : vor (field data "referenceId") (field data "order_id") = VStr rid).
  { change (field data "referenceId") with (VStr rid).
    apply vor_truthy. now rewrite nonEmpty_truthy. }
  assert (Hdata_status : field data "status" = VStr "SUCCESSFUL").
  { change (field data "status") with (vor (field fields "status") (VStr "SUCCESSFUL")).
    unfold vor. now rewrite Hstatus. }
  assert (Hdata_fin : defined (field data "financialTransactionId") = true)
    by reflexivity.
  destruct (handleCallback_successful_run env data rid key cid ckey t c w)
    as [row [c' [note [Hrun [_ [Hsched [_ [_ [_ [_ [Htype _]]]]]]]]]]]; try assumption.
  rewrite Hrun. cbv zeta. cbn [fst snd statusCode].
  split; [reflexivity|]. split.
  - unfold campaignStatus. cbn [campaigns]. rewrite lookup_insert_eq. simpl.
    now rewrite Hsched.
  - exists note. split; [reflexivity | exact Htype].
Qed.

Lemma testRoute_defaults_to_successful_witness :
  let out := testRoute false Sample.env (VObj Cases.referenceOnly)
               (Sample.world "pending_payment") in
  statusCode (fst out) = 200 /\
  campaignStatus (snd out) "camp-1" = Some (VStr "scheduled") /\
  exists note,
    notifications (snd out) = [note] /\
    field note "type" = VStr "payment_success".
Proof.
  apply (testRoute_defaults_to_successful Sample.env Cases.referenceOnly "ref-1" "ref-1"
           "camp-1" "camp-1" Sample.transaction (Sample.campaign "pending_payment")
           (Sample.world "pending_payment")).
  - reflexivity.
  - reflexivity.
  - reflexivity.
  - reflexivity.
  - reflexivity.
  - reflexivity.
  - reflexivity.
  - reflexivity.
  - reflexivity.
  - reflexivity.
Defined.

(** X20: a SUCCESSFUL callback with a financial transaction id, for a stored
    transaction with its amount and user, that takes a campaign to
    [scheduled] records as [paymentAmount] the amount of the stored
    transaction, not an amount of the callback, as [updatedBy] the user of
    the transaction, and as [mtnTransactionId] the financial transaction id
    of the callback, the reference id when that one is empty; it notifies the
    user of the transaction. *)
Theorem handleCallback_successful_records
    (env : Env) (fields : Obj) (rid key cid ckey : string) (t c : Doc) (w : World) :
  vor (field fields "referenceId") (field fields "order_id") = VStr rid ->
  documentKey rid = Some key ->
  field fields "status" = VStr "SUCCESSFUL" ->
  defined (field fields "financialTransactionId") = true ->
  mtn_transactions w !! key = Some t ->
  field t "campaignId" = VStr cid ->
  documentKey cid = Some ckey ->
  defined (field t "amount") = true ->
  defined (field t "userId") = true ->
  campaigns w !! ckey = Some c ->
  field c "status" = VStr "pending_payment" ->
  exists c' note,
    campaigns (snd (handleCallback env (VObj fields) w)) = <[ckey := c']> (campaigns w) /\
    notifications (snd (handleCallback env (VObj fields) w)) = note :: notifications w /\
    field c' "status" = VStr "scheduled" /\
    field c' "paymentAmount" = field t "amount" /\
    field c' "updatedBy" = field t "userId" /\
    field c' "mtnTransactionId" =
      vor (field fields "financialTransactionId") (VStr rid) /\
    field c' "userId" = field c "userId" /\
    field note "recipientId" = field t "userId" /\
    field note "campaignId" = VStr cid.
Proof.
  intros Href Hkey Hs Hfin Ht Hcid Hckey Hamount Huser Hc Hst.
  destruct (handleCallback_successful_run env fields rid key cid ckey t c w)
    as (row & c' & note & Hrun & _ & Hsched & Hpaid & Hby & Hid & Howner & _ & Hto & Hfor);
    try assumption.
  rewrite Hrun. exists c', note. cbn [snd campaigns notifications].
  repeat split; assumption.
Qed.

Lemma handleCallback_successful_records_witness :
  exists c' note,
    campaigns (snd (handleCallback Sample.env (Sample.callback "SUCCESSFUL")
                      (Sample.world "pending_payment")))
    = <["camp-1" := c']> (campaigns (Sample.world "pending_payment")) /\
    field c' "paymentAmount" = VNum 5000 /\
    field c' "mtnTransactionId" = VStr "fin-1" /\
    field note "recipientId" = VStr "user-1".
Proof.
  destruct (handleCallback_successful_records Sample.env
              (Sample.callbackFields "SUCCESSFUL") "ref-1" "ref-1" "camp-1" "camp-1"
              Sample.transaction (Sample.campaign "pending_payment")
              (Sample.world "pending_payment"))
    as (c' & note & Hc & _ & _ & Hamount & _ & Hfin & _ & Hto & _).
  - reflexivity.
  - reflexivity.
  - reflexivity.
  - reflexivity.
  - reflexivity.
  - reflexivity.
  - reflexivity.
  - reflexivity.
  - reflexivity.
  - reflexivity.
  - reflexivity.
  - exists c', note. split; [exact Hc|]. split; [exact Hamount|].
    split; [exact Hfin|exact Hto].
Defined.

(** ** Amounts: printing an integer and reading it back *)












(** ** The payment route *)

(** What [initiatePayment] answers at each of its three campaign guards. *)
Lemma initiatePayment_campaign_guards
    (env : Env) (request : InitiatePaymentRequest.t) (userId : string) (w : World) :
  credentialsConfigured env = true ->
  requestAcceptable request ->
  initiatePayment env request userId w =
  match documentKey (InitiatePaymentRequest.campaignId request) with
  | None =>
      (Err (newError
              (storeFaultMessage env
                 (InvalidDocumentPath (VStr (InitiatePaymentRequest.campaignId request))))),
       w)
  | Some key =>
      match campaigns w !! key with
      | None => (Err (newError "Campagne introuvable"), w)
      | Some c =>
          if negb (strictEqStr (field c "userId") userId) then
            (Err (newError "Cette campagne ne vous appartient pas"), w)
          else if negb (strictEqStr (field c "status") "pending_payment") then
            (Err (newError "Cette campagne n'est pas en attente de paiement"), w)
          else submitPayment env request userId key c w
      end
  end.
Proof.
  intros Hcred [Hcid [Hamount Hphone]].
  unfold initiatePayment, bind at 1.
  rewrite (validateCredentials_configured env w Hcred).
  rewrite Hcid, (validateMtnPhoneNumber_nonEmpty _ Hphone), Hphone.
  replace (InitiatePaymentRequest.amount request =? 0) with false
    by (symmetry; apply Z.eqb_neq; lia).
  replace (InitiatePaymentRequest.amount request <? 100) with false
    by (symmetry; apply Z.ltb_ge; lia).
  msimpl.
  destruct (documentKey (InitiatePaymentRequest.campaignId request)) as [key|];
    [|reflexivity].
  msimpl. destruct (campaigns w !! key) as [c|]; [|reflexivity].
  destruct (strictEqStr (field c "userId") userId); [|reflexivity].
  destruct (strictEqStr (field c "status") "pending_payment"); [|reflexivity].
  msimpl. apply tryCatch_rethrow.
Qed.

Lemma initiateRoute_calls_service
    (env : Env) (uid : string) (body : InitiatePaymentRequest.t) (w : World) :
  requestAcceptable body ->
  initiateRoute env uid body w =
  match initiatePayment env body uid w with
  | (Ok result, w') => ({| statusCode := 200; json := paymentResponseJson result |}, w')
  | (Err error, w') =>
      if Js.includes (message error) "introuvable" then
        ({| statusCode := 404; json := errorJson (message error) "NOT_FOUND" |}, w')
      else if Js.includes (message error) "appartient pas" then
        ({| statusCode := 403; json := errorJson (message error) "PERMISSION_DENIED" |}, w')
      else if Js.includes (message error) "attente de paiement" then
        ({| statusCode := 400; json := errorJson (message error) "INVALID_STATUS" |}, w')
      else
        ({| statusCode := 500;
            json :=
              errorJson
                (if nonEmpty (message error) then message error
                 else "Erreur lors de l'initiation du paiement")
                "INTERNAL_ERROR" |}, w')
  end.
Proof.
  intros [Hcid [Hamount Hphone]]. unfold initiateRoute.
  rewrite Hcid, (validateMtnPhoneNumber_nonEmpty _ Hphone), Hphone.
  replace (InitiatePaymentRequest.amount body =? 0) with false
    by (symmetry; apply Z.eqb_neq; lia).
  replace (InitiatePaymentRequest.amount body <? 100) with false
    by (symmetry; apply Z.ltb_ge; lia).
  msimpl. destruct body. reflexivity.
Qed.

(** X22: for a request that passes validation, with the credentials
    configured, and a campaign id that names a document, the payment route
    answers 404 NOT_FOUND when the campaign does not exist, 403
    PERMISSION_DENIED when it is not the caller's, and 400 INVALID_STATUS
    when it is the caller's but not [pending_payment]; each time the world
    is as it was.  A campaign id that names no document ([a/b]) is refused by
    the store instead: the service throws the store's error. *)
Theorem initiateRoute_campaign_errors
    (env : Env) (uid : string) (body : InitiatePaymentRequest.t) (w : World) :
  credentialsConfigured env = true ->
  requestAcceptable body ->
  let cid := InitiatePaymentRequest.campaignId body in
  (forall key, documentKey cid = Some key -> campaigns w !! key = None ->
   initiateRoute env uid body w =
   ({| statusCode := 404; json := errorJson "Campagne introuvable" "NOT_FOUND" |}, w)) /\
  (forall key c, documentKey cid = Some key -> campaigns w !! key = Some c ->
   field c "userId" <> VStr uid ->
   initiateRoute env uid body w =
   ({| statusCode := 403;
       json := errorJson "Cette campagne ne vous appartient pas" "PERMISSION_DENIED" |}, w)) /\
  (forall key c, documentKey cid = Some key -> campaigns w !! key = Some c ->
   field c "userId" = VStr uid ->
   field c "status" <> VStr "pending_payment" ->
   initiateRoute env uid body w =
   ({| statusCode := 400;
       json := errorJson "Cette campagne n'est pas en attente de paiement"
                 "INVALID_STATUS" |}, w)) /\
  (documentKey cid = None ->
   initiatePayment env body uid w =
   (Err (newError (storeFaultMessage env (InvalidDocumentPath (VStr cid)))), w)).
Proof.
  intros Hcred Hreq cid. fold cid.
  rewrite (initiateRoute_calls_service env uid body w Hreq).
  rewrite (initiatePayment_campaign_guards env body uid w Hcred Hreq). fold cid.
  split; [|split; [|split]].
  - intros key -> ->. reflexivity.
  - intros key c -> -> Howner. apply strictEqStr_false in Howner. rewrite Howner.
    reflexivity.
  - intros key c -> -> -> Hst. apply strictEqStr_false in Hst.
    rewrite strictEqStr_refl, Hst. reflexivity.
  - intros ->. reflexivity.
Qed.

Lemma initiateRoute_campaign_errors_witness :
  initiateRoute Sample.env "user-9" Sample.paymentRequest (Sample.world "pending_payment") =
  ({| statusCode := 403;
      json := errorJson "Cette campagne ne vous appartient pas" "PERMISSION_DENIED" |},
   Sample.world "pending_payment").
Proof.
  destruct (initiateRoute_campaign_errors Sample.env "user-9" Sample.paymentRequest
              (Sample.world "pending_payment"))
    as (_ & Hother & _).
  - reflexivity.
  - split; [reflexivity|]. split; [vm_compute; discriminate|vm_compute; reflexivity].
  - apply (Hother "camp-1" (Sample.campaign "pending_payment")).
    + reflexivity.
    + reflexivity.
    + vm_compute. discriminate.
Defined.



(** ** Refund requests *)

(** X24: [createRefundRequest] returns exactly when the reference id and the
    phone number are set, the amount is not 0, and the requester's id names a
    [users] document whose role is "admin" or "both"; a negative amount and
    any phone number pass. *)
Theorem createRefundRequest_returns_iff
    (env : Env) (referenceId : string) (amount : Z)
    (phoneNumber reason requestedBy : string) (s : RefundStore) :
  (exists r s',
      createRefundRequest env referenceId amount phoneNumber reason requestedBy s
      = (Ok r, s')) <->
  (referenceId <> "" /\ amount <> 0 /\ phoneNumber <> "" /\
   exists userRef u,
     documentKey requestedBy = Some userRef /\
     users s !! userRef = Some u /\
     (field u "role" = VStr "admin" \/ field u "role" = VStr "both")).
Proof.
  unfold createRefundRequest, nonEmpty.
  destruct (String.eqb_spec referenceId "") as [->|Href]; simpl;
    [split; [intros [r [s' H]]; discriminate | intros [H _]; now destruct H]|].
  destruct (Z.eqb_spec amount 0) as [->|Hamount]; simpl;
    [split; [intros [r [s' H]]; discriminate | intros [_ [H _]]; now destruct H]|].
  destruct (String.eqb_spec phoneNumber "") as [->|Hphone]; simpl;
    [split; [intros [r [s' H]]; discriminate | intros [_ [_ [H _]]]; now destruct H]|].
  destruct (documentKey requestedBy) as [userRef|] eqn:Hby.
  - destruct (users s !! userRef) as [u|] eqn:Hu.
    + destruct (strictEqStr (field u "role") "admin") eqn:Ha; simpl.
      * apply strictEqStr_true in Ha. split; [intros _|intros _; eauto].
        repeat split; try assumption. exists userRef, u. auto.
      * destruct (strictEqStr (field u "role") "both") eqn:Hb; simpl.
        -- apply strictEqStr_true in Hb. split; [intros _|intros _; eauto].
           repeat split; try assumption. exists userRef, u. auto.
        -- apply strictEqStr_false in Ha, Hb.
           split; [intros [r [s' H]]; discriminate|].
           intros [_ [_ [_ [userRef' [u' [[= <-] [Hu' [H|H]]]]]]]];
             rewrite Hu in Hu'; injection Hu' as <-; contradiction.
    + split; [intros [r [s' H]]; discriminate|].
      intros [_ [_ [_ [userRef' [u' [[= <-] [Hu' _]]]]]]]. congruence.
  - split; [intros [r [s' H]]; discriminate|].
    intros [_ [_ [_ [userRef' [u' [H _]]]]]]. discriminate.
Qed.

Lemma createRefundRequest_outcome
    (env : Env) (referenceId : string) (amount : Z)
    (phoneNumber reason requestedBy : string) (s s' : RefundStore)
    (outcome : Result RefundResponse.t) :
  createRefundRequest env referenceId amount phoneNumber reason requestedBy s
  = (outcome, s') ->
  match outcome with
  | Err _ => s' = s
  | Ok r =>
      RefundResponse.refundId r = uuidv4 env /\
      users s' = users s /\
      exists record,
        mtn_refunds s' = record :: mtn_refunds s /\
        field record "refundId" = VStr (uuidv4 env) /\
        field record "status" = VStr "PENDING_MANUAL" /\
        field record "originalReferenceId" = VStr referenceId /\
        field record "amount" = VNum amount /\
        field record "requestedBy" = VStr requestedBy /\
        field record "phoneNumber" = VStr (formatPhoneNumber phoneNumber)
  end.
Proof.
  unfold createRefundRequest.
  destruct (_ || _); [intros [= <- <-]; reflexivity|].
  destruct (documentKey requestedBy) as [userRef|]; [|intros [= <- <-]; reflexivity].
  cbv zeta. destruct (negb _ && negb _); intros [= <- <-]; [reflexivity|].
  split; [reflexivity|]. split; [reflexivity|].
  eexists. split; [reflexivity|]. repeat split.
Qed.

(** ** The authentication middleware and the refund route *)

Lemma startsWith_nil_false (a : ascii) (p : string) :
  Js.startsWith "" (String a p) = false.
Proof. reflexivity. Qed.

Lemma cut_none (sep t : string) :
  Js.includes t sep = false -> JsSplit.cut sep t = None.
Proof.
  induction t as [|c t IH]; intros H.
  - simpl in *. rewrite orb_false_r in H. now rewrite H.
  - cbn [Js.includes] in H. apply orb_false_iff in H as [H1 H2].
    cbn [JsSplit.cut]. rewrite H1, (IH H2). reflexivity.
Qed.

Lemma second_bearer (t : string) :
  Js.includes t "Bearer " = false ->
  JsSplit.second "Bearer " ("Bearer " +:+ t) = VStr t.
Proof.
  intros H. unfold JsSplit.second.
  change ("Bearer " +:+ t)
    with (String "B" (String "e" (String "a" (String "r" (String "e"
           (String "r" (String " " t))))))).
  cbn [JsSplit.cut].
  assert (Hs : Js.startsWith
                 (String "B" (String "e" (String "a" (String "r" (String "e"
                    (String "r" (String " " t))))))) "Bearer " = true)
    by reflexivity.
  rewrite Hs. cbn [String.length Js.substringFrom].
  now rewrite (cut_none _ _ H).
Qed.

(** X25 (authenticateToken, auth.ts l.24-82): for a header [Bearer <t>] whose
    token [t] does not itself contain the text [Bearer ], the token handed to
    the identity service is exactly [t]; the request goes on with the decoded
    uid and e-mail when the service accepts it, and is answered 401 with
    [TOKEN_EXPIRED] or [INVALID_TOKEN] when it refuses. *)
Theorem authenticateToken_bearer
    (verifyIdToken : Value -> AuthError + DecodedToken) (userDocs : gmap string Doc)
    (t : string) :
  Js.includes t "Bearer " = false ->
  match verifyIdToken (VStr t) with
  | inr decodedToken =>
      exists user,
        authenticateToken verifyIdToken userDocs (Some ("Bearer " +:+ t)) = Next (Some user) /\
        uid user = decodedUid decodedToken /\
        email user = decodedEmail decodedToken
  | inl error =>
      exists res,
        authenticateToken verifyIdToken userDocs (Some ("Bearer " +:+ t)) = Answered res /\
        statusCode res = 401 /\
        getPropOpt (json res) "code" =
          VStr (if String.eqb (authCode error) "auth/id-token-expired"
                then "TOKEN_EXPIRED" else "INVALID_TOKEN")
  end.
Proof.
  intros H. unfold authenticateToken.
  assert (Hn : nonEmpty ("Bearer " +:+ t) = true) by reflexivity.
  assert (Hs : Js.startsWith ("Bearer " +:+ t) "Bearer " = true) by reflexivity.
  rewrite Hn, Hs, (second_bearer _ H). cbn [negb orb].
  destruct (verifyIdToken (VStr t)) as [error|decodedToken].
  - destruct (String.eqb (authCode error) "auth/id-token-expired");
      eexists; (split; [reflexivity|split; reflexivity]).
  - eexists. split; [reflexivity|split; reflexivity].
Qed.

Lemma authenticateToken_bearer_witness :
  exists user,
    authenticateToken Cases.verifyIdToken (users Cases.refundStore)
      (Some "Bearer tok-admin") = Next (Some user) /\
    uid user = "admin-1" /\
    email user = Some "admin@ilios.cm".
Proof.
  apply (authenticateToken_bearer Cases.verifyIdToken (users Cases.refundStore)
           "tok-admin").
  reflexivity.
Defined.

Lemma authenticateToken_next (verifyIdToken : Value -> AuthError + DecodedToken)
    (userDocs : gmap string Doc) (authorization : option string) (user : option AuthUser) :
  authenticateToken verifyIdToken userDocs authorization = Next user ->
  exists authHeader decodedToken,
    authorization = Some authHeader /\
    Js.startsWith authHeader "Bearer " = true /\
    verifyIdToken (JsSplit.second "Bearer " authHeader) = inr decodedToken /\
    user = Some {| uid := decodedUid decodedToken;
                   email := decodedEmail decodedToken;
                   role :=
                     match documentKey (decodedUid decodedToken) with
                     | Some userRef =>
                         match userDocs !! userRef with
                         | Some userData => field userData "role"
                         | None => VUndef
                         end
                     | None => VUndef
                     end |}.
Proof.
  unfold authenticateToken. destruct authorization as [authHeader|]; [|discriminate].
  destruct (nonEmpty authHeader); [|discriminate].
  destruct (Js.startsWith authHeader "Bearer ") eqn:Hs; [|discriminate].
  cbn [negb orb].
  destruct (verifyIdToken (JsSplit.second "Bearer " authHeader)) as [error|d] eqn:Hv.
  - destruct (String.eqb (authCode error) "auth/id-token-expired"); discriminate.
  - intros [= <-]. now exists authHeader, d.
Qed.

Lemma authenticateToken_answered (verifyIdToken : Value -> AuthError + DecodedToken)
    (userDocs : gmap string Doc) (authorization : option string) (res : Response) :
  authenticateToken verifyIdToken userDocs authorization = Answered res ->
  statusCode res = 401 /\
  forall authHeader decodedToken,
    authorization = Some authHeader ->
    Js.startsWith authHeader "Bearer " = true ->
    verifyIdToken (JsSplit.second "Bearer " authHeader) <> inr decodedToken.
Proof.
  unfold authenticateToken. destruct authorization as [authHeader|].
  - destruct (nonEmpty authHeader) eqn:Hn.
    + destruct (Js.startsWith authHeader "Bearer ") eqn:Hs; cbn [negb orb].
      * destruct (verifyIdToken (JsSplit.second "Bearer " authHeader)) as [error|d] eqn:Hv.
        -- destruct (String.eqb (authCode error) "auth/id-token-expired");
             intros [= <-]; (split; [reflexivity|]);
             intros h d [= <-] _; rewrite Hv; discriminate.
        -- discriminate.
      * intros [= <-]. split; [reflexivity|]. intros h d [= <-]. congruence.
    + cbn [negb orb]. intros [= <-]. split; [reflexivity|].
      intros h d [= <-] Hs. destruct authHeader; [discriminate Hs|discriminate Hn].
  - intros [= <-]. split; [reflexivity|]. discriminate.
Qed.

Lemma nonEmpty_true (s : string) : nonEmpty s = true <-> s <> "".
Proof.
  unfold nonEmpty. rewrite negb_true_iff, String.eqb_neq. reflexivity.
Qed.

(** X26 (the refund route, payment.routes.ts l.984-1029, with
    authenticateToken, requireAdmin and createRefundRequest): the route
    answers 200 exactly when the bearer token is accepted, the [users]
    document of the decoded uid carries the role [admin] or [both], and the
    four fields of the body are present; it then adds one [PENDING_MANUAL]
    record requested by that uid.  In every other case the refund store is
    left as it was and the answer is 400, 401 or 403: behind the two
    middlewares the service's own role check and the 500 answer are never
    reached. *)
Theorem refundRoute_admin_only
    (verifyIdToken : Value -> AuthError + DecodedToken) (env : Env)
    (authorization : option string) (body : RefundRequest.t) (s : RefundStore) :
  exists res s',
    refundRoute verifyIdToken env authorization body s = (res, s') /\
    users s' = users s /\
    (statusCode res = 200 <->
     (exists caller, isAdminCaller verifyIdToken (users s) authorization caller) /\
     refundComplete body) /\
    (forall caller,
        isAdminCaller verifyIdToken (users s) authorization caller ->
        refundComplete body ->
        exists record,
          mtn_refunds s' = record :: mtn_refunds s /\
          field record "requestedBy" = VStr caller /\
          field record "originalReferenceId" = VStr (RefundRequest.referenceId body) /\
          field record "status" = VStr "PENDING_MANUAL") /\
    (statusCode res <> 200 ->
     s' = s /\ (statusCode res = 400 \/ statusCode res = 401 \/ statusCode res = 403)).
Proof.
  unfold refundRoute.
  destruct (authenticateToken verifyIdToken (users s) authorization) as [res|user] eqn:Ha.
  - apply authenticateToken_answered in Ha as [H401 Hno].
    exists res, s. split; [reflexivity|]. split; [reflexivity|].
    assert (Hnot : forall caller,
               ~ isAdminCaller verifyIdToken (users s) authorization caller).
    { intros caller (h & d & k & u & Hh & Hs & Hv & _). exact (Hno h d Hh Hs Hv). }
    split; [|split].
    + rewrite H401. split; [discriminate|]. intros [[caller Hc] _]. now apply Hnot in Hc.
    + intros caller Hc. now apply Hnot in Hc.
    + intros _. auto.
  - apply authenticateToken_next in Ha as (h & d & Hh & Hs & Hv & ->).
    unfold requireAdmin. cbn [role].
    set (r := match documentKey (decodedUid d) with Some _ => _ | None => _ end).
    assert (Hrole : (r = VStr "admin" \/ r = VStr "both") <->
                    isAdminCaller verifyIdToken (users s) authorization (decodedUid d)).
    { subst r. split.
      - intros Hr. destruct (documentKey (decodedUid d)) as [k|] eqn:Hk;
          [|destruct Hr; discriminate].
        destruct (users s !! k) as [u|] eqn:Hu; [|destruct Hr; discriminate].
        exists h, d, k, u. auto 10.
      - intros (h' & d' & k & u & Hh' & _ & Hv' & Hd & Hk & Hu & Hr).
        rewrite Hh in Hh'. injection Hh' as <-. rewrite Hv in Hv'. injection Hv' as <-.
        now rewrite Hk, Hu. }
    assert (Hsame : forall caller,
               isAdminCaller verifyIdToken (users s) authorization caller ->
               caller = decodedUid d).
    { intros caller (h' & d' & k & u & Hh' & _ & Hv' & Hd & _).
      rewrite Hh in Hh'. injection Hh' as <-. rewrite Hv in Hv'. now injection Hv' as <-. }
    destruct (negb (strictEqStr r "admin") && negb (strictEqStr r "both")) eqn:Hr.
    + apply andb_true_iff in Hr as [Hr1 Hr2].
      apply negb_true_iff, strictEqStr_false in Hr1, Hr2.
      assert (Hnot : forall caller,
                 ~ isAdminCaller verifyIdToken (users s) authorization caller).
      { intros caller Hc. rewrite (Hsame _ Hc) in Hc. apply Hrole in Hc.
        destruct Hc; contradiction. }
      eexists _, s. split; [reflexivity|]. split; [reflexivity|]. cbn [statusCode].
      split; [|split].
      * split; [discriminate|]. intros [[caller Hc] _]. now apply Hnot in Hc.
      * intros caller Hc. now apply Hnot in Hc.
      * intros _. auto.
    + assert (Hadm : r = VStr "admin" \/ r = VStr "both").
      { apply andb_false_iff in Hr as [Hr|Hr]; apply negb_false_iff, strictEqStr_true in Hr;
          auto. }
      assert (Hc : isAdminCaller verifyIdToken (users s) authorization (decodedUid d))
        by now apply Hrole.
      unfold refundHandler. cbn [uid].
      destruct (nonEmpty (RefundRequest.referenceId body)) eqn:H1; cbn [negb orb].
      2:{ eexists _, s. split; [reflexivity|]. split; [reflexivity|]. cbn [statusCode].
          assert (Hinc : ~ refundComplete body).
          { intros [Hx _]. apply nonEmpty_true in Hx. congruence. }
          split; [|split]; [split; [discriminate|tauto] | tauto | auto]. }
      destruct (Z.eqb_spec (RefundRequest.amount body) 0) as [H2|H2]; cbn [negb orb].
      { eexists _, s. split; [reflexivity|]. split; [reflexivity|]. cbn [statusCode].
        assert (Hinc : ~ refundComplete body) by (intros (_ & Hx & _); contradiction).
        split; [|split]; [split; [discriminate|tauto] | tauto | auto]. }
      destruct (nonEmpty (RefundRequest.phoneNumber body)) eqn:H3; cbn [negb orb].
      2:{ eexists _, s. split; [reflexivity|]. split; [reflexivity|]. cbn [statusCode].
          assert (Hinc : ~ refundComplete body).
          { intros (_ & _ & Hx & _). apply nonEmpty_true in Hx. congruence. }
          split; [|split]; [split; [discriminate|tauto] | tauto | auto]. }
      destruct (nonEmpty (RefundRequest.reason body)) eqn:H4; cbn [negb orb].
      2:{ eexists _, s. split; [reflexivity|]. split; [reflexivity|]. cbn [statusCode].
          assert (Hinc : ~ refundComplete body).
          { intros (_ & _ & _ & Hx). apply nonEmpty_true in Hx. congruence. }
          split; [|split]; [split; [discriminate|tauto] | tauto | auto]. }
      assert (Hcomplete : refundComplete body).
      { apply nonEmpty_true in H1, H3, H4. repeat split; assumption. }
      destruct Hc as (h' & d' & k & u & Hh' & _ & Hv' & Hd & Hk & Hu & Hur).
      destruct (createRefundRequest env (RefundRequest.referenceId body)
                  (RefundRequest.amount body) (RefundRequest.phoneNumber body)
                  (RefundRequest.reason body) (decodedUid d) s) as [outcome s'] eqn:Hcr.
      assert (Hok : exists result, outcome = Ok result).
      { revert Hcr. unfold createRefundRequest.
        rewrite H1, H3, Hk, Hu.
        destruct (Z.eqb_spec (RefundRequest.amount body) 0) as [?|_]; [contradiction|].
        cbn [negb orb]. cbv zeta.
        replace (negb (strictEqStr (field u "role") "admin")
                 && negb (strictEqStr (field u "role") "both")) with false
          by (destruct Hur as [-> | ->]; reflexivity).
        intros [= <- _]. eauto. }
      destruct Hok as [result ->].
      apply createRefundRequest_outcome in Hcr as (_ & Husers & record & Hrec & _ & Hst & Href & _ & Hby & _).
      exists {| statusCode := 200; json := refundResponseJson result |}, s'.
      split; [reflexivity|]. split; [exact Husers|]. cbn [statusCode].
      split; [|split].
      * split; [intros _|reflexivity]. split; [|exact Hcomplete].
        exists (decodedUid d), h, d, k, u. repeat split; assumption.
      * intros caller Hcaller _. rewrite (Hsame _ Hcaller). eauto.
      * intros Hx. now destruct Hx.
Qed.
